(** * Diagnostics engine, context assembly and daily overview

    A shallow embedding of [app/services/analytics.py] (class
    [AnalyticsEngine]) and [app/services/ai_analyst.py] (class [AIAnalyst]),
    over the tables of [app/models/models.py].

    Python floats are IEEE-754 binary64 numbers and are modelled by Rocq's
    primitive floats, so every comparison against a threshold is the
    comparison the interpreter performs.  Nullable columns are [option]s, an
    operation on [None] raises [TypeError], a division by zero raises
    [ZeroDivisionError]; raising code lives in the [result] monad and a
    [try ... except Exception] block is [try_except]. *)

From Stdlib Require Import ZArith String Ascii Bool Lia List.
From Stdlib Require Import Floats DecimalString.
Import ListNotations.

Set Warnings "-inexact-float,-register-all".
Local Open Scope string_scope.
Local Open Scope Z_scope.

(* ================================================================== *)
(** ** Exceptions and the [result] monad *)

Inductive exn_kind : Type :=
| ZeroDivisionError
| TypeError
| OverflowError
| AttributeError
| JSONDecodeError
| CollaboratorError.

(** An exception object: its class and [str(e)]. *)
Record exn : Type := Exn { exn_kind_of : exn_kind; exn_str : string }.

Inductive result (A : Type) : Type :=
| Ok (a : A)
| Raise (e : exn).
Arguments Ok {A} a.
Arguments Raise {A} e.

Definition bind {A B} (m : result A) (k : A -> result B) : result B :=
  match m with
  | Ok a => k a
  | Raise e => Raise e
  end.

Declare Scope result_scope.
Delimit Scope result_scope with result.
Notation "x <- m ;; k" := (bind m (fun x => k))
  (at level 61, m at next level, right associativity) : result_scope.
Local Open Scope result_scope.

(** [try: body except Exception: return None] around a body that returns an
    optional value. *)
Definition try_except {A} (body : result (option A)) : option A :=
  match body with
  | Ok r => r
  | Raise _ => None
  end.

Definition raises {A} (m : result A) (k : exn_kind) : Prop :=
  exists msg, m = Raise (Exn k msg).

Definition type_error {A} : result A :=
  Raise (Exn TypeError "unsupported operand type(s): 'NoneType'").

(** Reading a nullable column in an arithmetic or ordering expression. *)
Definition operand {A} (x : option A) : result A :=
  match x with
  | Some v => Ok v
  | None => type_error
  end.

Fixpoint operands {A} (xs : list (option A)) : result (list A) :=
  match xs with
  | [] => Ok []
  | x :: xs' => v <- operand x ;; vs <- operands xs' ;; Ok (v :: vs)
  end.

(* ================================================================== *)
(** ** Python numbers *)

Definition is_zero (x : float) : bool := PrimFloat.eqb x 0%float.
Definition gt (x y : float) : bool := PrimFloat.ltb y x.
Definition lt (x y : float) : bool := PrimFloat.ltb x y.

(** [a / b] on floats. *)
Definition float_div (a b : float) : result float :=
  if is_zero b then Raise (Exn ZeroDivisionError "float division by zero")
  else Ok (a / b)%float.

(** [float(n)] for an [int]: correctly rounded, [OverflowError] when the
    integer is beyond the range of a double. *)
Definition int_to_float (n : Z) : result float :=
  let f := SF2Prim (binary_normalize prec emax n 0 false) in
  if PrimFloat.is_infinity f
  then Raise (Exn OverflowError "int too large to convert to float")
  else Ok f.

(** [a / b] on two [int]s: the correctly rounded quotient.  The quotient is
    taken with at least 56 significant bits, its last bit made sticky, and
    then rounded once to binary64. *)
Definition int_truediv (a b : Z) : result float :=
  if b =? 0 then Raise (Exn ZeroDivisionError "division by zero")
  else if a =? 0 then Ok (if b <? 0 then (-0)%float else 0%float)
  else
    let k := Z.log2 (Z.abs b) + 57 in
    let n := Z.abs a * 2 ^ k in
    let q := n / Z.abs b in
    let q' := if n mod Z.abs b =? 0 then q else Z.lor q 1 in
    let s := Z.sgn a * Z.sgn b in
    let f := SF2Prim (binary_normalize prec emax (s * q') (- k) false) in
    if PrimFloat.is_infinity f
    then Raise (Exn OverflowError "integer division result too large for a float")
    else Ok f.

(** [x / n] and [n / x] with a float [x] and an [int] [n]. *)
Definition float_div_int (a : float) (n : Z) : result float :=
  b <- int_to_float n ;; float_div a b.

Definition int_div_float (n : Z) (b : float) : result float :=
  a <- int_to_float n ;; float_div a b.

(** [min(a, b)] and [max(xs)] as the builtins compute them: the first
    argument is kept unless a later one compares strictly below (above). *)
Definition py_min (a b : float) : float := if lt b a then b else a.

Definition py_max (x : float) (xs : list float) : float :=
  fold_left (fun m y => if gt y m then y else m) xs x.

(** [len(xs) / 10]. *)
Definition len_over_10 {A} (xs : list A) : result float :=
  int_truediv (Z.of_nat (length xs)) 10.

Definition sum_int (xs : list Z) : Z := fold_left Z.add xs 0.

Fixpoint map_result {A B} (f : A -> result B) (xs : list A) : result (list B) :=
  match xs with
  | [] => Ok []
  | x :: xs' => y <- f x ;; ys <- map_result f xs' ;; Ok (y :: ys)
  end.

(** The values that are not [None]: [[v for v in xs if v is not None]]. *)
Fixpoint not_none {A} (xs : list (option A)) : list A :=
  match xs with
  | [] => []
  | Some v :: xs' => v :: not_none xs'
  | None :: xs' => not_none xs'
  end.

(* ================================================================== *)
(** ** Structured values

    Python values that travel through dictionaries and JSON columns.  A
    [dict] keeps its insertion order, so it is an association list. *)

Inductive value : Type :=
| VNone
| VBool (b : bool)
| VInt (n : Z)
| VFloat (x : float)
| VStr (s : string)
| VList (xs : list value)
| VDict (kvs : list (string * value)).

Definition of_float (x : option float) : value :=
  match x with Some v => VFloat v | None => VNone end.

Definition of_int (x : option Z) : value :=
  match x with Some v => VInt v | None => VNone end.

Fixpoint lookup (k : string) (kvs : list (string * value)) : option value :=
  match kvs with
  | [] => None
  | (k', v) :: kvs' => if String.eqb k k' then Some v else lookup k kvs'
  end.

(** [d[k]] seen from outside: the entry of a dictionary value, if any. *)
Definition entry (k : string) (d : value) : option value :=
  match d with
  | VDict kvs => lookup k kvs
  | _ => None
  end.

Definition type_name (v : value) : string :=
  match v with
  | VNone => "NoneType"
  | VBool _ => "bool"
  | VInt _ => "int"
  | VFloat _ => "float"
  | VStr _ => "str"
  | VList _ => "list"
  | VDict _ => "dict"
  end.

(** [v.get(k, default)]: only a [dict] has the method. *)
Definition get (v : value) (k : string) (default : value) : result value :=
  match v with
  | VDict kvs =>
      Ok (match lookup k kvs with Some x => x | None => default end)
  | _ =>
      Raise (Exn AttributeError
               ("'" ++ type_name v ++ "' object has no attribute 'get'"))
  end.

(* ================================================================== *)
(** ** Dates

    A [datetime] is counted in microseconds from [datetime.min]
    (0001-01-01T00:00:00); subtracting a [timedelta] below that origin
    raises [OverflowError]. *)

Definition datetime : Type := Z.

Definition timedelta_days (n : Z) : Z := n * 86400000000.

Definition minus_days (d : datetime) (n : Z) : result datetime :=
  if d - timedelta_days n <? 0
  then Raise (Exn OverflowError "date value out of range")
  else Ok (d - timedelta_days n).

(* ================================================================== *)
(** ** Tables ([app/models/models.py])

    Surrogate ids, raw API blobs and [created_at] stamps are left out: no
    query of the two services reads them.  A table is the list of its rows
    in insertion (primary key) order. *)

Module AdAccountSnapshot.
Record t : Type := mk {
  snapshot_date : datetime;
  ad_account_id : string;
  spend : option float;
  impressions : option Z;
  clicks : option Z;
  reach : option Z;
  frequency : option float;
  cpm : option float;
  cpc : option float;
  ctr : option float
}.
End AdAccountSnapshot.

Module EventsManagerHealth.
Record t : Type := mk {
  snapshot_date : datetime;
  events_received : option Z;
  events_dropped : option Z;
  events_duplicate : option Z;
  events_matched : option Z;
  tracking_quality_score : option float
}.
End EventsManagerHealth.

Module DiagnosticResult.
Record t : Type := mk {
  snapshot_date : datetime;
  diagnostic_type : string;
  metric_name : string;
  current_value : option float;
  previous_value : option float;
  change_percentage : option float;
  severity : string;
  confidence : float;
  explanation : string;
  recommendation : string;
  diagnostic_metadata : list (string * value)
}.
End DiagnosticResult.

Module DailyOverview.
Record t : Type := mk {
  overview_date : datetime;
  summary : value;
  key_changes : value;
  insights : value;
  recommendations : value
}.
End DailyOverview.

(* ================================================================== *)
(** ** Library functions

    What the code calls in the interpreter's runtime, in third-party
    libraries and in the database engine.  The embedding is parametric in
    them; [cpython] below is the instance the examples run on. *)

Record Runtime : Type := {
  (** [sum(xs)] over floats, from the integer start value 0 *)
  builtin_sum : list float -> float;
  (** [numpy.std(xs)] *)
  np_std : list float -> float;
  (** [x ** 2], or [None] when the power overflows *)
  float_square : float -> option float;
  (** [format(x, '.Nf')], as in an f-string [{x:.Nf}] *)
  format_fixed : nat -> float -> string;
  (** [d.isoformat()] *)
  isoformat : datetime -> string;
  (** [json.loads(s)] *)
  json_loads : string -> result value;
  (** [json.dumps(v)] *)
  json_dumps : value -> string;
  (** The key of the index the engine scans to answer a query on the health
      table that has no ORDER BY: such a query returns its rows in ascending
      order of this key. *)
  health_rank : EventsManagerHealth.t -> Z;
  (** The same for a query on the diagnostics table. *)
  diagnostic_rank : DiagnosticResult.t -> Z;
  (** What a [Text] column gives back once a commit has bound the value to
      it, or the error that commit raises. *)
  bind_text : value -> result value
}.

(** The store: its four tables. *)
Record Db : Type := {
  ad_account_snapshots : list AdAccountSnapshot.t;
  events_manager_health : list EventsManagerHealth.t;
  diagnostic_results : list DiagnosticResult.t;
  daily_overviews : list DailyOverview.t
}.

(** One campaign row of [MetaAPIClient.get_campaign_insights]; [spend] is
    always a float there ([float(insight.get('spend', 0))]). *)
Record Campaign : Type := { campaign_id : string; campaign_spend : float }.

(** The ad platform as the engine sees it: [None] when constructing
    [MetaAPIClient()] raises, else [get_campaign_insights], which returns a
    list (empty when the fetch fails). *)
Definition MetaAPI : Type := option (datetime -> datetime -> list Campaign).

(** *** Query combinators

    A query without ORDER BY returns its rows in the order of the index the
    engine scans.  Where the filter is an equality on the date, the rows
    scanned have one key and come out as they were stored, so [first] of the
    filtered table is the earliest stored match.  Where the rows scanned
    differ in their key (the range query on the health table, the
    diagnostics of a date), the query goes through [index_scan] with the
    engine's key. *)

(** [.first()] *)
Definition first {A} (rows : list A) : option A :=
  match rows with
  | [] => None
  | r :: _ => Some r
  end.

(** [.limit(n)] *)
Definition limit {A} (n : nat) (rows : list A) : list A := firstn n rows.

Fixpoint insert_desc {A} (key : A -> Z) (r : A) (rows : list A) : list A :=
  match rows with
  | [] => [r]
  | r' :: rows' =>
      if key r' <? key r then r :: rows else r' :: insert_desc key r rows'
  end.

(** [.order_by(col.desc())].  Rows with equal keys come out latest first,
    as the backward scan of an index gives them. *)
Definition order_by_desc {A} (key : A -> Z) (rows : list A) : list A :=
  fold_right (insert_desc key) [] rows.

Fixpoint insert_asc {A} (key : A -> Z) (r : A) (rows : list A) : list A :=
  match rows with
  | [] => [r]
  | r' :: rows' =>
      if key r <=? key r' then r :: rows else r' :: insert_asc key r rows'
  end.

(** The rows of a query without ORDER BY, as the engine returns them: in
    ascending order of the key of the index it scans, rows of equal key in
    insertion order. *)
Definition index_scan {A} (key : A -> Z) (rows : list A) : list A :=
  fold_right (insert_asc key) [] rows.

(* ================================================================== *)
(** ** [AnalyticsEngine] ([app/services/analytics.py]) *)

Section Engine.

Import AdAccountSnapshot.

Variable rt : Runtime.
Variable meta : MetaAPI.
Variable db : Db.

Local Abbreviation fmt := (format_fixed rt).
Local Infix "+++" := String.append (at level 60, right associativity).

(** The trailing-window query shared by the fatigue, saturation and auction
    categories:
    [filter(account == cur.account, date >= cur.date - 7d, date < cur.date)
     .order_by(date.desc()).limit(7).all()]. *)
Definition snapshots_7d (current_snapshot : AdAccountSnapshot.t)
  : result (list AdAccountSnapshot.t) :=
  date_7d_ago <- minus_days (snapshot_date current_snapshot) 7 ;;
  Ok (limit 7
        (order_by_desc snapshot_date
           (filter
              (fun s =>
                 String.eqb (ad_account_id s) (ad_account_id current_snapshot)
                 && (date_7d_ago <=? snapshot_date s)
                 && (snapshot_date s <? snapshot_date current_snapshot))
              (ad_account_snapshots db)))).

(** Body of [compute_fatigue], inside its [try]. *)
Definition fatigue_body (current_snapshot : AdAccountSnapshot.t)
  : result (option DiagnosticResult.t) :=
  snapshots_7d <- snapshots_7d current_snapshot ;;
  if (length snapshots_7d <? 3)%nat then Ok None else
  let recent_frequency := frequency current_snapshot in
  frequencies <- operands (map frequency snapshots_7d) ;;
  avg_frequency_7d <-
    float_div_int (builtin_sum rt frequencies) (Z.of_nat (length snapshots_7d)) ;;
  if is_zero avg_frequency_7d then Ok None else
  recent <- operand recent_frequency ;;
  ratio <- float_div (recent - avg_frequency_7d)%float avg_frequency_7d ;;
  let frequency_increase := (ratio * 100)%float in
  let severity :=
    if gt frequency_increase 30 then "high"
    else if gt frequency_increase 15 then "medium"
    else "low" in
  tenth <- len_over_10 snapshots_7d ;;
  let confidence := py_min 0.95 (0.6 + tenth)%float in
  let explanation :=
    "Frequency increased by " +++ fmt 1%nat frequency_increase
      +++ "% compared to 7-day average. "
      +++ "Current frequency: " +++ fmt 2%nat recent
      +++ ", 7-day average: " +++ fmt 2%nat avg_frequency_7d +++ "." in
  let recommendation :=
    if String.eqb severity "high"
    then "High ad fatigue detected. Urgent action recommended: refresh creatives, expand audiences, or reduce frequency caps."
    else "Consider refreshing creative assets or adjusting audience targeting to reduce ad fatigue." in
  Ok (Some
        (DiagnosticResult.mk
           (snapshot_date current_snapshot) "fatigue" "frequency"
           (Some recent) (Some avg_frequency_7d) (Some frequency_increase)
           severity confidence explanation recommendation
           [("snapshots_analyzed", VInt (Z.of_nat (length snapshots_7d)))])).

Definition compute_fatigue (current_snapshot : AdAccountSnapshot.t)
  : option DiagnosticResult.t :=
  try_except (fatigue_body current_snapshot).

(** Body of [compute_saturation]. *)
Definition saturation_body (current_snapshot : AdAccountSnapshot.t)
  : result (option DiagnosticResult.t) :=
  snapshots_7d <- snapshots_7d current_snapshot ;;
  if (length snapshots_7d <? 3)%nat then Ok None else
  let recent_reach := reach current_snapshot in
  let recent_spend := spend current_snapshot in
  reaches <- operands (map reach snapshots_7d) ;;
  avg_reach_7d <- int_truediv (sum_int reaches) (Z.of_nat (length snapshots_7d)) ;;
  spends <- operands (map spend snapshots_7d) ;;
  avg_spend_7d <-
    float_div_int (builtin_sum rt spends) (Z.of_nat (length snapshots_7d)) ;;
  if is_zero avg_reach_7d || is_zero avg_spend_7d then Ok None else
  recent_reach <- operand recent_reach ;;
  recent_reach_f <- int_to_float recent_reach ;;
  reach_ratio <- float_div (recent_reach_f - avg_reach_7d)%float avg_reach_7d ;;
  let reach_change := (reach_ratio * 100)%float in
  recent_spend <- operand recent_spend ;;
  spend_ratio <- float_div (recent_spend - avg_spend_7d)%float avg_spend_7d ;;
  let spend_change := (spend_ratio * 100)%float in
  reach_per_dollar <-
    (if gt recent_spend 0 then int_div_float recent_reach recent_spend
     else Ok 0%float) ;;
  avg_reach_per_dollar <-
    (if gt avg_spend_7d 0 then float_div avg_reach_7d avg_spend_7d
     else Ok 0%float) ;;
  efficiency_decline <-
    (if gt avg_reach_per_dollar 0
     then r <- float_div (reach_per_dollar - avg_reach_per_dollar)%float
                 avg_reach_per_dollar ;;
          Ok (r * 100)%float
     else Ok 0%float) ;;
  let severity :=
    if lt efficiency_decline (-20) then "high"
    else if lt efficiency_decline (-10) then "medium"
    else "low" in
  tenth <- len_over_10 snapshots_7d ;;
  let confidence := py_min 0.95 (0.65 + tenth)%float in
  let explanation :=
    "Reach efficiency declined by " +++ fmt 1%nat (abs efficiency_decline)
      +++ "%. "
      +++ "Current reach per dollar: $" +++ fmt 2%nat reach_per_dollar
      +++ ", 7-day average: $" +++ fmt 2%nat avg_reach_per_dollar +++ "." in
  let recommendation :=
    if String.eqb severity "high"
    then "High saturation detected. Consider significant audience expansion, new creative angles, or exploring new markets/placements."
    else "Market may be reaching saturation. Consider testing new audiences, expanding to new placements, or adjusting bid strategies." in
  Ok (Some
        (DiagnosticResult.mk
           (snapshot_date current_snapshot) "saturation" "reach_efficiency"
           (Some reach_per_dollar) (Some avg_reach_per_dollar)
           (Some efficiency_decline)
           severity confidence explanation recommendation
           [("reach_change", VFloat reach_change);
            ("spend_change", VFloat spend_change);
            ("snapshots_analyzed", VInt (Z.of_nat (length snapshots_7d)))])).

Definition compute_saturation (current_snapshot : AdAccountSnapshot.t)
  : option DiagnosticResult.t :=
  try_except (saturation_body current_snapshot).

(** [share ** 2] *)
Definition pow2 (x : float) : result float :=
  match float_square rt x with
  | Some y => Ok y
  | None => Raise (Exn OverflowError "(34, 'Numerical result out of range')")
  end.

(** Body of [compute_delivery_concentration]. *)
Definition delivery_concentration_body (current_snapshot : AdAccountSnapshot.t)
  : result (option DiagnosticResult.t) :=
  client <-
    match meta with
    | Some client => Ok client
    | None => Raise (Exn CollaboratorError "MetaAPIClient")
    end ;;
  date_start <- minus_days (snapshot_date current_snapshot) 1 ;;
  let date_end := snapshot_date current_snapshot in
  let campaigns := client date_start date_end in
  if (length campaigns <? 2)%nat then Ok None else
  let total_spend := builtin_sum rt (map campaign_spend campaigns) in
  if is_zero total_spend then Ok None else
  spend_shares <-
    map_result (fun c => float_div (campaign_spend c) total_spend) campaigns ;;
  squares <- map_result pow2 spend_shares ;;
  let herfindahl_index := builtin_sum rt squares in
  let concentration_ratio :=
    match spend_shares with
    | [] => 0%float
    | x :: xs => py_max x xs
    end in
  let severity :=
    if gt concentration_ratio 0.7 || gt herfindahl_index 0.5 then "high"
    else if gt concentration_ratio 0.5 || gt herfindahl_index 0.3 then "medium"
    else "low" in
  let confidence := 0.8%float in
  let explanation :=
    "Spend concentration: " +++ fmt 1%nat (concentration_ratio * 100)%float
      +++ "% in top campaign. "
      +++ "Herfindahl index: " +++ fmt 3%nat herfindahl_index
      +++ " (higher = more concentrated)." in
  let recommendation :=
    if String.eqb severity "low"
    then "Delivery is well-distributed across campaigns."
    else "High delivery concentration detected. Consider diversifying spend across more campaigns to reduce risk." in
  Ok (Some
        (DiagnosticResult.mk
           (snapshot_date current_snapshot)
           "delivery_concentration" "concentration_ratio"
           (Some concentration_ratio) None None
           severity confidence explanation recommendation
           [("herfindahl_index", VFloat herfindahl_index);
            ("total_campaigns", VInt (Z.of_nat (length campaigns)));
            ("top_campaign_spend_share", VFloat concentration_ratio)])).

Definition compute_delivery_concentration
  (current_snapshot : AdAccountSnapshot.t) : option DiagnosticResult.t :=
  try_except (delivery_concentration_body current_snapshot).

(** Body of [compute_auction_shifts]. *)
Definition auction_shifts_body (current_snapshot : AdAccountSnapshot.t)
  : result (option DiagnosticResult.t) :=
  snapshots_7d <- snapshots_7d current_snapshot ;;
  if (length snapshots_7d <? 3)%nat then Ok None else
  match cpm current_snapshot with
  | None => Ok None
  | Some recent_cpm =>
  let cpm_values := not_none (map cpm snapshots_7d) in
  if (length cpm_values <? 2)%nat then Ok None else
  avg_cpm_7d <-
    float_div_int (builtin_sum rt cpm_values) (Z.of_nat (length cpm_values)) ;;
  cpm_change <-
    (if gt avg_cpm_7d 0
     then r <- float_div (recent_cpm - avg_cpm_7d)%float avg_cpm_7d ;;
          Ok (r * 100)%float
     else Ok 0%float) ;;
  let cpm_std :=
    if (1 <? length cpm_values)%nat then np_std rt cpm_values else 0%float in
  cpm_volatility <-
    (if gt avg_cpm_7d 0
     then r <- float_div cpm_std avg_cpm_7d ;; Ok (r * 100)%float
     else Ok 0%float) ;;
  let severity :=
    if gt (abs cpm_change) 25 || gt cpm_volatility 20 then "high"
    else if gt (abs cpm_change) 15 || gt cpm_volatility 15 then "medium"
    else "low" in
  tenth <- len_over_10 cpm_values ;;
  let confidence := py_min 0.95 (0.7 + tenth)%float in
  let explanation :=
    "CPM changed by " +++ fmt 1%nat cpm_change +++ "% vs 7-day average. "
      +++ "Current CPM: $" +++ fmt 2%nat recent_cpm
      +++ ", 7-day average: $" +++ fmt 2%nat avg_cpm_7d +++ ". "
      +++ "Volatility: " +++ fmt 1%nat cpm_volatility +++ "%." in
  let recommendation :=
    if String.eqb severity "low"
    then "Auction dynamics are relatively stable."
    else "Significant auction shifts detected. Monitor competitive landscape and consider bid adjustments." in
  Ok (Some
        (DiagnosticResult.mk
           (snapshot_date current_snapshot) "auction_shifts" "cpm"
           (Some recent_cpm) (Some avg_cpm_7d) (Some cpm_change)
           severity confidence explanation recommendation
           [("cpm_volatility",
             if gt avg_cpm_7d 0 then VFloat cpm_volatility else VInt 0);
            ("snapshots_analyzed", VInt (Z.of_nat (length cpm_values)))]))
  end.

Definition compute_auction_shifts (current_snapshot : AdAccountSnapshot.t)
  : option DiagnosticResult.t :=
  try_except (auction_shifts_body current_snapshot).

(** Body of [compute_tracking_degradation]. *)
Definition tracking_degradation_body (current_snapshot : AdAccountSnapshot.t)
  : result (option DiagnosticResult.t) :=
  date_7d_ago <- minus_days (snapshot_date current_snapshot) 7 ;;
  date_1d_ago <- minus_days (snapshot_date current_snapshot) 1 ;;
  let recent_health :=
    first
      (index_scan (health_rank rt)
         (filter
            (fun h =>
               (date_1d_ago <=? EventsManagerHealth.snapshot_date h)
               && (EventsManagerHealth.snapshot_date h
                     <=? snapshot_date current_snapshot))
            (events_manager_health db))) in
  match recent_health with
  | None => Ok None
  | Some recent_health =>
  let historical_health :=
    limit 7
      (order_by_desc EventsManagerHealth.snapshot_date
         (filter
            (fun h =>
               (date_7d_ago <=? EventsManagerHealth.snapshot_date h)
               && (EventsManagerHealth.snapshot_date h
                     <? snapshot_date current_snapshot))
            (events_manager_health db))) in
  if (length historical_health <? 2)%nat then Ok None else
  match EventsManagerHealth.tracking_quality_score recent_health with
  | None => Ok None
  | Some recent_score =>
  let scores :=
    not_none (map EventsManagerHealth.tracking_quality_score historical_health) in
  match scores with
  | [] => Ok None
  | _ :: _ =>
  avg_score <-
    float_div_int (builtin_sum rt scores) (Z.of_nat (length scores)) ;;
  let score_decline := (avg_score - recent_score)%float in
  let severity :=
    if gt score_decline 0.15 then "high"
    else if gt score_decline 0.08 then "medium"
    else "low" in
  let confidence := 0.85%float in
  let explanation :=
    "Tracking quality score declined by " +++ fmt 3%nat score_decline +++ ". "
      +++ "Current score: " +++ fmt 3%nat recent_score
      +++ ", 7-day average: " +++ fmt 3%nat avg_score +++ "." in
  let recommendation :=
    if String.eqb severity "high"
    then "Significant tracking degradation. Urgent review of tracking setup required. Check pixel health, iOS attribution, and server-side tracking."
    else "Tracking degradation detected. Review Events Manager setup, check for iOS 14.5+ impacts, verify pixel implementation." in
  Ok (Some
        (DiagnosticResult.mk
           (snapshot_date current_snapshot)
           "tracking_degradation" "tracking_quality_score"
           (Some recent_score) (Some avg_score)
           (Some (- score_decline * 100)%float)
           severity confidence explanation recommendation
           [("events_received",
             of_int (EventsManagerHealth.events_received recent_health));
            ("events_dropped",
             of_int (EventsManagerHealth.events_dropped recent_health));
            ("snapshots_analyzed", VInt (Z.of_nat (length historical_health)))]))
  end end end.

Definition compute_tracking_degradation (current_snapshot : AdAccountSnapshot.t)
  : option DiagnosticResult.t :=
  try_except (tracking_degradation_body current_snapshot).

(** [diagnostics.append(d)] under [if d:]. *)
Definition append_if {A} (acc : list A) (r : option A) : list A :=
  match r with
  | Some d => acc ++ [d]
  | None => acc
  end.

Definition compute_all_diagnostics (snapshot : AdAccountSnapshot.t)
  : list DiagnosticResult.t :=
  let diagnostics := [] in
  let diagnostics := append_if diagnostics (compute_fatigue snapshot) in
  let diagnostics := append_if diagnostics (compute_saturation snapshot) in
  let diagnostics :=
    append_if diagnostics (compute_delivery_concentration snapshot) in
  let diagnostics := append_if diagnostics (compute_auction_shifts snapshot) in
  let diagnostics :=
    append_if diagnostics (compute_tracking_degradation snapshot) in
  diagnostics.

End Engine.

(* ================================================================== *)
(** ** Strings

    A [str] is modelled by its code points, all taken below 256. *)

(** [c.isspace()] *)
Definition isspace (c : ascii) : bool :=
  let n := N_of_ascii c in
  ((9 <=? n) && (n <=? 13) || (28 <=? n) && (n <=? 32)
   || (n =? 133) || (n =? 160))%N.

Fixpoint lstrip (s : string) : string :=
  match s with
  | EmptyString => EmptyString
  | String c s' => if isspace c then lstrip s' else s
  end.

Fixpoint rstrip (s : string) : string :=
  match s with
  | EmptyString => EmptyString
  | String c s' =>
      match rstrip s' with
      | EmptyString => if isspace c then EmptyString else String c EmptyString
      | r => String c r
      end
  end.

(** [s.strip()] *)
Definition strip (s : string) : string := rstrip (lstrip s).

(** [s.startswith(p)] *)
Definition startswith (s p : string) : bool := String.prefix p s.

(** [s.endswith(p)] *)
Definition endswith (s p : string) : bool :=
  (String.length p <=? String.length s)%nat
  && String.eqb (substring (String.length s - String.length p)
                   (String.length p) s) p.

(** [s[n:]] and [s[:-n]] *)
Definition drop_prefix (n : nat) (s : string) : string :=
  substring n (String.length s - n) s.

Definition drop_suffix (n : nat) (s : string) : string :=
  substring 0 (String.length s - n) s.

(* ================================================================== *)
(** ** [AIAnalyst] ([app/services/ai_analyst.py]) *)

(** What is sent to the language model for a daily overview: the prompts are
    fixed text around [target_date.date()] and [json.dumps(context)]. *)
Record Request : Type := {
  request_date : datetime;
  request_context : value
}.

(** The language-model collaborator: the text of the first choice, or the
    exception of a failed call. *)
Definition LanguageModel : Type := Request -> result string.

(** One call made to the collaborator, with the committed store at the time
    of the call. *)
Record Call : Type := { call_db : Db; call_request : Request }.

(** The outcome of a top-level operation: the store it leaves, the calls it
    made to the collaborator, and what it returned or raised. *)
Record Outcome : Type := {
  out_db : Db;
  out_calls : list Call;
  out_value : result value
}.

Section Analyst.

Import AdAccountSnapshot.

Variable rt : Runtime.
Variable meta : MetaAPI.

(** The anchor snapshot: an exact match on the date, else the most recent
    snapshot at or before it (lines 35-42, and again lines 250-257). *)
Definition anchor_snapshot (db : Db) (target_date : datetime)
  : option AdAccountSnapshot.t :=
  match first (filter (fun s => snapshot_date s =? target_date)
                 (ad_account_snapshots db)) with
  | Some s => Some s
  | None =>
      first (order_by_desc snapshot_date
               (filter (fun s => snapshot_date s <=? target_date)
                  (ad_account_snapshots db)))
  end.

Definition previous_snapshot_of (db : Db) (snapshot : AdAccountSnapshot.t)
  : option AdAccountSnapshot.t :=
  first (order_by_desc snapshot_date
           (filter
              (fun s =>
                 String.eqb (ad_account_id s) (ad_account_id snapshot)
                 && (snapshot_date s <? snapshot_date snapshot))
              (ad_account_snapshots db))).

Definition snapshot_dict (s : AdAccountSnapshot.t) : value :=
  VDict [("date", VStr (isoformat rt (snapshot_date s)));
         ("spend", of_float (spend s));
         ("impressions", of_int (impressions s));
         ("clicks", of_int (clicks s));
         ("reach", of_int (reach s));
         ("frequency", of_float (frequency s));
         ("cpm", of_float (cpm s));
         ("cpc", of_float (cpc s));
         ("ctr", of_float (ctr s))].

Definition diagnostic_dict (diag : DiagnosticResult.t) : value :=
  VDict [("type", VStr (DiagnosticResult.diagnostic_type diag));
         ("metric", VStr (DiagnosticResult.metric_name diag));
         ("severity", VStr (DiagnosticResult.severity diag));
         ("confidence", VFloat (DiagnosticResult.confidence diag));
         ("explanation", VStr (DiagnosticResult.explanation diag));
         ("recommendation", VStr (DiagnosticResult.recommendation diag));
         ("change_percentage",
          of_float (DiagnosticResult.change_percentage diag))].

Definition events_health_dict (h : EventsManagerHealth.t) : value :=
  VDict [("tracking_quality_score",
          of_float (EventsManagerHealth.tracking_quality_score h));
         ("events_received", of_int (EventsManagerHealth.events_received h));
         ("events_dropped", of_int (EventsManagerHealth.events_dropped h));
         ("events_matched", of_int (EventsManagerHealth.events_matched h))].

(** [(cur - prev) / prev * 100 if prev > 0 else 0] on two integer columns. *)
Definition int_change (cur prev : option Z) : result value :=
  p <- operand prev ;;
  if 0 <? p
  then c <- operand cur ;;
       r <- int_truediv (c - p) p ;;
       Ok (VFloat (r * 100)%float)
  else Ok (VInt 0).

(** The value of [context['changes']] once a previous snapshot is known
    (lines 112-118): the four changes when its spend is above zero, the
    initial empty dictionary otherwise. *)
Definition changes_dict (snapshot previous_snapshot : AdAccountSnapshot.t)
  : result value :=
  prev_spend <- operand (spend previous_snapshot) ;;
  if gt prev_spend 0
  then
    cur_spend <- operand (spend snapshot) ;;
    r <- float_div (cur_spend - prev_spend)%float prev_spend ;;
    let spend_change := VFloat (r * 100)%float in
    impressions_change <-
      int_change (impressions snapshot) (impressions previous_snapshot) ;;
    clicks_change <- int_change (clicks snapshot) (clicks previous_snapshot) ;;
    cpm_change <-
      match cpm previous_snapshot with
      | Some prev_cpm =>
          if negb (is_zero prev_cpm) && gt prev_cpm 0
          then c <- operand (cpm snapshot) ;;
               r <- float_div (c - prev_cpm)%float prev_cpm ;;
               Ok (VFloat (r * 100)%float)
          else Ok VNone
      | None => Ok VNone
      end ;;
    Ok (VDict [("spend_change", spend_change);
               ("impressions_change", impressions_change);
               ("clicks_change", clicks_change);
               ("cpm_change", cpm_change)])
  else Ok (VDict []).

Definition get_context_for_date (db : Db) (target_date : datetime)
  : result value :=
  match anchor_snapshot db target_date with
  | None => Ok (VDict [])
  | Some snapshot =>
      let historical_snapshots :=
        order_by_desc snapshot_date
          (filter
             (fun s =>
                String.eqb (ad_account_id s) (ad_account_id snapshot)
                && (snapshot_date s <=? target_date))
             (ad_account_snapshots db)) in
      let previous_snapshot := previous_snapshot_of db snapshot in
      let diagnostics :=
        index_scan (diagnostic_rank rt)
          (filter
             (fun d =>
                DiagnosticResult.snapshot_date d =? snapshot_date snapshot)
             (diagnostic_results db)) in
      let events_health :=
        first
          (filter
             (fun h =>
                EventsManagerHealth.snapshot_date h =? snapshot_date snapshot)
             (events_manager_health db)) in
      changes <-
        match previous_snapshot with
        | Some previous => changes_dict snapshot previous
        | None => Ok (VDict [])
        end ;;
      Ok (VDict
            [("current_snapshot", snapshot_dict snapshot);
             ("previous_snapshot",
              match previous_snapshot with
              | Some previous => snapshot_dict previous
              | None => VNone
              end);
             ("changes", changes);
             ("historical_data", VList (map snapshot_dict historical_snapshots));
             ("diagnostics", VList (map diagnostic_dict diagnostics));
             ("events_health",
              match events_health with
              | Some h => events_health_dict h
              | None => VNone
              end)])
  end.

(** [json.loads(x) if isinstance(x, str) else x] *)
Definition decode_field (x : value) : result value :=
  match x with
  | VStr s => json_loads rt s
  | _ => Ok x
  end.

(** The dictionary returned for a stored overview (lines 239-245). *)
Definition stored_overview (existing : DailyOverview.t) : result value :=
  key_changes <- decode_field (DailyOverview.key_changes existing) ;;
  insights <- decode_field (DailyOverview.insights existing) ;;
  recommendations <- decode_field (DailyOverview.recommendations existing) ;;
  Ok (VDict
        [("overview_date", VStr (isoformat rt (DailyOverview.overview_date existing)));
         ("summary", DailyOverview.summary existing);
         ("key_changes", key_changes);
         ("insights", insights);
         ("recommendations", recommendations)]).

(** Lines 299-308: strip the completion and its code-fence markers. *)
Definition clean_content (text : string) : string :=
  let content := strip text in
  let content :=
    if startswith content "```json" then drop_prefix 7 content else content in
  let content :=
    if startswith content "```" then drop_prefix 3 content else content in
  let content :=
    if endswith content "```" then drop_suffix 3 content else content in
  strip content.

(** Lines 310-331: parse the completion into the row to store and the
    dictionary to return.  The commit binds the summary to its [Text]
    column and raises when it cannot; the returned summary is the one read
    back by [db.refresh]. *)
Definition parse_overview (target_date : datetime) (text : string)
  : result (DailyOverview.t * value) :=
  overview_data <- json_loads rt (clean_content text) ;;
  summary <- get overview_data "summary" (VStr "") ;;
  key_changes <- get overview_data "key_changes" (VList []) ;;
  insights <- get overview_data "insights" (VList []) ;;
  recommendations <- get overview_data "recommendations" (VList []) ;;
  stored_summary <- bind_text rt summary ;;
  let overview :=
    DailyOverview.mk target_date stored_summary
      (VStr (json_dumps rt key_changes))
      (VStr (json_dumps rt insights))
      (VStr (json_dumps rt recommendations)) in
  Ok (overview,
      VDict [("overview_date", VStr (isoformat rt target_date));
             ("summary", stored_summary);
             ("key_changes", key_changes);
             ("insights", insights);
             ("recommendations", recommendations)]).

Definition error_dict (e : exn) (target_date : datetime) : value :=
  VDict [("error", VStr (exn_str e));
         ("overview_date", VStr (isoformat rt target_date))].

(** [db.add(row); db.commit()] on each table. *)
Definition add_diagnostics (db : Db) (rows : list DiagnosticResult.t) : Db :=
  {| ad_account_snapshots := ad_account_snapshots db;
     events_manager_health := events_manager_health db;
     diagnostic_results := diagnostic_results db ++ rows;
     daily_overviews := daily_overviews db |}.

Definition add_overview (db : Db) (row : DailyOverview.t) : Db :=
  {| ad_account_snapshots := ad_account_snapshots db;
     events_manager_health := events_manager_health db;
     diagnostic_results := diagnostic_results db;
     daily_overviews := daily_overviews db ++ [row] |}.

(** The [try] block of [generate_daily_overview] (lines 288-337): one call
    to the collaborator, then parse, store and return, or the error
    dictionary. *)
Definition request_overview (llm : LanguageModel) (db : Db)
    (target_date : datetime) (context : value) : Outcome :=
  let request := {| request_date := target_date; request_context := context |} in
  let calls := [{| call_db := db; call_request := request |}] in
  match (text <- llm request ;; parse_overview target_date text) with
  | Ok (overview, returned) =>
      {| out_db := add_overview db overview;
         out_calls := calls;
         out_value := Ok returned |}
  | Raise e =>
      {| out_db := db;
         out_calls := calls;
         out_value := Ok (error_dict e target_date) |}
  end.

Definition existing_overview (db : Db) (target_date : datetime)
  : option DailyOverview.t :=
  first (filter (fun o => DailyOverview.overview_date o =? target_date)
           (daily_overviews db)).

Definition generate_daily_overview (llm : LanguageModel) (db : Db)
    (target_date : datetime) : Outcome :=
  match existing_overview db target_date with
  | Some existing =>
      {| out_db := db; out_calls := []; out_value := stored_overview existing |}
  | None =>
      match get_context_for_date db target_date with
      | Raise e => {| out_db := db; out_calls := []; out_value := Raise e |}
      | Ok context =>
          match anchor_snapshot db target_date with
          | Some snapshot =>
              let diagnostics := compute_all_diagnostics rt meta db snapshot in
              let db := add_diagnostics db diagnostics in
              match get_context_for_date db target_date with
              | Raise e =>
                  {| out_db := db; out_calls := []; out_value := Raise e |}
              | Ok context => request_overview llm db target_date context
              end
          | None => request_overview llm db target_date context
          end
      end
  end.

End Analyst.

(* ================================================================== *)
(** ** A runtime to run examples on *)

Module CPython.

(** [sum] adds from the left, starting at 0 (CPython up to 3.11; later
    versions compensate the rounding errors, which gives the same float
    whenever the partial sums are exact, as they are in the examples). *)
Definition builtin_sum (xs : list float) : float :=
  fold_left PrimFloat.add xs 0%float.

(** Population standard deviation, in two passes. *)
Definition np_std (xs : list float) : float :=
  let n := SF2Prim (binary_normalize prec emax (Z.of_nat (length xs)) 0 false) in
  let mean := (builtin_sum xs / n)%float in
  let squares := map (fun x => ((x - mean) * (x - mean))%float) xs in
  PrimFloat.sqrt (builtin_sum squares / n)%float.

(** [x ** 2]: a finite operand whose square is not finite overflows. *)
Definition float_square (x : float) : option float :=
  let y := (x * x)%float in
  if PrimFloat.is_infinity y && negb (PrimFloat.is_infinity x)
  then None
  else Some y.

Definition digits (n : Z) : string := NilZero.string_of_uint (N.to_uint (Z.to_N n)).

Fixpoint zeros (n : nat) : string :=
  match n with
  | O => ""
  | S n' => String "0" (zeros n')
  end.

Definition zero_pad (width : nat) (s : string) : string :=
  (zeros (width - String.length s) ++ s)%string.

(** The integer nearest to [num / den] ([den > 0]), ties to even. *)
Definition round_half_even (num den : Z) : Z :=
  let q := num / den in
  let r := num mod den in
  if 2 * r <? den then q
  else if den <? 2 * r then q + 1
  else if Z.even q then q else q + 1.

(** [format(x, '.Nf')] with [N >= 1]: the exact binary value, rounded to
    [N] decimals. *)
Definition format_fixed (decimals : nat) (x : float) : string :=
  let d := Z.of_nat decimals in
  let body (scaled : Z) : string :=
    (digits (scaled / 10 ^ d) ++ "."
       ++ zero_pad decimals (digits (scaled mod 10 ^ d)))%string in
  let sign (s : bool) : string := if s then "-" else "" in
  match Prim2SF x with
  | S754_nan => "nan"
  | S754_infinity s => (sign s ++ "inf")%string
  | S754_zero s => (sign s ++ body 0)%string
  | S754_finite s m e =>
      (sign s ++
       body (round_half_even (Z.pos m * 10 ^ d * 2 ^ Z.max e 0)
               (2 ^ Z.max (- e) 0)))%string
  end.

(** [datetime.isoformat()]: the proleptic Gregorian date of the day count,
    then the time of day. *)
Definition isoformat (t : datetime) : string :=
  let day := t / 86400000000 in
  let us := t mod 86400000000 in
  let z := day + 306 in
  let era := z / 146097 in
  let doe := z mod 146097 in
  let yoe := (doe - doe / 1460 + doe / 36524 - doe / 146096) / 365 in
  let doy := doe - (365 * yoe + yoe / 4 - yoe / 100) in
  let mp := (5 * doy + 2) / 153 in
  let d := doy - (153 * mp + 2) / 5 + 1 in
  let m := if mp <? 10 then mp + 3 else mp - 9 in
  let y := yoe + era * 400 + (if m <=? 2 then 1 else 0) in
  let two n := zero_pad 2 (digits n) in
  let secs := us / 1000000 in
  let micro := us mod 1000000 in
  (zero_pad 4 (digits y) ++ "-" ++ two m ++ "-" ++ two d ++ "T"
     ++ two (secs / 3600) ++ ":" ++ two (secs / 60 mod 60) ++ ":"
     ++ two (secs mod 60)
     ++ (if Z.eqb micro 0 then "" else "." ++ zero_pad 6 (digits micro)))%string.

(** [json.loads] and [json.dumps] on the three documents the examples
    exchange: the empty object, the empty array and [null].  Any other text
    stands for a completion that is not a JSON document. *)
Definition json_loads (s : string) : result value :=
  if String.eqb s "{}" then Ok (VDict [])
  else if String.eqb s "[]" then Ok (VList [])
  else if String.eqb s "null" then Ok VNone
  else Raise (Exn JSONDecodeError "Expecting value: line 1 column 1 (char 0)").

Definition json_dumps (v : value) : string :=
  match v with
  | VDict [] => "{}"
  | VList [] => "[]"
  | _ => "null"
  end.

(** The default engine, SQLite.  The range query on the health table scans
    the index on [snapshot_date]; the query on the diagnostics of a date
    scans the index on [(snapshot_date, diagnostic_type)], in the byte order
    of the type, which its first eight bytes decide for the names in use. *)
Definition health_rank (h : EventsManagerHealth.t) : Z :=
  EventsManagerHealth.snapshot_date h.

Fixpoint leading_bytes (n : nat) (s : string) : Z :=
  match n with
  | O => 0
  | S n' =>
      match s with
      | EmptyString => 0
      | String c s' =>
          Z.of_N (N_of_ascii c) * 256 ^ Z.of_nat n' + leading_bytes n' s'
      end
  end.

Definition diagnostic_rank (d : DiagnosticResult.t) : Z :=
  leading_bytes 8 (DiagnosticResult.diagnostic_type d).

(** A [Text] column keeps a string and [None], holds an integer as its
    decimal text, and cannot bind a list or an object.  A float, which no
    example binds, is answered as a list is. *)
Definition bind_text (v : value) : result value :=
  match v with
  | VStr _ | VNone => Ok v
  | VInt n => Ok (VStr (if n <? 0 then "-" ++ digits (- n) else digits n))
  | VBool b => Ok (VStr (if b then "1" else "0"))
  | _ =>
      Raise (Exn CollaboratorError
               "Error binding parameter: type is not supported")
  end.

Definition runtime : Runtime :=
  Build_Runtime builtin_sum np_std float_square format_fixed isoformat
    json_loads json_dumps health_rank diagnostic_rank bind_text.

End CPython.

Definition jan_2024 (d : Z) : datetime := timedelta_days (738884 + d).

(* ================================================================== *)
(** ** Example stores *)

Module Sample.

Definition snapshot (day : Z) (frequency cpm : float) : AdAccountSnapshot.t :=
  AdAccountSnapshot.mk (jan_2024 day) "act_1"
    (Some 100%float) (Some 20000) (Some 400) (Some 8000)
    (Some frequency) (Some cpm) (Some 0.25%float) (Some 2%float).

(** Three days of history, each with frequency 10 and a CPM of 5. *)
Definition history : list AdAccountSnapshot.t :=
  [snapshot 10 10 5; snapshot 11 10 5; snapshot 12 10 5].

Definition store (snapshots : list AdAccountSnapshot.t) : Db :=
  {| ad_account_snapshots := snapshots;
     events_manager_health := [];
     diagnostic_results := [];
     daily_overviews := [] |}.

(** No campaign breakdown is available. *)
Definition no_campaigns : MetaAPI := Some (fun _ _ => []).

End Sample.

(* ================================================================== *)
(** ** Notions used in the statements *)

(** [division_safe m]: running [m] never ends in a [ZeroDivisionError]. *)
Definition division_safe {A} (m : result A) : Prop :=
  ~ raises m ZeroDivisionError.

(** The diagnostics a category contributes to the collected list. *)
Definition option_list {A} (o : option A) : list A :=
  match o with
  | Some x => [x]
  | None => []
  end.

(** The completion is not the JSON document asked for: [json.loads] raises
    on the cleaned text, or what it returns has no [get] method. *)
Definition parse_failure (rt : Runtime) (text : string) (e : exn) : Prop :=
  json_loads rt (clean_content text) = Raise e
  \/ exists v, json_loads rt (clean_content text) = Ok v
               /\ (forall kvs, v <> VDict kvs)
               /\ e = Exn AttributeError
                        ("'" ++ type_name v ++ "' object has no attribute 'get'").

(** The number of samples a diagnostic was computed from, as recorded in
    its metadata under ['snapshots_analyzed']. *)
Definition sample_count (d : DiagnosticResult.t) : option Z :=
  match lookup "snapshots_analyzed" (DiagnosticResult.diagnostic_metadata d) with
  | Some (VInt n) => Some n
  | _ => None
  end.

(** The constant each windowed category adds [n / 10] to. *)
Definition confidence_base : list (string * float) :=
  [("fatigue", 0.6%float); ("saturation", 0.65%float);
   ("auction_shifts", 0.7%float)].

(** How the confidence of an emitted diagnostic is made up. *)
Definition confidence_profile (d : DiagnosticResult.t) : Prop :=
  (exists base n t,
      In (DiagnosticResult.diagnostic_type d, base) confidence_base
      /\ (n <= 7)%nat
      /\ sample_count d = Some (Z.of_nat n)
      /\ int_truediv (Z.of_nat n) 10 = Ok t
      /\ DiagnosticResult.confidence d = py_min 0.95 (base + t)%float)
  \/ (DiagnosticResult.diagnostic_type d = "delivery_concentration"
      /\ DiagnosticResult.confidence d = 0.8%float)
  \/ (DiagnosticResult.diagnostic_type d = "tracking_degradation"
      /\ DiagnosticResult.confidence d = 0.85%float).

(* ================================================================== *)
(** ** Example runs *)

Module Examples.

Definition today (frequency : float) : AdAccountSnapshot.t :=
  Sample.snapshot 13 frequency 5.

(** A stored overview for 13 January, its list fields JSON-encoded. *)
Definition stored : DailyOverview.t :=
  DailyOverview.mk (jan_2024 13) (VStr "A quiet day.")
    (VStr "[]") (VStr "[]") (VStr "[]").

Definition with_overview : Db :=
  add_overview (Sample.store (Sample.history ++ [today 11])) stored.

(** A model that would answer with an empty JSON object. *)
Definition empty_object : LanguageModel := fun _ => Ok "{}".

(** A model that answers in prose. *)
Definition prose : LanguageModel :=
  fun _ => Ok "I am sorry, I cannot summarise this day.".

(** The store as the daily job leaves it before asking for the overview:
    the diagnostics of the day are already committed. *)
Definition after_daily_job : Db :=
  let db := Sample.store (Sample.history ++ [today 11]) in
  add_diagnostics db
    (compute_all_diagnostics CPython.runtime Sample.no_campaigns db (today 11)).

End Examples.

(* ================================================================== *)
(** ** Further notions *)

(** Rows in descending order of their key: each row's key is at least the
    key of every later row. *)
Fixpoint descending {A} (key : A -> Z) (rows : list A) : Prop :=
  match rows with
  | [] => True
  | r :: rows' => (forall r', In r' rows' -> key r' <= key r) /\ descending key rows'
  end.

(** The metric each category reports on. *)
Definition category_metric : list (string * string) :=
  [("fatigue", "frequency");
   ("saturation", "reach_efficiency");
   ("delivery_concentration", "concentration_ratio");
   ("auction_shifts", "cpm");
   ("tracking_degradation", "tracking_quality_score")].

(** A week of health records with falling quality, and the store that
    holds them beside the snapshots of the examples. *)
Module Health.

Definition record (day : Z) (matched : Z) (score : float)
  : EventsManagerHealth.t :=
  EventsManagerHealth.mk (jan_2024 day) (Some 1000) (Some 10) (Some 5)
    (Some matched) (Some score).

Definition week : list EventsManagerHealth.t :=
  [record 10 950 0.95; record 11 940 0.94; record 13 700 0.7].

Definition store : Db :=
  {| ad_account_snapshots := Sample.history ++ [Examples.today 11];
     events_manager_health := week;
     diagnostic_results := [];
     daily_overviews := [] |}.

End Health.

(** A day without delivery, as [create_daily_snapshot] stores it when the
    platform reports nothing: zeros, and no CPM, CPC or CTR. *)
Definition no_delivery (day : Z) : AdAccountSnapshot.t :=
  AdAccountSnapshot.mk (jan_2024 day) "act_1"
    (Some 0%float) (Some 0) (Some 0) (Some 0) (Some 0%float) None None None.

(** No white space in front. *)
Definition no_leading_space (s : string) : Prop :=
  match s with
  | EmptyString => True
  | String c _ => isspace c = false
  end.

(* ================================================================== *)
(** ** [SnapshotService] ([app/services/snapshot_service.py]) *)

(** The non-empty dictionary of [MetaAPIClient.get_account_insights] (lines
    80-94 of [meta_client.py]): the metrics are converted there, and CPM,
    CPC and CTR are [None] when the platform gives none. *)
Record Insights : Type := {
  insights_spend : float;
  insights_impressions : Z;
  insights_clicks : Z;
  insights_reach : Z;
  insights_frequency : float;
  insights_cpm : option float;
  insights_cpc : option float;
  insights_ctr : option float
}.

(** One entry of ['pixels'] in [get_events_manager_data]: ['stats'] is
    [None] when the statistics could not be fetched, else the rows the
    platform returned, each read with [stat.get]. *)
Record Pixel : Type := {
  pixel_id : value;
  pixel_stats : option (list (list (string * value)))
}.

(** The client the service holds.  [get_account_insights] returns the empty
    dictionary ([None] here) when the platform has no row, or raises;
    [get_events_manager_data] never raises and returns its ['pixels'] list,
    ['total_pixels'] being its length.  [get_incremental_attribution] never
    raises either and only fills a column that no query reads. *)
Record MetaClient : Type := {
  client_account_id : string;
  get_account_insights : datetime -> datetime -> result (option Insights);
  get_events_manager_data : list Pixel
}.

(** [int(x)], applied to the counters of a statistics row. *)
Record Builtins : Type := { builtin_int : value -> result Z }.

Definition add_snapshot (db : Db) (row : AdAccountSnapshot.t) : Db :=
  {| ad_account_snapshots := ad_account_snapshots db ++ [row];
     events_manager_health := events_manager_health db;
     diagnostic_results := diagnostic_results db;
     daily_overviews := daily_overviews db |}.

Definition add_health (db : Db) (row : EventsManagerHealth.t) : Db :=
  {| ad_account_snapshots := ad_account_snapshots db;
     events_manager_health := events_manager_health db ++ [row];
     diagnostic_results := diagnostic_results db;
     daily_overviews := daily_overviews db |}.

(** The row built from the insights (lines 55-69): [insights.get(k, 0)] for
    spend, impressions, clicks, reach and frequency, [insights.get(k)] for
    CPM, CPC and CTR.  The default 0 of a float column is read back as 0.0. *)
Definition snapshot_of_insights (snapshot_date : datetime) (account : string)
    (insights : option Insights) : AdAccountSnapshot.t :=
  match insights with
  | Some i =>
      AdAccountSnapshot.mk snapshot_date account
        (Some (insights_spend i)) (Some (insights_impressions i))
        (Some (insights_clicks i)) (Some (insights_reach i))
        (Some (insights_frequency i))
        (insights_cpm i) (insights_cpc i) (insights_ctr i)
  | None =>
      AdAccountSnapshot.mk snapshot_date account
        (Some 0%float) (Some 0) (Some 0) (Some 0) (Some 0%float)
        None None None
  end.

(** [create_daily_snapshot]: the store it leaves and what it returns or
    raises.  A raise inside the [try] rolls the session back and is raised
    again. *)
Definition create_daily_snapshot (client : MetaClient) (db : Db)
    (snapshot_date : datetime) : Db * result AdAccountSnapshot.t :=
  match minus_days snapshot_date 1 with
  | Raise e => (db, Raise e)
  | Ok date_start =>
      let date_end := snapshot_date in
      let existing :=
        first
          (filter
             (fun s =>
                (AdAccountSnapshot.snapshot_date s =? snapshot_date)
                && String.eqb (AdAccountSnapshot.ad_account_id s)
                     (client_account_id client))
             (ad_account_snapshots db)) in
      match existing with
      | Some existing => (db, Ok existing)
      | None =>
          match get_account_insights client date_start date_end with
          | Raise e => (db, Raise e)
          | Ok insights =>
              let snapshot :=
                snapshot_of_insights snapshot_date (client_account_id client)
                  insights in
              (add_snapshot db snapshot, Ok snapshot)
          end
      end
  end.

(** The four running totals of lines 117-120. *)
Record Totals : Type := {
  total_received : Z;
  total_dropped : Z;
  total_duplicate : Z;
  total_matched : Z
}.

(** [int(stat.get(key, 0))] *)
Definition stat_count (b : Builtins) (stat : list (string * value))
    (key : string) : result Z :=
  builtin_int b (match lookup key stat with Some v => v | None => VInt 0 end).

(** The body of the inner loop (lines 126-129). *)
Definition add_stat (b : Builtins) (t : Totals) (stat : list (string * value))
  : result Totals :=
  received <- stat_count b stat "events_received" ;;
  dropped <- stat_count b stat "events_dropped" ;;
  duplicate <- stat_count b stat "events_duplicate" ;;
  matched <- stat_count b stat "events_matched" ;;
  Ok {| total_received := total_received t + received;
        total_dropped := total_dropped t + dropped;
        total_duplicate := total_duplicate t + duplicate;
        total_matched := total_matched t + matched |}.

Fixpoint add_stats (b : Builtins) (t : Totals)
    (stats : list (list (string * value))) : result Totals :=
  match stats with
  | [] => Ok t
  | stat :: stats' => t' <- add_stat b t stat ;; add_stats b t' stats'
  end.

(** The outer loop (lines 122-129); [if stats:] skips [None] and an empty
    list. *)
Fixpoint add_pixels (b : Builtins) (t : Totals) (pixels : list Pixel)
  : result Totals :=
  match pixels with
  | [] => Ok t
  | pixel :: pixels' =>
      t' <-
        match pixel_stats pixel with
        | Some ((_ :: _) as stats) => add_stats b t stats
        | _ => Ok t
        end ;;
      add_pixels b t' pixels'
  end.

(** [(n / total) if total > 0 else 0.0] (lines 133 and 145-147). *)
Definition rate (n total : Z) : result float :=
  if 0 <? total then int_truediv n total else Ok 0%float.

(** The [try] block of [create_events_manager_snapshot] once pixels are
    known (lines 116-150): the health record to store. *)
Definition health_record (b : Builtins) (snapshot_date : datetime)
    (pixels : list Pixel) : result EventsManagerHealth.t :=
  t <- add_pixels b
         {| total_received := 0; total_dropped := 0;
            total_duplicate := 0; total_matched := 0 |} pixels ;;
  let total_events := total_received t in
  quality_score <- rate (total_matched t) total_events ;;
  match_rate <- rate (total_matched t) total_events ;;
  drop_rate <- rate (total_dropped t) total_events ;;
  duplicate_rate <- rate (total_duplicate t) total_events ;;
  Ok (EventsManagerHealth.mk snapshot_date
        (Some (total_received t)) (Some (total_dropped t))
        (Some (total_duplicate t)) (Some (total_matched t))
        (Some quality_score)).

(** [create_events_manager_snapshot]: the store it leaves and the record it
    returns, [None] when there is no pixel or when anything in the [try]
    block raises. *)
Definition create_events_manager_snapshot (client : MetaClient) (b : Builtins)
    (db : Db) (snapshot_date : datetime) : Db * option EventsManagerHealth.t :=
  let existing :=
    first
      (filter
         (fun h => EventsManagerHealth.snapshot_date h =? snapshot_date)
         (events_manager_health db)) in
  match existing with
  | Some existing => (db, Some existing)
  | None =>
      let events_data := get_events_manager_data client in
      match events_data with
      | [] => (db, None)
      | _ :: _ =>
          match health_record b snapshot_date events_data with
          | Ok health => (add_health db health, Some health)
          | Raise _ => (db, None)
          end
      end
  end.

(* ================================================================== *)
(** ** [DailyJobScheduler] ([app/scheduler.py]) *)

(** [datetime.now().replace(hour=0, minute=0, second=0, microsecond=0)] *)
Definition midnight (now : datetime) : datetime :=
  now - now mod timedelta_days 1.

(** [run_daily_job] at the clock reading [now]: the committed store it
    leaves and the calls it made to the language model.  [client] is [None]
    when constructing the service's [MetaAPIClient] raises; every raise ends
    the job, with what was committed before kept. *)
Definition run_daily_job (rt : Runtime) (b : Builtins) (meta : MetaAPI)
    (client : option MetaClient) (llm : LanguageModel) (db : Db)
    (now : datetime) : Db * list Call :=
  match client with
  | None => (db, [])
  | Some client =>
      match minus_days (midnight now) 1 with
      | Raise _ => (db, [])
      | Ok yesterday =>
          match create_daily_snapshot client db yesterday with
          | (db, Raise _) => (db, [])
          | (db, Ok snapshot) =>
              let (db, _) :=
                create_events_manager_snapshot client b db yesterday in
              let diagnostics := compute_all_diagnostics rt meta db snapshot in
              let db := add_diagnostics db diagnostics in
              let o := generate_daily_overview rt meta llm db yesterday in
              (out_db o, out_calls o)
          end
      end
  end.

(** A platform to run examples on. *)
Module Platform.

Definition insights : Insights :=
  {| insights_spend := 120;
     insights_impressions := 24000;
     insights_clicks := 480;
     insights_reach := 8000;
     insights_frequency := 3;
     insights_cpm := Some 5%float;
     insights_cpc := Some 0.25%float;
     insights_ctr := Some 2%float |}.

Definition stat (received dropped matched : Z) : list (string * value) :=
  [("events_received", VInt received); ("events_dropped", VInt dropped);
   ("events_matched", VInt matched)].

Definition pixels : list Pixel :=
  [{| pixel_id := VStr "px_1";
      pixel_stats := Some [stat 600 6 540; stat 400 4 360] |};
   {| pixel_id := VStr "px_2"; pixel_stats := None |}].

Definition client : MetaClient :=
  {| client_account_id := "act_1";
     get_account_insights := fun _ _ => Ok (Some insights);
     get_events_manager_data := pixels |}.

(** A day on which the platform has no row and no pixel. *)
Definition silent : MetaClient :=
  {| client_account_id := "act_1";
     get_account_insights := fun _ _ => Ok None;
     get_events_manager_data := [] |}.

(** The platform cannot be reached. *)
Definition unreachable : MetaClient :=
  {| client_account_id := "act_1";
     get_account_insights :=
       fun _ _ => Raise (Exn CollaboratorError "platform unreachable");
     get_events_manager_data := [] |}.

(** [int(x)] on the counters of the examples, which are all [int]s; any
    other value is answered as [None] is. *)
Definition builtins : Builtins :=
  {| builtin_int :=
       fun v =>
         match v with
         | VInt n => Ok n
         | _ =>
             Raise (Exn TypeError
                      "int() argument must be a string, a bytes-like object or a real number")
         end |}.

End Platform.

(** All counters of the pixels that have statistics. *)
Definition all_stats (pixels : list Pixel) : list (list (string * value)) :=
  flat_map
    (fun pixel =>
       match pixel_stats pixel with
       | Some stats => stats
       | None => []
       end)
    pixels.

(** A store holds at most one snapshot per date and account, and at most
    one health record per date. *)
Definition one_snapshot_per_day (db : Db) : Prop :=
  NoDup (map (fun s => (AdAccountSnapshot.snapshot_date s,
                        AdAccountSnapshot.ad_account_id s))
           (ad_account_snapshots db)).

Definition one_health_record_per_day (db : Db) : Prop :=
  NoDup (map EventsManagerHealth.snapshot_date (events_manager_health db)).

(** What the totals have grown by, counter by counter. *)
Definition counted (b : Builtins) (stats : list (list (string * value)))
    (t t' : Totals) : Prop :=
  exists rs ds us ms,
    map_result (fun stat => stat_count b stat "events_received") stats = Ok rs
    /\ map_result (fun stat => stat_count b stat "events_dropped") stats = Ok ds
    /\ map_result (fun stat => stat_count b stat "events_duplicate") stats
       = Ok us
    /\ map_result (fun stat => stat_count b stat "events_matched") stats = Ok ms
    /\ total_received t' = total_received t + sum_int rs
    /\ total_dropped t' = total_dropped t + sum_int ds
    /\ total_duplicate t' = total_duplicate t + sum_int us
    /\ total_matched t' = total_matched t + sum_int ms.

(** The commit of the overview fails: the completion is a JSON object whose
    summary cannot be bound to its [Text] column. *)
Definition commit_failure (rt : Runtime) (text : string) (e : exn) : Prop :=
  exists kvs,
    json_loads rt (clean_content text) = Ok (VDict kvs)
    /\ bind_text rt
         (match lookup "summary" kvs with Some x => x | None => VStr "" end)
       = Raise e.

(* ================================================================== *)
(** * Properties *)

(** ** Numbers *)

Lemma Ok_inj {A} (a b : A) : Ok a = Ok b -> a = b.
Proof. congruence. Qed.

Lemma gt_zero_not_zero (x : float) : gt x 0 = true -> is_zero x = false.
Proof.
  unfold gt, is_zero. rewrite FloatAxioms.ltb_spec, FloatAxioms.eqb_spec.
  change (Prim2SF 0) with (S754_zero false).
  destruct (Prim2SF x) as [s| s| |s m e]; cbn;
    try discriminate; try reflexivity; destruct s; reflexivity.
Qed.

(** Above 30 is above 15. *)
Lemma gt_30_gt_15 (x : float) : gt x 30 = true -> gt x 15 = true.
Proof.
  unfold gt. rewrite !FloatAxioms.ltb_spec.
  change (Prim2SF 30) with (S754_finite false 8444249301319680 (-48)).
  change (Prim2SF 15) with (S754_finite false 8444249301319680 (-49)).
  unfold SFltb.
  destruct (Prim2SF x) as [s|s| |s m e]; cbn [SFcompare]; try discriminate.
  - destruct s; [discriminate | reflexivity].
  - destruct s; [discriminate|].
    destruct (Z.compare_spec (-48) e), (Z.compare_spec (-49) e);
      try lia; try discriminate; try reflexivity.
Qed.

Lemma float_div_ok (a b : float) :
  is_zero b = false -> float_div a b = Ok (a / b)%float.
Proof. unfold float_div. intros ->. reflexivity. Qed.

(** A window never holds more than the seven rows of [.limit(7)]. *)
Lemma limit_length {A} (n : nat) (rows : list A) :
  (length (limit n rows) <= n)%nat.
Proof. unfold limit. rewrite length_firstn. apply Nat.le_min_l. Qed.

Lemma not_none_length {A} (xs : list (option A)) :
  (length (not_none xs) <= length xs)%nat.
Proof.
  induction xs as [|[v|] xs IH]; cbn [not_none length]; lia.
Qed.

Lemma values_length {A B} (f : A -> option B) (rows : list A) :
  (length (not_none (map f rows)) <= length rows)%nat.
Proof.
  pose proof (not_none_length (map f rows)) as H.
  rewrite length_map in H. exact H.
Qed.

(** Dividing by a sample count between 1 and 7 always succeeds. *)
Lemma float_div_count (a : float) (n : nat) :
  (1 <= n <= 7)%nat ->
  exists b, int_to_float (Z.of_nat n) = Ok b /\ is_zero b = false
            /\ float_div_int a (Z.of_nat n) = Ok (a / b)%float.
Proof.
  intros [Hlo Hhi]. unfold float_div_int.
  destruct n as [|n]; [lia|].
  do 7 (destruct n as [|n];
        [eexists; split; [reflexivity|]; split; reflexivity|]).
  lia.
Qed.

Lemma len_over_10_small {A} (xs : list A) :
  (length xs <= 7)%nat -> exists t, len_over_10 xs = Ok t.
Proof.
  unfold len_over_10. intros H. remember (length xs) as n eqn:E. clear E.
  do 8 (destruct n as [|n]; [eexists; vm_compute; reflexivity|]).
  lia.
Qed.

(** ** Guarded divisions *)


Lemma safe_ok {A} (a : A) : division_safe (Ok a).
Proof. intros [msg H]. discriminate. Qed.

Lemma safe_raise {A} (k : exn_kind) (msg : string) :
  k <> ZeroDivisionError -> division_safe (@Raise A (Exn k msg)).
Proof. intros Hk [msg' H]. injection H as -> _. congruence. Qed.

Lemma safe_bind {A B} (m : result A) (k : A -> result B) :
  division_safe m ->
  (forall a, m = Ok a -> division_safe (k a)) ->
  division_safe (bind m k).
Proof.
  intros Hm Hk. destruct m as [a|e]; cbn [bind].
  - apply Hk. reflexivity.
  - intros [msg H]. apply Hm. exists msg. congruence.
Qed.

Lemma safe_operand {A} (x : option A) : division_safe (operand x).
Proof.
  destruct x; [apply safe_ok | apply safe_raise; discriminate].
Qed.

Lemma safe_operands {A} (xs : list (option A)) : division_safe (operands xs).
Proof.
  induction xs as [|x xs IH]; cbn [operands].
  - apply safe_ok.
  - apply safe_bind; [apply safe_operand|]. intros v _.
    apply safe_bind; [exact IH|]. intros vs _. apply safe_ok.
Qed.

Lemma safe_minus_days (d : datetime) (n : Z) : division_safe (minus_days d n).
Proof.
  unfold minus_days. destruct (_ <? 0);
    [apply safe_raise; discriminate | apply safe_ok].
Qed.

Lemma safe_int_to_float (n : Z) : division_safe (int_to_float n).
Proof.
  unfold int_to_float. destruct (PrimFloat.is_infinity _);
    [apply safe_raise; discriminate | apply safe_ok].
Qed.

Lemma safe_float_div (a b : float) :
  is_zero b = false -> division_safe (float_div a b).
Proof. intros H. rewrite float_div_ok by exact H. apply safe_ok. Qed.

Lemma safe_int_truediv (a b : Z) : b <> 0 -> division_safe (int_truediv a b).
Proof.
  intros Hb. unfold int_truediv.
  destruct (Z.eqb_spec b 0) as [->|_]; [congruence|].
  destruct (a =? 0); [apply safe_ok|].
  destruct (PrimFloat.is_infinity _);
    [apply safe_raise; discriminate | apply safe_ok].
Qed.

Lemma safe_float_div_count (a : float) (n : nat) :
  (1 <= n <= 7)%nat -> division_safe (float_div_int a (Z.of_nat n)).
Proof.
  intros H. destruct (float_div_count a n H) as (b & _ & _ & ->).
  apply safe_ok.
Qed.

Lemma safe_len_over_10 {A} (xs : list A) : division_safe (len_over_10 xs).
Proof. apply safe_int_truediv. discriminate. Qed.

Lemma safe_map_result {A B} (f : A -> result B) (xs : list A) :
  (forall x, division_safe (f x)) -> division_safe (map_result f xs).
Proof.
  intros Hf. induction xs as [|x xs IH]; cbn [map_result].
  - apply safe_ok.
  - apply safe_bind; [apply Hf|]. intros y _.
    apply safe_bind; [exact IH|]. intros ys _. apply safe_ok.
Qed.

Lemma safe_snapshots_7d (db : Db) (s : AdAccountSnapshot.t) :
  division_safe (snapshots_7d db s).
Proof.
  unfold snapshots_7d. apply safe_bind; [apply safe_minus_days|].
  intros d _. apply safe_ok.
Qed.

Lemma snapshots_7d_length (db : Db) (s : AdAccountSnapshot.t)
    (w : list AdAccountSnapshot.t) :
  snapshots_7d db s = Ok w -> (length w <= 7)%nat.
Proof.
  unfold snapshots_7d, bind. destruct (minus_days _ 7); [|discriminate].
  intros H. apply Ok_inj in H. subst w. apply limit_length.
Qed.

Lemma safe_int_div_float (n : Z) (b : float) :
  is_zero b = false -> division_safe (int_div_float n b).
Proof.
  intros H. unfold int_div_float. apply safe_bind; [apply safe_int_to_float|].
  intros a _. apply safe_float_div. exact H.
Qed.

Lemma safe_pow2 rt (x : float) : division_safe (pow2 rt x).
Proof.
  unfold pow2. destruct (float_square rt x);
    [apply safe_ok | apply safe_raise; discriminate].
Qed.

Create HintDb safe.
#[local] Hint Resolve safe_ok safe_operand safe_operands safe_minus_days
  safe_int_to_float safe_len_over_10 safe_snapshots_7d safe_pow2 : safe.

(** Side conditions of a division: the divisor was tested just before. *)
Ltac safe_divisor :=
  first [ assumption
        | apply gt_zero_not_zero; assumption
        | lia ].

Ltac safe_side :=
  first [ solve [auto with safe]
        | apply safe_float_div; safe_divisor
        | apply safe_int_div_float; safe_divisor
        | apply safe_float_div_count; lia
        | apply safe_int_truediv; lia ].

(** Steps through a body: one [bind], [if] or [match] at a time. *)
Ltac safe_step :=
  lazymatch goal with
  | |- division_safe (bind _ _) => apply safe_bind; [try safe_side | intros ? ?]
  | |- division_safe (if ?b then _ else _) => destruct b eqn:?
  | |- division_safe (match ?x with _ => _ end) => destruct x eqn:?
  | |- division_safe (Ok _) => apply safe_ok
  | |- division_safe (Raise (Exn _ _)) => apply safe_raise; discriminate
  | |- division_safe _ => safe_side
  end.

Ltac window_bounds :=
  repeat match goal with
  | H : snapshots_7d _ _ = Ok ?w |- _ =>
      lazymatch goal with
      | _ : (length w <= 7)%nat |- _ => fail
      | _ => pose proof (snapshots_7d_length _ _ _ H)
      end
  | H : (_ <? _)%nat = false |- _ => apply Nat.ltb_ge in H
  | H : (_ || _) = false |- _ => apply orb_false_elim in H as [? ?]
  end.

Ltac safe_body := repeat (window_bounds; cbv zeta; safe_step).

Lemma fatigue_body_safe rt db s : division_safe (fatigue_body rt db s).
Proof. unfold fatigue_body. safe_body. Qed.

Lemma saturation_body_safe rt db s : division_safe (saturation_body rt db s).
Proof. unfold saturation_body. safe_body. Qed.

Lemma delivery_concentration_body_safe rt meta s :
  division_safe (delivery_concentration_body rt meta s).
Proof.
  unfold delivery_concentration_body. safe_body.
  - apply safe_map_result. intros c. safe_side.
  - apply safe_map_result. intros x. safe_side.
Qed.

Lemma auction_shifts_body_safe rt db s :
  division_safe (auction_shifts_body rt db s).
Proof.
  unfold auction_shifts_body. safe_step.
  match goal with
  | H : snapshots_7d _ _ = Ok ?w |- _ =>
      pose proof (values_length AdAccountSnapshot.cpm w)
  end.
  safe_body.
Qed.

Lemma tracking_degradation_body_safe rt db s :
  division_safe (tracking_degradation_body rt db s).
Proof.
  unfold tracking_degradation_body. safe_body.
  match goal with
  | H : not_none (map ?f (limit 7 ?rows)) = _ |- _ =>
      pose proof (values_length f (limit 7 rows)) as Hn;
      pose proof (limit_length 7 rows);
      rewrite H in Hn
  end.
  apply safe_float_div_count. cbn [length] in *. lia.
Qed.

(** ** What an emitted diagnostic says about its inputs *)

Lemma try_except_some {A} (m : result (option A)) (d : A) :
  try_except m = Some d -> m = Ok (Some d).
Proof. destruct m as [[a|]|e]; cbn; congruence. Qed.

Lemma operand_ok {A} (x : option A) (v : A) : operand x = Ok v -> x = Some v.
Proof. destruct x; cbn; [congruence | discriminate]. Qed.

Lemma float_div_inv (a b r : float) :
  float_div a b = Ok r -> is_zero b = false /\ r = (a / b)%float.
Proof.
  unfold float_div. destruct (is_zero b); [discriminate|].
  intros H. apply Ok_inj in H. auto.
Qed.

(** Walks down a body known to return [Ok (Some d)], naming each step. *)
Ltac body_inv H :=
  repeat (cbv zeta in H;
          lazymatch type of H with
          | bind ?m _ = _ =>
              let E := fresh "E" in
              destruct m eqn:E; cbn [bind] in H; [|discriminate H]
          | (if ?b then _ else _) = _ =>
              let E := fresh "E" in destruct b eqn:E; try discriminate H
          | match ?x with _ => _ end = _ =>
              let E := fresh "E" in destruct x eqn:E; try discriminate H
          end).

Section Emitted.

Import DiagnosticResult.
Variable rt : Runtime.
Variable db : Db.
Variable s : AdAccountSnapshot.t.

Lemma fatigue_emitted (d : DiagnosticResult.t) :
  compute_fatigue rt db s = Some d ->
  exists w fs avg recent tenth,
    snapshots_7d db s = Ok w /\ (3 <= length w)%nat
    /\ operands (map AdAccountSnapshot.frequency w) = Ok fs
    /\ float_div_int (builtin_sum rt fs) (Z.of_nat (length w)) = Ok avg
    /\ is_zero avg = false
    /\ AdAccountSnapshot.frequency s = Some recent
    /\ len_over_10 w = Ok tenth
    /\ diagnostic_type d = "fatigue"
    /\ current_value d = Some recent
    /\ previous_value d = Some avg
    /\ change_percentage d = Some ((recent - avg) / avg * 100)%float
    /\ severity d =
         (if gt ((recent - avg) / avg * 100)%float 30 then "high"
          else if gt ((recent - avg) / avg * 100)%float 15 then "medium"
          else "low")
    /\ confidence d = py_min 0.95 (0.6 + tenth)%float
    /\ diagnostic_metadata d =
         [("snapshots_analyzed", VInt (Z.of_nat (length w)))].
Proof.
  intros H. apply try_except_some in H. unfold fatigue_body in H.
  body_inv H. apply Ok_inj in H. injection H as <-.
  apply Nat.ltb_ge in E0. apply operand_ok in E4.
  apply float_div_inv in E5 as [_ ->].
  do 5 eexists. repeat (split; [first [eassumption | reflexivity]|]).
  reflexivity.
Qed.

Lemma saturation_emitted (d : DiagnosticResult.t) :
  compute_saturation rt db s = Some d ->
  exists w recent_spend tenth,
    snapshots_7d db s = Ok w /\ (3 <= length w)%nat
    /\ AdAccountSnapshot.spend s = Some recent_spend
    /\ len_over_10 w = Ok tenth
    /\ diagnostic_type d = "saturation"
    /\ (gt recent_spend 0 = false -> current_value d = Some 0%float)
    /\ confidence d = py_min 0.95 (0.65 + tenth)%float
    /\ lookup "snapshots_analyzed" (diagnostic_metadata d)
       = Some (VInt (Z.of_nat (length w))).
Proof.
  intros H. apply try_except_some in H. unfold saturation_body in H.
  body_inv H.
  all: apply Ok_inj in H; injection H as <-.
  all: apply Nat.ltb_ge in E0.
  all: match goal with
       | H : operand (AdAccountSnapshot.spend s) = Ok _ |- _ =>
           apply operand_ok in H
       end.
  all: do 3 eexists; repeat (split; [first [eassumption | reflexivity]|]).
  all: split; [|split; reflexivity].
  all: cbn [current_value]; intros Hgt.
  all: match goal with
       | H : (if gt ?x 0 then _ else Ok _) = Ok ?r, G : gt ?x 0 = false
         |- Some ?r = _ => rewrite G in H; apply Ok_inj in H; congruence
       | H : int_div_float _ ?x = Ok _, G1 : gt ?x 0 = true, G : gt ?x 0 = false
         |- _ => congruence
       end.
Qed.

Lemma auction_shifts_emitted (d : DiagnosticResult.t) :
  compute_auction_shifts rt db s = Some d ->
  exists w recent_cpm tenth,
    snapshots_7d db s = Ok w /\ (3 <= length w)%nat
    /\ AdAccountSnapshot.cpm s = Some recent_cpm
    /\ (2 <= length (not_none (map AdAccountSnapshot.cpm w)))%nat
    /\ len_over_10 (not_none (map AdAccountSnapshot.cpm w)) = Ok tenth
    /\ diagnostic_type d = "auction_shifts"
    /\ current_value d = Some recent_cpm
    /\ confidence d = py_min 0.95 (0.7 + tenth)%float
    /\ lookup "snapshots_analyzed" (diagnostic_metadata d)
       = Some (VInt (Z.of_nat (length (not_none (map AdAccountSnapshot.cpm w)))))
    /\ exists avg,
         float_div_int
           (builtin_sum rt (not_none (map AdAccountSnapshot.cpm w)))
           (Z.of_nat (length (not_none (map AdAccountSnapshot.cpm w)))) = Ok avg
         /\ previous_value d = Some avg
         /\ (gt avg 0 = false -> change_percentage d = Some 0%float).
Proof.
  intros H. apply try_except_some in H. unfold auction_shifts_body in H.
  body_inv H.
  all: apply Ok_inj in H; injection H as <-.
  all: apply Nat.ltb_ge in E0; apply Nat.ltb_ge in E2.
  all: do 3 eexists; repeat (split; [first [eassumption | reflexivity]|]).
  all: eexists; split; [eassumption|]; split; [reflexivity|].
  all: cbn [change_percentage]; intros Hgt.
  all: repeat match goal with
       | H : (if gt _ 0 then _ else Ok _) = Ok _ |- _ =>
           rewrite Hgt in H; apply Ok_inj in H; rewrite <- H; clear H
       end.
  all: reflexivity.
Qed.

Lemma tracking_degradation_emitted (d : DiagnosticResult.t) :
  compute_tracking_degradation rt db s = Some d ->
  diagnostic_type d = "tracking_degradation" /\ confidence d = 0.85%float.
Proof.
  intros H. apply try_except_some in H. unfold tracking_degradation_body in H.
  body_inv H. apply Ok_inj in H. injection H as <-. split; reflexivity.
Qed.

Lemma delivery_concentration_emitted meta (d : DiagnosticResult.t) :
  compute_delivery_concentration rt meta s = Some d ->
  diagnostic_type d = "delivery_concentration" /\ confidence d = 0.8%float
  /\ previous_value d = None /\ change_percentage d = None.
Proof.
  intros H. apply try_except_some in H.
  unfold delivery_concentration_body in H.
  body_inv H. apply Ok_inj in H. injection H as <-. repeat split; reflexivity.
Qed.

End Emitted.

(** ** Skips *)

Section Skips.

Variable rt : Runtime.
Variable db : Db.
Variable s : AdAccountSnapshot.t.

Lemma short_window_skips (w : list AdAccountSnapshot.t) :
  snapshots_7d db s = Ok w -> (length w < 3)%nat ->
  compute_fatigue rt db s = None
  /\ compute_saturation rt db s = None
  /\ compute_auction_shifts rt db s = None.
Proof.
  intros Hw Hlen. apply Nat.ltb_lt in Hlen.
  unfold compute_fatigue, compute_saturation, compute_auction_shifts,
    fatigue_body, saturation_body, auction_shifts_body.
  rewrite Hw. cbn [bind]. rewrite Hlen. repeat split; reflexivity.
Qed.

Lemma zero_average_frequency_skips (w : list AdAccountSnapshot.t)
    (fs : list float) (avg : float) :
  snapshots_7d db s = Ok w ->
  operands (map AdAccountSnapshot.frequency w) = Ok fs ->
  float_div_int (builtin_sum rt fs) (Z.of_nat (length w)) = Ok avg ->
  is_zero avg = true ->
  compute_fatigue rt db s = None.
Proof.
  intros Hw Hfs Havg Hz. unfold compute_fatigue, fatigue_body.
  rewrite Hw. cbn [bind]. destruct (length w <? 3)%nat; [reflexivity|].
  rewrite Hfs. cbn [bind]. rewrite Havg. cbn [bind]. rewrite Hz. reflexivity.
Qed.

Lemma zero_average_spend_skips (w : list AdAccountSnapshot.t)
    (rs : list Z) (ss : list float) (avg_reach avg_spend : float) :
  snapshots_7d db s = Ok w ->
  operands (map AdAccountSnapshot.reach w) = Ok rs ->
  int_truediv (sum_int rs) (Z.of_nat (length w)) = Ok avg_reach ->
  operands (map AdAccountSnapshot.spend w) = Ok ss ->
  float_div_int (builtin_sum rt ss) (Z.of_nat (length w)) = Ok avg_spend ->
  is_zero avg_reach = true \/ is_zero avg_spend = true ->
  compute_saturation rt db s = None.
Proof.
  intros Hw Hrs Har Hss Has Hz. unfold compute_saturation, saturation_body.
  rewrite Hw. cbn [bind]. destruct (length w <? 3)%nat; [reflexivity|].
  rewrite Hrs. cbn [bind]. rewrite Har. cbn [bind].
  rewrite Hss. cbn [bind]. rewrite Has. cbn [bind].
  replace (is_zero avg_reach || is_zero avg_spend) with true; [reflexivity|].
  destruct Hz as [-> | ->]; [reflexivity | symmetry; apply orb_true_r].
Qed.

Lemma zero_total_spend_skips (client : datetime -> datetime -> list Campaign)
    (date_start : datetime) :
  minus_days (AdAccountSnapshot.snapshot_date s) 1 = Ok date_start ->
  is_zero
    (builtin_sum rt
       (map campaign_spend
          (client date_start (AdAccountSnapshot.snapshot_date s)))) = true ->
  compute_delivery_concentration rt (Some client) s = None.
Proof.
  intros Hd Hz. unfold compute_delivery_concentration,
    delivery_concentration_body.
  cbn [bind]. rewrite Hd. cbn [bind]. cbv zeta.
  destruct (length _ <? 2)%nat; [reflexivity|]. rewrite Hz. reflexivity.
Qed.

Lemma no_health_records_skips :
  events_manager_health db = [] ->
  compute_tracking_degradation rt db s = None.
Proof.
  intros H. unfold compute_tracking_degradation, tracking_degradation_body.
  rewrite H. destruct (minus_days _ 7); [|reflexivity]. cbn [bind].
  destruct (minus_days _ 1); reflexivity.
Qed.

End Skips.

(** ** The collected list *)


Lemma compute_all_diagnostics_eq rt meta db s :
  compute_all_diagnostics rt meta db s
  = (option_list (compute_fatigue rt db s)
       ++ option_list (compute_saturation rt db s)
       ++ option_list (compute_delivery_concentration rt meta s)
       ++ option_list (compute_auction_shifts rt db s)
       ++ option_list (compute_tracking_degradation rt db s))%list.
Proof.
  unfold compute_all_diagnostics, append_if.
  destruct (compute_fatigue rt db s), (compute_saturation rt db s),
    (compute_delivery_concentration rt meta s),
    (compute_auction_shifts rt db s),
    (compute_tracking_degradation rt db s); reflexivity.
Qed.

Lemma in_option_list {A} (o : option A) (x : A) :
  In x (option_list o) <-> o = Some x.
Proof.
  destruct o as [y|]; cbn; split; intros H;
    try tauto; try discriminate.
  - destruct H as [->|[]]. reflexivity.
  - left. congruence.
Qed.

Lemma in_compute_all_diagnostics rt meta db s d :
  In d (compute_all_diagnostics rt meta db s) <->
  compute_fatigue rt db s = Some d
  \/ compute_saturation rt db s = Some d
  \/ compute_delivery_concentration rt meta s = Some d
  \/ compute_auction_shifts rt db s = Some d
  \/ compute_tracking_degradation rt db s = Some d.
Proof.
  rewrite compute_all_diagnostics_eq. rewrite !in_app_iff, !in_option_list.
  tauto.
Qed.

(** ** Confidence *)

Lemma ltb_leb (x y : float) :
  PrimFloat.ltb x y = true -> PrimFloat.leb x y = true.
Proof.
  rewrite FloatAxioms.ltb_spec, FloatAxioms.leb_spec.
  unfold SFltb, SFleb. destruct (SFcompare _ _) as [[| |]|]; congruence.
Qed.

Lemma py_min_bound (x : float) :
  PrimFloat.leb (py_min 0.95 x) 0.95 = true.
Proof.
  unfold py_min, lt. destruct (PrimFloat.ltb x 0.95) eqn:E.
  - apply ltb_leb. exact E.
  - reflexivity.
Qed.

Lemma up_to_seven (n : nat) :
  (n <= 7)%nat ->
  n = 0%nat \/ n = 1%nat \/ n = 2%nat \/ n = 3%nat \/ n = 4%nat
  \/ n = 5%nat \/ n = 6%nat \/ n = 7%nat.
Proof. lia. Qed.

Lemma confidence_monotone (base : float) (n1 n2 : nat) (t1 t2 : float) :
  In base [0.6; 0.65; 0.7]%float ->
  (n1 <= n2 <= 7)%nat ->
  int_truediv (Z.of_nat n1) 10 = Ok t1 ->
  int_truediv (Z.of_nat n2) 10 = Ok t2 ->
  PrimFloat.leb (py_min 0.95 (base + t1)) (py_min 0.95 (base + t2)) = true.
Proof.
  intros Hb [H12 H7] H1 H2.
  assert (Hn1 : (n1 <= 7)%nat) by lia.
  destruct (up_to_seven n2 H7) as [->|[->|[->|[->|[->|[->|[->| ->]]]]]]];
    destruct (up_to_seven n1 Hn1) as [->|[->|[->|[->|[->|[->|[->| ->]]]]]]];
    try lia;
    vm_compute in H1, H2; apply Ok_inj in H1, H2; subst t1 t2;
    cbn [In] in Hb;
    (destruct Hb as [<-|[<-|[<-|[]]]]; vm_compute; reflexivity).
Qed.

(** ** Context assembly *)

Lemma filter_none {A} (f : A -> bool) (rows : list A) :
  (forall r, In r rows -> f r = false) -> filter f rows = [].
Proof.
  induction rows as [|r rows IH]; intros H; cbn [filter]; [reflexivity|].
  rewrite (H r) by (left; reflexivity).
  apply IH. intros r' Hr'. apply H. right. exact Hr'.
Qed.

Lemma first_filter_none {A} (f : A -> bool) (rows : list A) :
  first (filter f rows) = None -> filter f rows = [].
Proof. destruct (filter f rows); [reflexivity | discriminate]. Qed.

(** No snapshot at or before the date: there is no anchor. *)
Lemma anchor_snapshot_none (db : Db) (d : datetime) :
  (forall s, In s (ad_account_snapshots db) ->
             d < AdAccountSnapshot.snapshot_date s) ->
  anchor_snapshot db d = None.
Proof.
  intros H. unfold anchor_snapshot.
  rewrite !filter_none; [reflexivity| |].
  - intros s Hs. apply Z.leb_gt. apply H. exact Hs.
  - intros s Hs. apply Z.eqb_neq. specialize (H s Hs). lia.
Qed.

(** The assembled context does not depend on the stored diagnostics for
    whether it raises. *)
Lemma get_context_add_diagnostics rt db d rows ctx :
  get_context_for_date rt db d = Ok ctx ->
  exists ctx', get_context_for_date rt (add_diagnostics db rows) d = Ok ctx'.
Proof.
  unfold get_context_for_date.
  change (anchor_snapshot (add_diagnostics db rows) d)
    with (anchor_snapshot db d).
  destruct (anchor_snapshot db d) as [s|]; [|eexists; reflexivity].
  change (previous_snapshot_of (add_diagnostics db rows) s)
    with (previous_snapshot_of db s).
  destruct (match previous_snapshot_of db s with
            | Some previous => changes_dict s previous
            | None => Ok (VDict [])
            end) as [c|e]; cbn [bind]; [|discriminate].
  intros _. eexists. reflexivity.
Qed.

(** ** Overview rows *)

Lemma existing_overview_added (db : Db) (d : datetime) (row : DailyOverview.t) :
  existing_overview db d = None ->
  DailyOverview.overview_date row = d ->
  existing_overview (add_overview db row) d = Some row.
Proof.
  unfold existing_overview, add_overview. cbn [daily_overviews].
  intros Hnone Hdate. rewrite filter_app.
  rewrite (first_filter_none _ _ Hnone). cbn [app filter].
  rewrite Hdate, Z.eqb_refl. reflexivity.
Qed.

Lemma parse_overview_date rt d text row returned :
  parse_overview rt d text = Ok (row, returned) ->
  DailyOverview.overview_date row = d.
Proof.
  unfold parse_overview. intros H. body_inv H.
  apply Ok_inj in H. injection H as <- _. reflexivity.
Qed.

(** What the [try] block leaves behind. *)
Lemma request_overview_calls rt llm db d ctx :
  out_calls (request_overview rt llm db d ctx)
  = [{| call_db := db;
        call_request := {| request_date := d; request_context := ctx |} |}].
Proof.
  unfold request_overview.
  destruct (bind _ _) as [[row returned]|e]; reflexivity.
Qed.

Lemma request_overview_failure rt llm db d ctx e :
  (text <- llm {| request_date := d; request_context := ctx |} ;;
   parse_overview rt d text) = Raise e ->
  request_overview rt llm db d ctx
  = {| out_db := db;
       out_calls :=
         [{| call_db := db;
             call_request := {| request_date := d; request_context := ctx |} |}];
       out_value := Ok (error_dict rt e d) |}.
Proof. unfold request_overview. intros ->. reflexivity. Qed.

(** The three ways a generation without a stored overview can go: context
    assembly raises; there is no anchor snapshot; or the diagnostics of the
    anchor are committed and the context is assembled again. *)
Lemma generate_daily_overview_cases rt meta llm db d :
  existing_overview db d = None ->
  let o := generate_daily_overview rt meta llm db d in
  (exists e, get_context_for_date rt db d = Raise e
             /\ o = {| out_db := db; out_calls := []; out_value := Raise e |})
  \/ (exists ctx, get_context_for_date rt db d = Ok ctx
                  /\ anchor_snapshot db d = None
                  /\ o = request_overview rt llm db d ctx)
  \/ (exists ctx s ctx',
        get_context_for_date rt db d = Ok ctx
        /\ anchor_snapshot db d = Some s
        /\ get_context_for_date rt
             (add_diagnostics db (compute_all_diagnostics rt meta db s)) d
           = Ok ctx'
        /\ o = request_overview rt llm
                 (add_diagnostics db (compute_all_diagnostics rt meta db s))
                 d ctx').
Proof.
  intros Hnone. cbv zeta. unfold generate_daily_overview. rewrite Hnone.
  destruct (get_context_for_date rt db d) as [ctx|e] eqn:Hctx.
  - destruct (anchor_snapshot db d) as [s|] eqn:Hs.
    + right. right.
      destruct (get_context_add_diagnostics rt db d
                  (compute_all_diagnostics rt meta db s) ctx Hctx)
        as [ctx' Hctx'].
      exists ctx, s, ctx'. rewrite Hctx'. auto.
    + right. left. exists ctx. auto.
  - left. exists e. auto.
Qed.

Lemma generate_daily_overview_cached rt meta llm db d existing :
  existing_overview db d = Some existing ->
  generate_daily_overview rt meta llm db d
  = {| out_db := db; out_calls := [];
       out_value := stored_overview rt existing |}.
Proof. unfold generate_daily_overview. intros ->. reflexivity. Qed.

Lemma request_overview_db rt llm db d ctx :
  let o := request_overview rt llm db d ctx in
  (out_db o = db /\ exists e, out_value o = Ok (error_dict rt e d))
  \/ (exists row returned,
        out_db o = add_overview db row
        /\ DailyOverview.overview_date row = d
        /\ out_value o = Ok returned).
Proof.
  cbv zeta. unfold request_overview.
  destruct (bind _ _) as [[row returned]|e] eqn:E; cbn.
  - right. exists row, returned. repeat split.
    destruct (llm _) as [text|]; cbn [bind] in E; [|discriminate].
    eapply parse_overview_date. exact E.
  - left. split; [reflexivity|]. exists e. reflexivity.
Qed.

(** ** Parse failures *)


Lemma parse_failure_raises rt d text e :
  parse_failure rt text e -> parse_overview rt d text = Raise e.
Proof.
  unfold parse_failure, parse_overview.
  intros [-> | (v & -> & Hv & ->)]; [reflexivity|]. cbn [bind].
  destruct v; try reflexivity. exfalso. eapply Hv. reflexivity.
Qed.

(* ================================================================== *)
(** * The claims *)


(** When the model was consulted, it was on a store without an overview for
    the date, after the diagnostics of the anchor (if any) were committed,
    and with the context assembled from that store. *)
Lemma generate_daily_overview_consulted rt meta llm db d call :
  out_calls (generate_daily_overview rt meta llm db d) = [call] ->
  existing_overview db d = None
  /\ exists db1 ctx,
       (anchor_snapshot db d = None /\ db1 = db
        \/ exists s, anchor_snapshot db d = Some s
                     /\ db1 = add_diagnostics db
                                (compute_all_diagnostics rt meta db s))
       /\ get_context_for_date rt db1 d = Ok ctx
       /\ call = {| call_db := db1;
                    call_request :=
                      {| request_date := d; request_context := ctx |} |}
       /\ generate_daily_overview rt meta llm db d
          = request_overview rt llm db1 d ctx.
Proof.
  intros Hcalls.
  destruct (existing_overview db d) as [existing|] eqn:E0.
  { rewrite (generate_daily_overview_cached _ _ _ _ _ _ E0) in Hcalls.
    discriminate. }
  split; [reflexivity|].
  destruct (generate_daily_overview_cases rt meta llm db d E0)
    as [(e & _ & Ho) | [(ctx & Hctx & Hs & Ho) | (ctx & s & ctx' & _ & Hs & Hctx' & Ho)]];
    rewrite Ho in Hcalls |- *.
  - discriminate.
  - rewrite request_overview_calls in Hcalls. injection Hcalls as <-.
    exists db, ctx. auto.
  - rewrite request_overview_calls in Hcalls. injection Hcalls as <-.
    eexists _, ctx'. split; [right; exists s; split; [exact Hs|reflexivity]|].
    auto.
Qed.

(** A retry on a store where the context assembles and no overview is
    stored consults the model again. *)
Lemma generate_daily_overview_retry rt meta llm db d ctx :
  existing_overview db d = None ->
  get_context_for_date rt db d = Ok ctx ->
  out_calls (generate_daily_overview rt meta llm db d) <> [].
Proof.
  intros E0 Hctx.
  destruct (generate_daily_overview_cases rt meta llm db d E0)
    as [(e & He & _) | [(c & _ & _ & ->) | (c & s & c' & _ & _ & _ & ->)]];
    [congruence| |]; rewrite request_overview_calls; discriminate.
Qed.





(** Every way the parse-and-store step can raise. *)
Lemma parse_overview_raises rt d text e :
  parse_overview rt d text = Raise e <->
  parse_failure rt text e \/ commit_failure rt text e.
Proof.
  unfold parse_failure, commit_failure, parse_overview. split.
  - destruct (json_loads rt (clean_content text)) as [v|e'];
      cbn [bind]; [|intros H; left; left; congruence].
    destruct v as [ | | | | | |kvs]; cbn [get bind].
    7:{ destruct (bind_text rt _) as [stored|e'] eqn:Hb; cbn [bind];
          [discriminate|].
        intros [= <-]. right. exists kvs. auto. }
    all: intros [= <-]; left; right; eexists; (split; [reflexivity|]);
      (split; [discriminate | reflexivity]).
  - intros [[-> | (v & -> & Hv & ->)] | (kvs & -> & Hb)]; cbn [bind].
    + reflexivity.
    + destruct v; try reflexivity. exfalso. eapply Hv. reflexivity.
    + cbn [get bind]. rewrite Hb. reflexivity.
Qed.

(** A completion that parses to a JSON object whose summary binds is not a
    failure, whatever its keys: the row is stored, absent fields taking
    their defaults. *)
Lemma parsed_object_is_stored rt llm db d ctx text kvs stored :
  llm {| request_date := d; request_context := ctx |} = Ok text ->
  json_loads rt (clean_content text) = Ok (VDict kvs) ->
  bind_text rt
    (match lookup "summary" kvs with Some x => x | None => VStr "" end)
  = Ok stored ->
  let default key :=
    match lookup key kvs with Some x => x | None => VList [] end in
  request_overview rt llm db d ctx
  = {| out_db :=
         add_overview db
           (DailyOverview.mk d stored
              (VStr (json_dumps rt (default "key_changes")))
              (VStr (json_dumps rt (default "insights")))
              (VStr (json_dumps rt (default "recommendations"))));
       out_calls :=
         [{| call_db := db;
             call_request :=
               {| request_date := d; request_context := ctx |} |}];
       out_value :=
         Ok (VDict [("overview_date", VStr (isoformat rt d));
                    ("summary", stored);
                    ("key_changes", default "key_changes");
                    ("insights", default "insights");
                    ("recommendations", default "recommendations")]) |}.
Proof.
  intros Htext Hjson Hbind. cbv zeta.
  unfold request_overview. rewrite Htext. cbn [bind].
  unfold parse_overview. rewrite Hjson. cbn [get bind].
  rewrite Hbind. reflexivity.
Qed.

(** C4, as the code has it: when the cleaned completion is rejected by
    [json.loads], is not a JSON object, or is an object whose summary the
    commit cannot bind, no Overview row is stored, the returned dictionary
    carries [str(e)] under ['error'] and the target date under
    ['overview_date'], and a later call for the date finds no stored
    overview and consults the model again.  A completion that parses to a
    JSON object whose summary binds is stored whatever keys it has, a
    missing summary as the empty string and a missing list as [[]], and a
    later call returns that row without consulting the model. *)
Theorem parse_failure_stores_no_overview rt meta llm db d call text :
  out_calls (generate_daily_overview rt meta llm db d) = [call] ->
  llm (call_request call) = Ok text ->
  let o := generate_daily_overview rt meta llm db d in
  (forall e,
      parse_failure rt text e \/ commit_failure rt text e ->
      daily_overviews (out_db o) = daily_overviews db
      /\ out_value o
         = Ok (VDict [("error", VStr (exn_str e));
                      ("overview_date", VStr (isoformat rt d))])
      /\ existing_overview (out_db o) d = None
      /\ (forall llm',
            out_calls (generate_daily_overview rt meta llm' (out_db o) d)
            <> []))
  /\ (forall kvs stored,
        json_loads rt (clean_content text) = Ok (VDict kvs) ->
        bind_text rt
          (match lookup "summary" kvs with Some x => x | None => VStr "" end)
        = Ok stored ->
        let default key :=
          match lookup key kvs with Some x => x | None => VList [] end in
        let row :=
          DailyOverview.mk d stored
            (VStr (json_dumps rt (default "key_changes")))
            (VStr (json_dumps rt (default "insights")))
            (VStr (json_dumps rt (default "recommendations"))) in
        daily_overviews (out_db o) = (daily_overviews db ++ [row])%list
        /\ existing_overview (out_db o) d = Some row
        /\ (forall llm',
              out_calls (generate_daily_overview rt meta llm' (out_db o) d)
              = [])).
Proof.
  intros Hcalls Htext. cbv zeta.
  destruct (generate_daily_overview_consulted _ _ _ _ _ _ Hcalls)
    as (E0 & db1 & ctx & Hdb1 & Hctx & -> & ->).
  cbn [call_request] in Htext.
  assert (Hov : daily_overviews db1 = daily_overviews db)
    by (destruct Hdb1 as [[_ ->] | (s & _ & ->)]; reflexivity).
  assert (E1 : existing_overview db1 d = None)
    by (unfold existing_overview in *; rewrite Hov; exact E0).
  split.
  - intros e Hfail.
    apply (parse_overview_raises rt d) in Hfail.
    rewrite (request_overview_failure rt llm db1 d ctx e)
      by (rewrite Htext; exact Hfail).
    cbn [out_db out_value].
    repeat split; try assumption.
    intros llm'. eapply generate_daily_overview_retry; eassumption.
  - intros kvs stored Hjson Hbind.
    rewrite (parsed_object_is_stored rt llm db1 d ctx text kvs stored
               Htext Hjson Hbind).
    cbn [out_db].
    match goal with
    | |- context [add_overview db1 ?row] =>
        pose proof (existing_overview_added db1 d row E1 eq_refl) as E2
    end.
    split; [cbn [add_overview daily_overviews]; rewrite Hov; reflexivity|].
    split; [exact E2|].
    intros llm'.
    rewrite (generate_daily_overview_cached _ _ llm' _ _ _ E2). reflexivity.
Qed.

Lemma parse_failure_stores_no_overview_witness :
  let db := Sample.store (Sample.history ++ [Examples.today 11]) in
  let o :=
    generate_daily_overview CPython.runtime Sample.no_campaigns
      Examples.prose db (jan_2024 13) in
  daily_overviews (out_db o) = []
  /\ out_value o
     = Ok (VDict [("error", VStr "Expecting value: line 1 column 1 (char 0)");
                  ("overview_date", VStr "2024-01-13T00:00:00")])
  /\ existing_overview (out_db o) (jan_2024 13) = None.
Proof.
  cbv zeta.
  destruct (proj1
              (parse_failure_stores_no_overview CPython.runtime
                 Sample.no_campaigns Examples.prose
                 (Sample.store (Sample.history ++ [Examples.today 11]))
                 (jan_2024 13)
                 (hd {| call_db := Sample.store [];
                        call_request := {| request_date := 0;
                                           request_context := VNone |} |}
                    (out_calls
                       (generate_daily_overview CPython.runtime
                          Sample.no_campaigns Examples.prose
                          (Sample.store
                             (Sample.history ++ [Examples.today 11]))
                          (jan_2024 13))))
                 "I am sorry, I cannot summarise this day."
                 ltac:(vm_compute; reflexivity) eq_refl)
              (Exn JSONDecodeError "Expecting value: line 1 column 1 (char 0)")
              ltac:(left; left; vm_compute; reflexivity))
    as (H1 & H2 & H3 & _).
  repeat split; assumption.
Defined.

(** C4 fails as stated: the completion [{}] has none of the four keys asked
    for, yet it is stored as the overview of 13 January, with an empty
    summary and empty lists, and a later call returns that row without
    consulting the model. *)
Lemma object_without_keys_counterexample :
  json_loads CPython.runtime (clean_content "{}") = Ok (VDict [])
  /\ daily_overviews
       (out_db
          (generate_daily_overview CPython.runtime Sample.no_campaigns
             Examples.empty_object
             (Sample.store (Sample.history ++ [Examples.today 11]))
             (jan_2024 13)))
     = [DailyOverview.mk (jan_2024 13) (VStr EmptyString)
          (VStr "[]") (VStr "[]") (VStr "[]")]
  /\ out_calls
       (generate_daily_overview CPython.runtime Sample.no_campaigns
          Examples.prose
          (out_db
             (generate_daily_overview CPython.runtime Sample.no_campaigns
                Examples.empty_object
                (Sample.store (Sample.history ++ [Examples.today 11]))
                (jan_2024 13)))
          (jan_2024 13)) = [].
Proof. vm_compute. repeat split; reflexivity. Qed.

(** C10: with an anchor snapshot, the model is called on the store that
    already holds the newly computed diagnostic rows; when the call or the
    parse then fails, the store left behind is that one: the new rows stay,
    no Overview row is added, and the diagnostics table differs from the one
    before the attempt as soon as a row was computed. *)
Theorem diagnostics_committed_before_model_call rt meta llm db d s call :
  anchor_snapshot db d = Some s ->
  out_calls (generate_daily_overview rt meta llm db d) = [call] ->
  let computed := compute_all_diagnostics rt meta db s in
  let o := generate_daily_overview rt meta llm db d in
  call_db call = add_diagnostics db computed
  /\ diagnostic_results (call_db call) = (diagnostic_results db ++ computed)%list
  /\ ((exists e, llm (call_request call) = Raise e)
      \/ (exists text e, llm (call_request call) = Ok text
                         /\ parse_failure rt text e) ->
      out_db o = add_diagnostics db computed
      /\ diagnostic_results (out_db o) = (diagnostic_results db ++ computed)%list
      /\ daily_overviews (out_db o) = daily_overviews db
      /\ (exists e, out_value o = Ok (error_dict rt e d))
      /\ (computed <> [] -> diagnostic_results (out_db o) <> diagnostic_results db)).
Proof.
  intros Hs Hcalls. cbv zeta.
  destruct (generate_daily_overview_consulted _ _ _ _ _ _ Hcalls)
    as (E0 & db1 & ctx & Hdb1 & Hctx & -> & ->).
  destruct Hdb1 as [[Hnone _] | (s' & Hs' & ->)]; [congruence|].
  assert (s' = s) by congruence. subst s'.
  cbn [call_db call_request]. split; [reflexivity|]. split; [reflexivity|].
  intros Hfail.
  assert (exists e,
             (text <- llm {| request_date := d; request_context := ctx |} ;;
              parse_overview rt d text) = Raise e) as [e He].
  { destruct Hfail as [[e He] | (text & e & Ht & Hp)].
    - exists e. rewrite He. reflexivity.
    - exists e. rewrite Ht. cbn [bind].
      apply (parse_failure_raises rt d). exact Hp. }
  rewrite (request_overview_failure _ _ _ _ _ _ He).
  cbn [out_db out_value add_diagnostics diagnostic_results daily_overviews].
  repeat split; try reflexivity.
  - exists e. reflexivity.
  - intros Hne Heq. apply Hne.
    apply (app_inv_head (diagnostic_results db)).
    rewrite app_nil_r. exact Heq.
Qed.

Lemma diagnostics_committed_before_model_call_witness :
  let db := Sample.store (Sample.history ++ [Examples.today 11]) in
  let o :=
    generate_daily_overview CPython.runtime Sample.no_campaigns
      Examples.prose db (jan_2024 13) in
  length (diagnostic_results db) = 0%nat
  /\ length (diagnostic_results (out_db o)) = 3%nat
  /\ daily_overviews (out_db o) = [].
Proof.
  cbv zeta.
  destruct (diagnostics_committed_before_model_call CPython.runtime
              Sample.no_campaigns Examples.prose
              (Sample.store (Sample.history ++ [Examples.today 11]))
              (jan_2024 13) (Examples.today 11)
              (hd {| call_db := Sample.store [];
                     call_request := {| request_date := 0;
                                        request_context := VNone |} |}
                 (out_calls
                    (generate_daily_overview CPython.runtime
                       Sample.no_campaigns Examples.prose
                       (Sample.store (Sample.history ++ [Examples.today 11]))
                       (jan_2024 13)))))
    as (_ & _ & H).
  - vm_compute. reflexivity.
  - vm_compute. reflexivity.
  - destruct H as (_ & Hd & Ho & _ & _).
    + right. exists "I am sorry, I cannot summarise this day.",
        (Exn JSONDecodeError "Expecting value: line 1 column 1 (char 0)").
      split; [reflexivity|]. left. vm_compute. reflexivity.
    + split; [reflexivity|]. split; [|exact Ho].
      rewrite Hd. vm_compute. reflexivity.
Defined.

(** C2, as the code has it: without a stored overview, a generation whose
    context assembles commits the diagnostics computed for the anchor
    snapshot, appended to whatever rows the table already holds for that
    date; the table is left alone only when an overview is stored, when
    there is no anchor snapshot, or when context assembly raises. *)
Theorem diagnostics_computed_on_every_generation rt meta llm db d :
  let o := generate_daily_overview rt meta llm db d in
  (forall s ctx,
      existing_overview db d = None ->
      anchor_snapshot db d = Some s ->
      get_context_for_date rt db d = Ok ctx ->
      diagnostic_results (out_db o)
      = (diagnostic_results db ++ compute_all_diagnostics rt meta db s)%list)
  /\ (existing_overview db d <> None
      \/ anchor_snapshot db d = None
      \/ (exists e, get_context_for_date rt db d = Raise e) ->
      diagnostic_results (out_db o) = diagnostic_results db).
Proof.
  cbv zeta. split.
  - intros s ctx E0 Hs Hctx.
    destruct (generate_daily_overview_cases rt meta llm db d E0)
      as [(e & He & _) | [(c & _ & Hn & _) | (c & s' & c' & _ & Hs' & _ & ->)]];
      [congruence | congruence |].
    assert (s' = s) by congruence. subst s'.
    destruct (request_overview_db rt llm
                (add_diagnostics db (compute_all_diagnostics rt meta db s))
                d c')
      as [(-> & _) | (row & r & -> & _ & _)]; reflexivity.
  - intros H.
    destruct (existing_overview db d) as [existing|] eqn:E0.
    { rewrite (generate_daily_overview_cached _ _ _ _ _ _ E0). reflexivity. }
    destruct (generate_daily_overview_cases rt meta llm db d E0)
      as [(e & He & ->) | [(c & _ & Hn & ->) | (c & s' & c' & Hc & Hs' & _ & _)]].
    + reflexivity.
    + destruct (request_overview_db rt llm db d c)
        as [(-> & _) | (row & r & -> & _ & _)]; reflexivity.
    + destruct H as [H | [H | [e H]]]; congruence.
Qed.

Lemma diagnostics_computed_on_every_generation_witness :
  length
    (diagnostic_results
       (out_db
          (generate_daily_overview CPython.runtime Sample.no_campaigns
             Examples.empty_object Examples.after_daily_job (jan_2024 13))))
  = 6%nat.
Proof.
  rewrite (proj1 (diagnostics_computed_on_every_generation CPython.runtime
                    Sample.no_campaigns Examples.empty_object
                    Examples.after_daily_job (jan_2024 13))
             (Examples.today 11)
             (match get_context_for_date CPython.runtime
                      Examples.after_daily_job (jan_2024 13) with
              | Ok c => c
              | Raise _ => VNone
              end)); vm_compute; reflexivity.
Defined.

(** C2 fails as stated: the anchor snapshot of 13 January already has three
    diagnostic rows for its date, and generating the overview commits three
    more. *)
Lemma diagnostics_recomputed_counterexample :
  anchor_snapshot Examples.after_daily_job (jan_2024 13)
  = Some (Examples.today 11)
  /\ length
       (filter
          (fun r => DiagnosticResult.snapshot_date r =? jan_2024 13)
          (diagnostic_results Examples.after_daily_job)) = 3%nat
  /\ length
       (diagnostic_results
          (out_db
             (generate_daily_overview CPython.runtime Sample.no_campaigns
                Examples.empty_object Examples.after_daily_job (jan_2024 13))))
     = 6%nat.
Proof. vm_compute. repeat split; reflexivity. Qed.

(** C5, as the code has it: with no snapshot at or before the target date
    the bundle is the empty dictionary; and when the anchor snapshot has no
    previous snapshot, or the previous snapshot's spend is a number that is
    not above zero, the bundle keeps its ['changes'] entry, whose value is
    the empty dictionary. *)
Theorem context_changes_entry_empty rt db d :
  ((forall s, In s (ad_account_snapshots db) ->
              d < AdAccountSnapshot.snapshot_date s) ->
   get_context_for_date rt db d = Ok (VDict []))
  /\ (forall s,
        anchor_snapshot db d = Some s ->
        previous_snapshot_of db s = None
        \/ (exists previous x,
              previous_snapshot_of db s = Some previous
              /\ AdAccountSnapshot.spend previous = Some x
              /\ gt x 0 = false) ->
        exists ctx,
          get_context_for_date rt db d = Ok ctx
          /\ entry "changes" ctx = Some (VDict [])).
Proof.
  split.
  - intros H. unfold get_context_for_date.
    rewrite (anchor_snapshot_none db d H). reflexivity.
  - intros s Hs Hprev. unfold get_context_for_date. rewrite Hs.
    destruct Hprev as [-> | (previous & x & -> & Hx & Hgt)].
    + cbn [bind]. eexists. split; reflexivity.
    + unfold changes_dict. rewrite Hx. cbn [operand bind]. rewrite Hgt.
      cbn [bind]. eexists. split; reflexivity.
Qed.

Lemma context_changes_entry_empty_witness :
  get_context_for_date CPython.runtime
    (Sample.store [Examples.today 11]) (jan_2024 12) = Ok (VDict [])
  /\ exists ctx,
       get_context_for_date CPython.runtime
         (Sample.store [Examples.today 11]) (jan_2024 13) = Ok ctx
       /\ entry "changes" ctx = Some (VDict []).
Proof.
  split.
  - apply (proj1 (context_changes_entry_empty CPython.runtime
                    (Sample.store [Examples.today 11]) (jan_2024 12))).
    intros s [<-|[]]. reflexivity.
  - apply (proj2 (context_changes_entry_empty CPython.runtime
                    (Sample.store [Examples.today 11]) (jan_2024 13))
             (Examples.today 11)).
    + reflexivity.
    + left. reflexivity.
Defined.

(** C5 fails as stated: a store with a single snapshot has no previous
    snapshot, yet the bundle has a ['changes'] entry. *)
Lemma context_changes_counterexample :
  previous_snapshot_of (Sample.store [Examples.today 11]) (Examples.today 11)
  = None
  /\ (ctx <- get_context_for_date CPython.runtime
               (Sample.store [Examples.today 11]) (jan_2024 13) ;;
      Ok (entry "changes" ctx))
     = Ok (Some (VDict [])).
Proof. split; vm_compute; reflexivity. Qed.

(** ** Emission *)

Lemma fatigue_emits rt db s w fs cur avg :
  snapshots_7d db s = Ok w -> (3 <= length w)%nat ->
  operands (map AdAccountSnapshot.frequency w) = Ok fs ->
  float_div_int (builtin_sum rt fs) (Z.of_nat (length w)) = Ok avg ->
  is_zero avg = false ->
  AdAccountSnapshot.frequency s = Some cur ->
  exists d, compute_fatigue rt db s = Some d.
Proof.
  intros Hw Hlen Hfs Havg Hz Hcur.
  pose proof (snapshots_7d_length _ _ _ Hw) as H7.
  destruct (len_over_10_small w H7) as [t Ht].
  apply Nat.ltb_ge in Hlen.
  unfold compute_fatigue, fatigue_body.
  rewrite Hw. cbn [bind]. rewrite Hlen, Hfs. cbn [bind].
  rewrite Havg. cbn [bind]. rewrite Hz, Hcur. cbn [operand bind].
  rewrite float_div_ok by exact Hz. cbn [bind]. cbv zeta.
  rewrite Ht. cbn [bind try_except]. eexists. reflexivity.
Qed.

Lemma auction_shifts_emits rt db s w recent :
  snapshots_7d db s = Ok w -> (3 <= length w)%nat ->
  AdAccountSnapshot.cpm s = Some recent ->
  (2 <= length (not_none (map AdAccountSnapshot.cpm w)))%nat ->
  exists d, compute_auction_shifts rt db s = Some d.
Proof.
  intros Hw Hlen Hcpm Hvalues.
  pose proof (snapshots_7d_length _ _ _ Hw) as H7.
  pose proof (values_length AdAccountSnapshot.cpm w) as Hv.
  destruct (len_over_10_small (not_none (map AdAccountSnapshot.cpm w)))
    as [t Ht]; [lia|].
  destruct (float_div_count
              (builtin_sum rt (not_none (map AdAccountSnapshot.cpm w)))
              (length (not_none (map AdAccountSnapshot.cpm w))))
    as (b & _ & _ & Havg); [lia|].
  apply Nat.ltb_ge in Hlen. apply Nat.ltb_ge in Hvalues.
  unfold compute_auction_shifts, auction_shifts_body.
  rewrite Hw. cbn [bind]. rewrite Hlen, Hcpm. cbv zeta.
  rewrite Hvalues, Havg. cbn [bind].
  match goal with
  | |- context [gt ?avg 0] =>
      destruct (gt avg 0) eqn:Hgt;
      [rewrite !float_div_ok by (apply gt_zero_not_zero; exact Hgt)|]
  end; cbn [bind]; rewrite Ht; cbn [bind try_except]; eexists; reflexivity.
Qed.

(** C3, as the code has it: over a trailing window of exactly three
    snapshots whose frequencies average to a non-zero [F], [compute_fatigue]
    emits a diagnostic with [pct = (current - F) / F * 100], whose severity
    is "high" exactly when [pct > 30], "medium" exactly when [pct > 15] but
    not [pct > 30], and "low" otherwise.  A current frequency of [F * 1.30]
    or [F * 1.15] sits on a threshold, where rounding decides. *)
Theorem fatigue_severity_thresholds rt db s w fs F current :
  snapshots_7d db s = Ok w -> length w = 3%nat ->
  operands (map AdAccountSnapshot.frequency w) = Ok fs ->
  (builtin_sum rt fs / 3)%float = F -> is_zero F = false ->
  AdAccountSnapshot.frequency s = Some current ->
  let pct := ((current - F) / F * 100)%float in
  exists d,
    compute_fatigue rt db s = Some d
    /\ DiagnosticResult.previous_value d = Some F
    /\ DiagnosticResult.change_percentage d = Some pct
    /\ (DiagnosticResult.severity d = "high" <-> gt pct 30 = true)
    /\ (DiagnosticResult.severity d = "medium"
        <-> gt pct 30 = false /\ gt pct 15 = true)
    /\ (DiagnosticResult.severity d = "low" <-> gt pct 15 = false).
Proof.
  intros Hw Hlen Hfs HF Hz Hcur pct.
  assert (Havg : float_div_int (builtin_sum rt fs) (Z.of_nat (length w)) = Ok F).
  { rewrite Hlen, <- HF. reflexivity. }
  destruct (fatigue_emits rt db s w fs current F Hw ltac:(lia) Hfs Havg Hz Hcur)
    as [d Hd].
  exists d. split; [exact Hd|].
  destruct (fatigue_emitted rt db s d Hd)
    as (w' & fs' & avg & recent & tenth & Hw' & _ & Hfs' & Havg' & _ & Hcur'
        & _ & _ & _ & Hprev & Hpct & Hsev & _).
  assert (w' = w) by congruence. subst w'.
  assert (fs' = fs) by congruence. subst fs'.
  assert (avg = F) by congruence. subst avg.
  assert (recent = current) by congruence. subst recent.
  split; [exact Hprev|]. split; [exact Hpct|].
  rewrite Hsev. fold pct.
  pose proof (gt_30_gt_15 pct) as Horder.
  destruct (gt pct 30); destruct (gt pct 15);
    repeat split; intros; try discriminate; try reflexivity;
    try (destruct H; discriminate); try (specialize (Horder eq_refl); discriminate).
Qed.

Lemma fatigue_severity_thresholds_witness :
  exists d,
    compute_fatigue CPython.runtime (Sample.store Sample.history)
      (Examples.today 14) = Some d
    /\ DiagnosticResult.change_percentage d = Some 40%float
    /\ DiagnosticResult.severity d = "high".
Proof.
  destruct (fatigue_severity_thresholds CPython.runtime
              (Sample.store Sample.history) (Examples.today 14)
              (rev Sample.history) [10; 10; 10]%float 10%float 14%float)
    as (d & Hd & _ & Hpct & Hhigh & _); try reflexivity.
  exists d. split; [exact Hd|]. split; [exact Hpct|].
  apply Hhigh. reflexivity.
Defined.

(** C3 fails as stated: three snapshots of frequency 10 average to F = 10;
    a current frequency of [10 * 1.30] is a rise of exactly 30 percent and
    is classified "medium", one of [10 * 1.15] exactly 15 percent and "low". *)
Lemma fatigue_on_threshold_counterexample :
  let at_130 := Examples.today (10 * 1.30) in
  let at_115 := Examples.today (10 * 1.15) in
  snapshots_7d (Sample.store (Sample.history ++ [at_130])) at_130
  = Ok (rev Sample.history)
  /\ snapshots_7d (Sample.store (Sample.history ++ [at_115])) at_115
     = Ok (rev Sample.history)
  /\ (CPython.builtin_sum [10; 10; 10] / 3 = 10)%float
  /\ option_map
       (fun d => (DiagnosticResult.change_percentage d, DiagnosticResult.severity d))
       (compute_fatigue CPython.runtime
          (Sample.store (Sample.history ++ [at_130])) at_130)
     = Some (Some 30%float, "medium")
  /\ option_map
       (fun d => (DiagnosticResult.change_percentage d, DiagnosticResult.severity d))
       (compute_fatigue CPython.runtime
          (Sample.store (Sample.history ++ [at_115])) at_115)
     = Some (Some 15%float, "low").
Proof. repeat split; vm_compute; reflexivity. Qed.

(** On the threshold, rounding decides: with three snapshots of frequency 2
    the same factor 1.30 gives a computed rise just above 30 and "high". *)
Example fatigue_rounding_above_threshold :
  let history :=
    [Sample.snapshot 10 2 5; Sample.snapshot 11 2 5; Sample.snapshot 12 2 5] in
  option_map
    (fun d => (DiagnosticResult.change_percentage d, DiagnosticResult.severity d))
    (compute_fatigue CPython.runtime (Sample.store history)
       (Examples.today (2 * 1.30)))
  = Some (Some 30.000000000000004%float, "high").
Proof. vm_compute. reflexivity. Qed.

(** C9, as the code has it: [compute_auction_shifts] emits a diagnostic
    exactly when the trailing window exists and holds at least three
    snapshots, the current CPM is present, and at least two of the window's
    snapshots have a CPM; with fewer than two such values, or fewer than
    three snapshots, the category is skipped. *)
Theorem auction_shifts_minimum_samples rt db s :
  (exists d, compute_auction_shifts rt db s = Some d)
  <-> (exists w recent,
          snapshots_7d db s = Ok w
          /\ (3 <= length w)%nat
          /\ AdAccountSnapshot.cpm s = Some recent
          /\ (2 <= length (not_none (map AdAccountSnapshot.cpm w)))%nat).
Proof.
  split.
  - intros [d Hd].
    destruct (auction_shifts_emitted rt db s d Hd)
      as (w & recent & _ & Hw & Hlen & Hcpm & Hvalues & _).
    exists w, recent. auto.
  - intros (w & recent & Hw & Hlen & Hcpm & Hvalues).
    eapply auction_shifts_emits; eassumption.
Qed.

Lemma auction_shifts_minimum_samples_witness :
  exists d,
    compute_auction_shifts CPython.runtime (Sample.store Sample.history)
      (Examples.today 11) = Some d.
Proof.
  apply (proj2 (auction_shifts_minimum_samples CPython.runtime
                  (Sample.store Sample.history) (Examples.today 11))).
  exists (rev Sample.history), 5%float.
  repeat split; vm_compute; try reflexivity; lia.
Defined.

(** C9 fails as stated: the current CPM is present and the trailing window
    holds two snapshots, both with a CPM, yet the category is skipped. *)
Lemma auction_shifts_two_values_counterexample :
  let db := Sample.store [Sample.snapshot 11 10 5; Sample.snapshot 12 10 5] in
  AdAccountSnapshot.cpm (Examples.today 11) = Some 5%float
  /\ option_map (fun w => not_none (map AdAccountSnapshot.cpm w))
       (match snapshots_7d db (Examples.today 11) with
        | Ok w => Some w
        | Raise _ => None
        end)
     = Some [5; 5]%float
  /\ compute_auction_shifts CPython.runtime db (Examples.today 11) = None.
Proof. repeat split; vm_compute; reflexivity. Qed.

(** C8: [compute_all_diagnostics] runs the five categories on the same
    snapshot and store and returns exactly the diagnostics they emit, in the
    order fatigue, saturation, delivery concentration, auction shifts,
    tracking degradation; each category's diagnostic is in the list whatever
    the others did, and a category whose body raises only drops out. *)
Theorem compute_all_diagnostics_collects rt meta db s :
  compute_all_diagnostics rt meta db s
  = (option_list (compute_fatigue rt db s)
       ++ option_list (compute_saturation rt db s)
       ++ option_list (compute_delivery_concentration rt meta s)
       ++ option_list (compute_auction_shifts rt db s)
       ++ option_list (compute_tracking_degradation rt db s))%list
  /\ map DiagnosticResult.diagnostic_type (compute_all_diagnostics rt meta db s)
     = (map (fun _ => "fatigue") (option_list (compute_fatigue rt db s))
          ++ map (fun _ => "saturation")
               (option_list (compute_saturation rt db s))
          ++ map (fun _ => "delivery_concentration")
               (option_list (compute_delivery_concentration rt meta s))
          ++ map (fun _ => "auction_shifts")
               (option_list (compute_auction_shifts rt db s))
          ++ map (fun _ => "tracking_degradation")
               (option_list (compute_tracking_degradation rt db s)))%list
  /\ (forall d,
        compute_fatigue rt db s = Some d
        \/ compute_saturation rt db s = Some d
        \/ compute_delivery_concentration rt meta s = Some d
        \/ compute_auction_shifts rt db s = Some d
        \/ compute_tracking_degradation rt db s = Some d ->
        In d (compute_all_diagnostics rt meta db s))
  /\ (forall e,
        fatigue_body rt db s = Raise e ->
        compute_all_diagnostics rt meta db s
        = (option_list (compute_saturation rt db s)
             ++ option_list (compute_delivery_concentration rt meta s)
             ++ option_list (compute_auction_shifts rt db s)
             ++ option_list (compute_tracking_degradation rt db s))%list)
  /\ (forall e,
        delivery_concentration_body rt meta s = Raise e ->
        compute_all_diagnostics rt meta db s
        = (option_list (compute_fatigue rt db s)
             ++ option_list (compute_saturation rt db s)
             ++ option_list (compute_auction_shifts rt db s)
             ++ option_list (compute_tracking_degradation rt db s))%list).
Proof.
  split; [apply compute_all_diagnostics_eq|]. split; [|split; [|split]].
  - rewrite compute_all_diagnostics_eq, !map_app.
    assert (tagged : forall (o : option DiagnosticResult.t) (name : string),
               (forall d, o = Some d -> DiagnosticResult.diagnostic_type d = name) ->
               map DiagnosticResult.diagnostic_type (option_list o)
               = map (fun _ => name) (option_list o)).
    { intros [d|] name H; cbn; [rewrite (H d eq_refl)|]; reflexivity. }
    rewrite (tagged (compute_fatigue rt db s) "fatigue"),
      (tagged (compute_saturation rt db s) "saturation"),
      (tagged (compute_delivery_concentration rt meta s)
         "delivery_concentration"),
      (tagged (compute_auction_shifts rt db s) "auction_shifts"),
      (tagged (compute_tracking_degradation rt db s) "tracking_degradation");
      [reflexivity| | | | |]; intros d Hd.
    + apply (tracking_degradation_emitted _ _ _ _ Hd).
    + destruct (auction_shifts_emitted _ _ _ _ Hd)
        as (?&?&?&_&_&_&_&_&H&_). exact H.
    + apply (delivery_concentration_emitted _ _ _ _ Hd).
    + destruct (saturation_emitted _ _ _ _ Hd) as (?&?&?&_&_&_&_&H&_).
      exact H.
    + destruct (fatigue_emitted _ _ _ _ Hd)
        as (?&?&?&?&?&_&_&_&_&_&_&_&H&_). exact H.
  - intros d. apply in_compute_all_diagnostics.
  - intros e He. rewrite compute_all_diagnostics_eq.
    unfold compute_fatigue at 1. rewrite He. reflexivity.
  - intros e He. rewrite compute_all_diagnostics_eq.
    unfold compute_delivery_concentration at 1. rewrite He. reflexivity.
Qed.

Lemma compute_all_diagnostics_collects_witness :
  map DiagnosticResult.diagnostic_type
    (compute_all_diagnostics CPython.runtime None
       (Sample.store Sample.history) (Examples.today 11))
  = ["fatigue"; "saturation"; "auction_shifts"].
Proof.
  rewrite (proj2 (proj2 (proj2 (proj2
             (compute_all_diagnostics_collects CPython.runtime None
                (Sample.store Sample.history) (Examples.today 11)))))
             (Exn CollaboratorError "MetaAPIClient") eq_refl).
  vm_compute. reflexivity.
Defined.


Lemma emitted_confidence_profile rt meta db s d :
  In d (compute_all_diagnostics rt meta db s) -> confidence_profile d.
Proof.
  intros H. apply in_compute_all_diagnostics in H.
  destruct H as [H | [H | [H | [H | H]]]].
  - destruct (fatigue_emitted _ _ _ _ H)
      as (w & ? & ? & ? & t & Hw & _ & _ & _ & _ & _ & Ht & Hty & _ & _ & _ & _
          & Hc & Hm).
    left. exists 0.6%float, (length w), t. rewrite Hty.
    split; [left; reflexivity|].
    split; [eapply snapshots_7d_length; exact Hw|].
    split; [unfold sample_count; rewrite Hm; reflexivity|].
    split; [exact Ht | exact Hc].
  - destruct (saturation_emitted _ _ _ _ H)
      as (w & ? & t & Hw & _ & _ & Ht & Hty & _ & Hc & Hm).
    left. exists 0.65%float, (length w), t. rewrite Hty.
    split; [right; left; reflexivity|].
    split; [eapply snapshots_7d_length; exact Hw|].
    split; [unfold sample_count; rewrite Hm; reflexivity|].
    split; [exact Ht | exact Hc].
  - right. left. destruct (delivery_concentration_emitted _ _ _ _ H)
      as (Hty & Hc & _). auto.
  - destruct (auction_shifts_emitted _ _ _ _ H)
      as (w & ? & t & Hw & _ & _ & _ & Ht & Hty & _ & Hc & Hm & _).
    left.
    exists 0.7%float, (length (not_none (map AdAccountSnapshot.cpm w))), t.
    rewrite Hty.
    split; [right; right; left; reflexivity|].
    split; [pose proof (snapshots_7d_length _ _ _ Hw);
            pose proof (values_length AdAccountSnapshot.cpm w); lia|].
    split; [unfold sample_count; rewrite Hm; reflexivity|].
    split; [exact Ht | exact Hc].
  - right. right. apply (tracking_degradation_emitted _ _ _ _ H).
Qed.

Lemma confidence_base_functional (name : string) (b1 b2 : float) :
  In (name, b1) confidence_base -> In (name, b2) confidence_base -> b1 = b2.
Proof.
  unfold confidence_base. cbn [In].
  intros [H1|[H1|[H1|[]]]] [H2|[H2|[H2|[]]]];
    apply pair_equal_spec in H1 as [<- <-];
    apply pair_equal_spec in H2 as [H2 <-];
    first [reflexivity | discriminate H2].
Qed.

(** C7: every emitted diagnostic has a confidence of at most 0.95; the
    fatigue, saturation and auction categories compute it as
    [min(0.95, base + n / 10)] from their sample count [n], with bases 0.6,
    0.65 and 0.7, concentration fixes it at 0.8 and tracking at 0.85; and of
    two diagnostics of one category, the one computed from at least as many
    samples has at least the confidence of the other. *)
Theorem confidence_bounded_and_monotone rt meta db s d :
  In d (compute_all_diagnostics rt meta db s) ->
  PrimFloat.leb (DiagnosticResult.confidence d) 0.95 = true
  /\ confidence_profile d
  /\ (forall rt' meta' db' s' d' n n',
        In d' (compute_all_diagnostics rt' meta' db' s') ->
        DiagnosticResult.diagnostic_type d' = DiagnosticResult.diagnostic_type d ->
        sample_count d = Some n -> sample_count d' = Some n' -> n <= n' ->
        PrimFloat.leb (DiagnosticResult.confidence d)
          (DiagnosticResult.confidence d') = true).
Proof.
  intros Hd. pose proof (emitted_confidence_profile _ _ _ _ _ Hd) as P.
  split; [|split; [exact P|]].
  - destruct P as [(base & n & t & _ & _ & _ & _ & ->) | [[_ ->] | [_ ->]]];
      [apply py_min_bound | reflexivity | reflexivity].
  - intros rt' meta' db' s' d' n n' Hd' Hty Hn Hn' Hle.
    pose proof (emitted_confidence_profile _ _ _ _ _ Hd') as P'.
    destruct P as [(b & k & t & Hb & Hk & Hs & Ht & ->) | [[HT ->] | [HT ->]]];
      destruct P' as [(b' & k' & t' & Hb' & Hk' & Hs' & Ht' & ->)
                     | [[HT' ->] | [HT' ->]]];
      try reflexivity;
      try (rewrite <- Hty, HT' in Hb; unfold confidence_base in Hb;
           cbn [In] in Hb; destruct Hb as [Hb|[Hb|[Hb|[]]]]; discriminate Hb);
      try (rewrite Hty, HT in Hb'; unfold confidence_base in Hb';
           cbn [In] in Hb'; destruct Hb' as [Hb'|[Hb'|[Hb'|[]]]];
           discriminate Hb');
      try (rewrite HT, HT' in Hty; discriminate Hty).
    rewrite Hty in Hb'.
    rewrite (confidence_base_functional _ _ _ Hb' Hb).
    apply (confidence_monotone b k k' t t'); try assumption.
    + unfold confidence_base in Hb. cbn [In] in Hb |- *.
      destruct Hb as [Hb|[Hb|[Hb|[]]]];
        apply pair_equal_spec in Hb as [_ <-]; auto.
    + rewrite Hs in Hn. rewrite Hs' in Hn'.
      injection Hn as <-. injection Hn' as <-. lia.
Qed.

Lemma confidence_bounded_and_monotone_witness :
  map DiagnosticResult.confidence
    (compute_all_diagnostics CPython.runtime Sample.no_campaigns
       (Sample.store Sample.history) (Examples.today 11))
  = [0.6 + 0.3; 0.95; 0.95]%float
  /\ forallb (fun d => PrimFloat.leb (DiagnosticResult.confidence d) 0.95)
       (compute_all_diagnostics CPython.runtime Sample.no_campaigns
          (Sample.store Sample.history) (Examples.today 11))
     = true.
Proof.
  split; [vm_compute; reflexivity|].
  apply forallb_forall. intros d Hd.
  apply (confidence_bounded_and_monotone CPython.runtime Sample.no_campaigns
           (Sample.store Sample.history) (Examples.today 11) d Hd).
Defined.

(* ================================================================== *)
(** * Further properties *)

(** ** Queries *)

Lemma in_insert_desc {A} (key : A -> Z) (r x : A) (rows : list A) :
  In x (insert_desc key r rows) <-> x = r \/ In x rows.
Proof.
  induction rows as [|r' rows IH]; cbn [insert_desc].
  - cbn. intuition.
  - destruct (key r' <? key r); cbn [In]; [intuition|].
    rewrite IH. intuition.
Qed.

Lemma in_order_by_desc {A} (key : A -> Z) (x : A) (rows : list A) :
  In x (order_by_desc key rows) <-> In x rows.
Proof.
  unfold order_by_desc. induction rows as [|r rows IH]; cbn [fold_right].
  - reflexivity.
  - rewrite in_insert_desc, IH. cbn. intuition.
Qed.

Lemma insert_desc_descending {A} (key : A -> Z) (r : A) (rows : list A) :
  descending key rows -> descending key (insert_desc key r rows).
Proof.
  induction rows as [|r' rows IH]; cbn [insert_desc descending].
  - intros _. split; [intros ? []|exact I].
  - intros [Hhead Htail]. destruct (Z.ltb_spec (key r') (key r)) as [Hle|Hgt].
    + cbn [descending]. split; [|split; assumption].
      intros y [<-|Hy]; [lia|]. specialize (Hhead y Hy). lia.
    + cbn [descending]. split; [|apply IH; exact Htail].
      intros y Hy. apply in_insert_desc in Hy as [->|Hy]; [lia|].
      apply Hhead. exact Hy.
Qed.

Lemma order_by_desc_descending {A} (key : A -> Z) (rows : list A) :
  descending key (order_by_desc key rows).
Proof.
  unfold order_by_desc. induction rows as [|r rows IH]; cbn [fold_right].
  - exact I.
  - apply insert_desc_descending. exact IH.
Qed.

Lemma order_by_desc_length {A} (key : A -> Z) (rows : list A) :
  length (order_by_desc key rows) = length rows.
Proof.
  assert (Hins : forall r l, length (insert_desc key r l) = S (length l)).
  { intros r l. induction l as [|r' l IH]; cbn [insert_desc]; [reflexivity|].
    destruct (key r' <? key r); cbn [length]; [reflexivity|].
    rewrite IH. reflexivity. }
  unfold order_by_desc. induction rows as [|r rows IH]; cbn [fold_right length];
    [reflexivity|].
  rewrite Hins, IH. reflexivity.
Qed.

Lemma descending_app {A} (key : A -> Z) (l1 l2 : list A) :
  descending key (l1 ++ l2) ->
  descending key l1
  /\ forall x y, In x l1 -> In y l2 -> key y <= key x.
Proof.
  induction l1 as [|a l1 IH]; cbn [app descending].
  - intros _. split; [exact I|]. intros x y [].
  - intros [Hhead Htail]. destruct (IH Htail) as [Hd Hcross].
    split; [split; [|exact Hd]|].
    + intros y Hy. apply Hhead. apply in_or_app. left. exact Hy.
    + intros x y [<-|Hx] Hy; [|apply Hcross; assumption].
      apply Hhead. apply in_or_app. right. exact Hy.
Qed.

(** The rows kept by [.limit(n)] are the first ones: in order, and every
    row left out comes after all of them. *)
Lemma limit_descending {A} (key : A -> Z) (n : nat) (rows : list A) :
  descending key rows ->
  descending key (limit n rows)
  /\ forall x y, In x (limit n rows) -> In y rows ->
                 In y (limit n rows) \/ key y <= key x.
Proof.
  intros H. unfold limit. rewrite <- (firstn_skipn n rows) in H.
  destruct (descending_app _ _ _ H) as [Hd Hcross].
  split; [exact Hd|]. intros x y Hx Hy.
  rewrite <- (firstn_skipn n rows) in Hy. apply in_app_or in Hy as [Hy|Hy];
    [left; exact Hy | right; apply Hcross; assumption].
Qed.

Lemma in_limit {A} (n : nat) (x : A) (rows : list A) :
  In x (limit n rows) -> In x rows.
Proof.
  unfold limit. intros H. rewrite <- (firstn_skipn n rows).
  apply in_or_app. left. exact H.
Qed.

(** The first row of an ordered query is a row of the table with the
    largest key. *)
Lemma first_order_by_desc {A} (key : A -> Z) (rows : list A) (x : A) :
  first (order_by_desc key rows) = Some x ->
  In x rows /\ forall y, In y rows -> key y <= key x.
Proof.
  intros H. pose proof (order_by_desc_descending key rows) as Hd.
  destruct (order_by_desc key rows) as [|r l] eqn:E; [discriminate|].
  cbn [first] in H. injection H as ->.
  assert (Hin : forall y, In y rows <-> In y (x :: l))
    by (intros y; rewrite <- E; symmetry; apply in_order_by_desc).
  split; [apply Hin; left; reflexivity|].
  intros y Hy. apply Hin in Hy as [<-|Hy]; [lia|].
  destruct Hd as [Hhead _]. apply Hhead. exact Hy.
Qed.

Lemma first_order_by_desc_none {A} (key : A -> Z) (rows : list A) :
  first (order_by_desc key rows) = None <-> rows = [].
Proof.
  split.
  - intros H. pose proof (order_by_desc_length key rows) as Hl.
    destruct (order_by_desc key rows); [|discriminate].
    destruct rows; [reflexivity | discriminate].
  - intros ->. reflexivity.
Qed.

Lemma first_in {A} (rows : list A) (x : A) : first rows = Some x -> In x rows.
Proof. destruct rows; cbn; [discriminate|]. intros [= ->]. left. reflexivity. Qed.

Lemma filter_nil_iff {A} (f : A -> bool) (rows : list A) :
  filter f rows = [] <-> forall r, In r rows -> f r = false.
Proof.
  split; [|apply filter_none].
  intros H r Hr. destruct (f r) eqn:E; [|reflexivity].
  assert (Hin : In r (filter f rows)) by (apply filter_In; auto).
  rewrite H in Hin. destruct Hin.
Qed.

Lemma limit_all {A} (n : nat) (rows : list A) :
  (length (limit n rows) < n)%nat -> limit n rows = rows.
Proof.
  unfold limit. rewrite length_firstn. intros H.
  apply firstn_all2. lia.
Qed.

(** C6: every category function returns, with a diagnostic or a skip, on
    every snapshot and store: a raise inside its body is a skip, and no
    division in any body can raise [ZeroDivisionError].  A window of fewer
    than three snapshots, a zero average frequency, a zero average reach or
    spend, a zero total campaign spend and an empty health table are skips;
    a current spend that is not above zero gives a saturation diagnostic
    whose current value is zero, an average CPM that is not above zero an
    auction diagnostic whose change is zero.  The other two categories skip
    on their own windows as well: tracking with fewer than two health
    records in the seven days before, with no record in the last day, with
    a recent record without score or with no score in the window;
    concentration with fewer than two campaigns or without a client; and
    auction without a current CPM or with fewer than two CPM values. *)
Theorem categories_total_and_guarded rt meta db s :
  (division_safe (fatigue_body rt db s)
   /\ division_safe (saturation_body rt db s)
   /\ division_safe (delivery_concentration_body rt meta s)
   /\ division_safe (auction_shifts_body rt db s)
   /\ division_safe (tracking_degradation_body rt db s))
  /\ (forall e,
        (fatigue_body rt db s = Raise e -> compute_fatigue rt db s = None)
        /\ (saturation_body rt db s = Raise e ->
            compute_saturation rt db s = None)
        /\ (delivery_concentration_body rt meta s = Raise e ->
            compute_delivery_concentration rt meta s = None)
        /\ (auction_shifts_body rt db s = Raise e ->
            compute_auction_shifts rt db s = None)
        /\ (tracking_degradation_body rt db s = Raise e ->
            compute_tracking_degradation rt db s = None))
  /\ (forall w,
        snapshots_7d db s = Ok w -> (length w < 3)%nat ->
        compute_fatigue rt db s = None
        /\ compute_saturation rt db s = None
        /\ compute_auction_shifts rt db s = None)
  /\ (forall w fs avg,
        snapshots_7d db s = Ok w ->
        operands (map AdAccountSnapshot.frequency w) = Ok fs ->
        float_div_int (builtin_sum rt fs) (Z.of_nat (length w)) = Ok avg ->
        is_zero avg = true ->
        compute_fatigue rt db s = None)
  /\ (forall w rs ss avg_reach avg_spend,
        snapshots_7d db s = Ok w ->
        operands (map AdAccountSnapshot.reach w) = Ok rs ->
        int_truediv (sum_int rs) (Z.of_nat (length w)) = Ok avg_reach ->
        operands (map AdAccountSnapshot.spend w) = Ok ss ->
        float_div_int (builtin_sum rt ss) (Z.of_nat (length w)) = Ok avg_spend ->
        is_zero avg_reach = true \/ is_zero avg_spend = true ->
        compute_saturation rt db s = None)
  /\ (forall client date_start,
        meta = Some client ->
        minus_days (AdAccountSnapshot.snapshot_date s) 1 = Ok date_start ->
        is_zero
          (builtin_sum rt
             (map campaign_spend
                (client date_start (AdAccountSnapshot.snapshot_date s))))
        = true ->
        compute_delivery_concentration rt meta s = None)
  /\ (events_manager_health db = [] ->
      compute_tracking_degradation rt db s = None)
  /\ (forall d x,
        compute_saturation rt db s = Some d ->
        AdAccountSnapshot.spend s = Some x -> gt x 0 = false ->
        DiagnosticResult.current_value d = Some 0%float)
  /\ (forall d avg,
        compute_auction_shifts rt db s = Some d ->
        DiagnosticResult.previous_value d = Some avg -> gt avg 0 = false ->
        DiagnosticResult.change_percentage d = Some 0%float)
  /\ (forall date_7d_ago,
        minus_days (AdAccountSnapshot.snapshot_date s) 7 = Ok date_7d_ago ->
        (length
           (filter
              (fun h =>
                 (date_7d_ago <=? EventsManagerHealth.snapshot_date h)%Z
                 && (EventsManagerHealth.snapshot_date h
                     <? AdAccountSnapshot.snapshot_date s)%Z)
              (events_manager_health db)) < 2)%nat ->
        compute_tracking_degradation rt db s = None)
  /\ (forall date_7d_ago,
        minus_days (AdAccountSnapshot.snapshot_date s) 7 = Ok date_7d_ago ->
        (forall h,
            In h
              (limit 7
                 (order_by_desc EventsManagerHealth.snapshot_date
                    (filter
                       (fun h =>
                          (date_7d_ago <=? EventsManagerHealth.snapshot_date h)
                          && (EventsManagerHealth.snapshot_date h
                              <? AdAccountSnapshot.snapshot_date s))
                       (events_manager_health db)))) ->
            EventsManagerHealth.tracking_quality_score h = None) ->
        compute_tracking_degradation rt db s = None)
  /\ (forall date_1d_ago,
        minus_days (AdAccountSnapshot.snapshot_date s) 1 = Ok date_1d_ago ->
        let recent_health :=
          first
            (index_scan (health_rank rt)
               (filter
                  (fun h =>
                     (date_1d_ago <=? EventsManagerHealth.snapshot_date h)
                     && (EventsManagerHealth.snapshot_date h
                         <=? AdAccountSnapshot.snapshot_date s))
                  (events_manager_health db))) in
        recent_health = None
        \/ (exists h, recent_health = Some h
                      /\ EventsManagerHealth.tracking_quality_score h = None) ->
        compute_tracking_degradation rt db s = None)
  /\ (meta = None -> compute_delivery_concentration rt meta s = None)
  /\ (forall client date_start,
        meta = Some client ->
        minus_days (AdAccountSnapshot.snapshot_date s) 1 = Ok date_start ->
        (length (client date_start (AdAccountSnapshot.snapshot_date s)) < 2)%nat ->
        compute_delivery_concentration rt meta s = None)
  /\ (AdAccountSnapshot.cpm s = None -> compute_auction_shifts rt db s = None)
  /\ (forall w,
        snapshots_7d db s = Ok w ->
        (length (not_none (map AdAccountSnapshot.cpm w)) < 2)%nat ->
        compute_auction_shifts rt db s = None).
Proof.
  assert (Hscores : forall hs : list EventsManagerHealth.t,
            (forall h, In h hs ->
                       EventsManagerHealth.tracking_quality_score h = None) ->
            not_none (map EventsManagerHealth.tracking_quality_score hs) = []).
  { induction hs as [|h hs IH]; intros H; cbn [map not_none]; [reflexivity|].
    rewrite (H h (or_introl eq_refl)). apply IH.
    intros x Hx. apply H. right. exact Hx. }
  split.
  { repeat split;
      [apply fatigue_body_safe | apply saturation_body_safe
      | apply delivery_concentration_body_safe | apply auction_shifts_body_safe
      | apply tracking_degradation_body_safe]. }
  split.
  { intros e.
    unfold compute_fatigue, compute_saturation, compute_delivery_concentration,
      compute_auction_shifts, compute_tracking_degradation.
    repeat split; intros ->; reflexivity. }
  split; [apply short_window_skips|].
  split; [apply zero_average_frequency_skips|].
  split; [apply zero_average_spend_skips|].
  split; [intros client date_start ->; apply zero_total_spend_skips|].
  split; [apply no_health_records_skips|].
  split.
  { intros d x Hd Hx Hgt.
    destruct (saturation_emitted rt db s d Hd)
      as (w & x' & t & _ & _ & Hx' & _ & _ & Hzero & _).
    apply Hzero. congruence. }
  split.
  { intros d avg Hd Havg Hgt.
    destruct (auction_shifts_emitted rt db s d Hd)
      as (w & ? & ? & _ & _ & _ & _ & _ & _ & _ & _ & _ & avg' & _ & Hprev
          & Hzero).
    apply Hzero. congruence. }
  split.
  { intros d7 H7 Hlen.
    unfold compute_tracking_degradation, tracking_degradation_body.
    rewrite H7. cbn [bind].
    destruct (minus_days _ 1); cbn [bind]; [|reflexivity].
    destruct (first _); [|reflexivity]. cbv zeta.
    match goal with
    | |- context [(length ?l <? 2)%nat] =>
        assert (Hshort : (length l <? 2)%nat = true)
    end.
    { apply Nat.ltb_lt. unfold limit.
      rewrite length_firstn, order_by_desc_length. lia. }
    rewrite Hshort. reflexivity. }
  split.
  { intros d7 H7 Hnone.
    unfold compute_tracking_degradation, tracking_degradation_body.
    rewrite H7. cbn [bind].
    destruct (minus_days _ 1); cbn [bind]; [|reflexivity].
    destruct (first _); [|reflexivity]. cbv zeta.
    destruct (length _ <? 2)%nat; [reflexivity|].
    destruct (EventsManagerHealth.tracking_quality_score _); [|reflexivity].
    rewrite (Hscores _ Hnone). reflexivity. }
  split.
  { intros d1 H1. cbv zeta. intros Hrecent.
    unfold compute_tracking_degradation, tracking_degradation_body.
    destruct (minus_days _ 7); cbn [bind]; [|reflexivity].
    rewrite H1. cbn [bind].
    destruct Hrecent as [-> | (h & -> & Hscore)]; [reflexivity|].
    cbv zeta. destruct (length _ <? 2)%nat; [reflexivity|].
    rewrite Hscore. reflexivity. }
  split.
  { intros ->. reflexivity. }
  split.
  { intros client date_start -> Hd Hlen.
    unfold compute_delivery_concentration, delivery_concentration_body.
    cbn [bind]. rewrite Hd. cbn [bind]. cbv zeta.
    apply Nat.ltb_lt in Hlen. rewrite Hlen. reflexivity. }
  split.
  { intros Hcpm.
    unfold compute_auction_shifts, auction_shifts_body.
    destruct (snapshots_7d db s); cbn [bind]; [|reflexivity].
    destruct (length _ <? 3)%nat; [reflexivity|]. rewrite Hcpm. reflexivity. }
  intros w Hw Hlen.
  unfold compute_auction_shifts, auction_shifts_body.
  rewrite Hw. cbn [bind].
  destruct (length w <? 3)%nat; [reflexivity|].
  destruct (AdAccountSnapshot.cpm s); [|reflexivity]. cbv zeta.
  apply Nat.ltb_lt in Hlen. rewrite Hlen. reflexivity.
Qed.

Lemma categories_total_and_guarded_witness :
  let db := Sample.store [Sample.snapshot 11 10 5; Sample.snapshot 12 10 5] in
  compute_fatigue CPython.runtime db (Examples.today 11) = None
  /\ compute_saturation CPython.runtime db (Examples.today 11) = None
  /\ compute_auction_shifts CPython.runtime db (Examples.today 11) = None.
Proof.
  cbv zeta.
  apply (proj1 (proj2 (proj2
           (categories_total_and_guarded CPython.runtime Sample.no_campaigns
              (Sample.store [Sample.snapshot 11 10 5; Sample.snapshot 12 10 5])
              (Examples.today 11))))
           [Sample.snapshot 12 10 5; Sample.snapshot 11 10 5]).
  - vm_compute. reflexivity.
  - cbn. lia.
Defined.

Lemma in_insert_asc {A} (key : A -> Z) (r x : A) (rows : list A) :
  In x (insert_asc key r rows) <-> x = r \/ In x rows.
Proof.
  induction rows as [|r' rows IH]; cbn [insert_asc].
  - cbn. intuition.
  - destruct (key r <=? key r'); cbn [In]; [intuition|].
    rewrite IH. intuition.
Qed.

Lemma in_index_scan {A} (key : A -> Z) (x : A) (rows : list A) :
  In x (index_scan key rows) <-> In x rows.
Proof.
  unfold index_scan. induction rows as [|r rows IH]; cbn [fold_right].
  - reflexivity.
  - rewrite in_insert_asc, IH. cbn. intuition.
Qed.

Lemma index_scan_length {A} (key : A -> Z) (rows : list A) :
  length (index_scan key rows) = length rows.
Proof.
  assert (Hins : forall r l, length (insert_asc key r l) = S (length l)).
  { intros r l. induction l as [|r' l IH]; cbn [insert_asc]; [reflexivity|].
    destruct (key r <=? key r'); cbn [length]; [reflexivity|].
    rewrite IH. reflexivity. }
  unfold index_scan. induction rows as [|r rows IH]; cbn [fold_right length];
    [reflexivity|].
  rewrite Hins, IH. reflexivity.
Qed.

(** The first row of a scan has the least key. *)
Lemma first_insert_asc {A} (key : A -> Z) (r x : A) (rows : list A) :
  (forall y, first rows = Some y -> forall z, In z rows -> key y <= key z) ->
  first (insert_asc key r rows) = Some x ->
  forall z, In z (insert_asc key r rows) -> key x <= key z.
Proof.
  destruct rows as [|r' rows]; cbn [insert_asc first].
  - intros _ [= <-] z [<-|[]]. lia.
  - intros Hmin. specialize (Hmin r' eq_refl).
    destruct (Z.leb_spec (key r) (key r')) as [Hle|Hgt]; cbn [first].
    + intros [= <-] z [<-|Hz]; [lia|]. specialize (Hmin z Hz). lia.
    + intros [= <-] z [<-|Hz]; [lia|].
      apply in_insert_asc in Hz as [->|Hz]; [lia|].
      apply Hmin. right. exact Hz.
Qed.

Lemma first_index_scan {A} (key : A -> Z) (rows : list A) (x : A) :
  first (index_scan key rows) = Some x ->
  In x rows /\ forall z, In z rows -> key x <= key z.
Proof.
  intros H. split; [apply (in_index_scan key), first_in; exact H|].
  revert x H. unfold index_scan.
  induction rows as [|r rows IH]; cbn [fold_right]; [discriminate|].
  intros x H z Hz.
  apply (first_insert_asc key r x (fold_right (insert_asc key) [] rows)).
  - intros y Hy z' Hz'. apply (IH y Hy). apply (in_index_scan key). exact Hz'.
  - exact H.
  - apply in_insert_asc. destruct Hz as [<-|Hz]; [left; reflexivity|].
    right. apply (in_index_scan key). exact Hz.
Qed.

Lemma first_index_scan_none {A} (key : A -> Z) (rows : list A) :
  first (index_scan key rows) = None <-> rows = [].
Proof.
  split; [|intros ->; reflexivity].
  intros H. pose proof (index_scan_length key rows) as Hlen.
  destruct (index_scan key rows); [|discriminate].
  destruct rows; [reflexivity | discriminate].
Qed.

(** X1: the trailing window of a snapshot holds at most seven rows, most
    recent first, each a stored snapshot of the same account dated within
    the seven days before the snapshot's own date (that date excluded); a
    matching row that was left out is no more recent than any row kept, and
    none is left out when fewer than seven are kept. *)
Theorem trailing_window_most_recent db s w :
  snapshots_7d db s = Ok w ->
  let in_window x :=
    In x (ad_account_snapshots db)
    /\ AdAccountSnapshot.ad_account_id x = AdAccountSnapshot.ad_account_id s
    /\ AdAccountSnapshot.snapshot_date s - timedelta_days 7
       <= AdAccountSnapshot.snapshot_date x
       < AdAccountSnapshot.snapshot_date s in
  (length w <= 7)%nat
  /\ descending AdAccountSnapshot.snapshot_date w
  /\ (forall x, In x w -> in_window x)
  /\ (forall x y, In x w -> in_window y ->
        In y w
        \/ AdAccountSnapshot.snapshot_date y <= AdAccountSnapshot.snapshot_date x)
  /\ ((length w < 7)%nat -> forall y, in_window y -> In y w).
Proof.
  intros Hw in_window. pose proof (snapshots_7d_length _ _ _ Hw) as Hlen.
  unfold snapshots_7d, minus_days in Hw.
  destruct (_ <? 0); cbn [bind] in Hw; [discriminate|].
  apply Ok_inj in Hw.
  set (f := fun x : AdAccountSnapshot.t =>
              String.eqb (AdAccountSnapshot.ad_account_id x)
                (AdAccountSnapshot.ad_account_id s)
              && (AdAccountSnapshot.snapshot_date s - timedelta_days 7
                  <=? AdAccountSnapshot.snapshot_date x)
              && (AdAccountSnapshot.snapshot_date x
                  <? AdAccountSnapshot.snapshot_date s)) in *.
  assert (Hf : forall x, in_window x <-> In x (filter f (ad_account_snapshots db))).
  { intros x. rewrite filter_In. unfold in_window, f.
    rewrite !andb_true_iff, String.eqb_eq, Z.leb_le, Z.ltb_lt. tauto. }
  set (sorted := order_by_desc AdAccountSnapshot.snapshot_date
                   (filter f (ad_account_snapshots db))) in *.
  assert (Hs : forall x, In x sorted <-> in_window x)
    by (intros x; unfold sorted; rewrite in_order_by_desc, Hf; reflexivity).
  destruct (limit_descending AdAccountSnapshot.snapshot_date 7 sorted
              (order_by_desc_descending _ _)) as [Hd Hrest].
  subst w. split; [exact Hlen|]. split; [exact Hd|].
  split; [intros x Hx; apply Hs; eapply in_limit; exact Hx|].
  split; [intros x y Hx Hy; apply Hrest; [exact Hx | apply Hs; exact Hy]|].
  intros Hshort y Hy. rewrite (limit_all _ _ Hshort). apply Hs. exact Hy.
Qed.

Lemma trailing_window_most_recent_witness :
  snapshots_7d (Sample.store (Sample.history ++ [Examples.today 11]))
    (Examples.today 11)
  = Ok (rev Sample.history)
  /\ descending AdAccountSnapshot.snapshot_date (rev Sample.history)
  /\ forall x, In x (rev Sample.history) ->
               jan_2024 6 <= AdAccountSnapshot.snapshot_date x < jan_2024 13.
Proof.
  destruct (trailing_window_most_recent
              (Sample.store (Sample.history ++ [Examples.today 11]))
              (Examples.today 11) (rev Sample.history) eq_refl)
    as (_ & Hd & Hin & _).
  split; [reflexivity|]. split; [exact Hd|].
  intros x Hx. apply (Hin x Hx).
Defined.

(** X2: the anchor snapshot of a date is a stored snapshot dated at or
    before it, and no stored snapshot dated at or before the target is more
    recent; it carries the target date itself whenever some stored snapshot
    does; and there is no anchor exactly when every stored snapshot is dated
    after the target. *)
Theorem anchor_snapshot_most_recent db d :
  (forall a,
      anchor_snapshot db d = Some a ->
      In a (ad_account_snapshots db)
      /\ AdAccountSnapshot.snapshot_date a <= d
      /\ (forall x, In x (ad_account_snapshots db) ->
                    AdAccountSnapshot.snapshot_date x <= d ->
                    AdAccountSnapshot.snapshot_date x
                    <= AdAccountSnapshot.snapshot_date a)
      /\ ((exists x, In x (ad_account_snapshots db)
                     /\ AdAccountSnapshot.snapshot_date x = d) ->
          AdAccountSnapshot.snapshot_date a = d))
  /\ (anchor_snapshot db d = None <->
      forall x, In x (ad_account_snapshots db) ->
                d < AdAccountSnapshot.snapshot_date x).
Proof.
  unfold anchor_snapshot.
  destruct (first (filter (fun s => AdAccountSnapshot.snapshot_date s =? d)
                     (ad_account_snapshots db))) as [s|] eqn:Hexact.
  - apply first_in, filter_In in Hexact as [Hin Hdate].
    apply Z.eqb_eq in Hdate. split.
    + intros a [= <-]. repeat split; try assumption; try lia.
    + split; [discriminate|]. intros H. specialize (H s Hin). exfalso. lia.
  - apply first_filter_none in Hexact.
    pose proof (proj1 (filter_nil_iff _ _) Hexact) as Hno. split.
    + intros a Ha. apply first_order_by_desc in Ha as [Hin Hmax].
      apply filter_In in Hin as [Hin Hle]. apply Z.leb_le in Hle.
      repeat split; try assumption.
      * intros x Hx Hxd. apply Hmax. apply filter_In. split; [exact Hx|].
        apply Z.leb_le. exact Hxd.
      * intros (x & Hx & Hxd). specialize (Hno x Hx).
        apply Z.eqb_neq in Hno. contradiction.
    + rewrite first_order_by_desc_none, filter_nil_iff.
      split; intros H x Hx; specialize (H x Hx).
      * apply Z.leb_gt. exact H.
      * apply Z.leb_gt. exact H.
Qed.

Lemma anchor_snapshot_most_recent_witness :
  anchor_snapshot (Sample.store Sample.history) (jan_2024 20)
  = Some (Sample.snapshot 12 10 5)
  /\ forall x, In x Sample.history ->
               AdAccountSnapshot.snapshot_date x <= jan_2024 12.
Proof.
  split; [reflexivity|].
  intros x Hx.
  apply (proj1 (anchor_snapshot_most_recent (Sample.store Sample.history)
                  (jan_2024 20)) (Sample.snapshot 12 10 5) eq_refl).
  - exact Hx.
  - cbn in Hx. destruct Hx as [<-|[<-|[<-|[]]]]; vm_compute; discriminate.
Defined.

(** X3: the previous snapshot of a snapshot is a stored snapshot of the same
    account dated strictly before it, the most recent such one; there is
    none exactly when the account has no earlier snapshot. *)
Theorem previous_snapshot_most_recent db s :
  (forall p,
      previous_snapshot_of db s = Some p ->
      In p (ad_account_snapshots db)
      /\ AdAccountSnapshot.ad_account_id p = AdAccountSnapshot.ad_account_id s
      /\ AdAccountSnapshot.snapshot_date p < AdAccountSnapshot.snapshot_date s
      /\ (forall x, In x (ad_account_snapshots db) ->
                    AdAccountSnapshot.ad_account_id x
                    = AdAccountSnapshot.ad_account_id s ->
                    AdAccountSnapshot.snapshot_date x
                    < AdAccountSnapshot.snapshot_date s ->
                    AdAccountSnapshot.snapshot_date x
                    <= AdAccountSnapshot.snapshot_date p))
  /\ (previous_snapshot_of db s = None <->
      forall x, In x (ad_account_snapshots db) ->
                AdAccountSnapshot.ad_account_id x
                = AdAccountSnapshot.ad_account_id s ->
                AdAccountSnapshot.snapshot_date s
                <= AdAccountSnapshot.snapshot_date x).
Proof.
  unfold previous_snapshot_of.
  set (f := fun x : AdAccountSnapshot.t =>
              String.eqb (AdAccountSnapshot.ad_account_id x)
                (AdAccountSnapshot.ad_account_id s)
              && (AdAccountSnapshot.snapshot_date x
                  <? AdAccountSnapshot.snapshot_date s)).
  assert (Hf : forall x, f x = true <->
                 AdAccountSnapshot.ad_account_id x
                 = AdAccountSnapshot.ad_account_id s
                 /\ AdAccountSnapshot.snapshot_date x
                    < AdAccountSnapshot.snapshot_date s).
  { intros x. unfold f. rewrite andb_true_iff, String.eqb_eq, Z.ltb_lt.
    reflexivity. }
  split.
  - intros p Hp. apply first_order_by_desc in Hp as [Hin Hmax].
    apply filter_In in Hin as [Hin Hfp]. apply Hf in Hfp as [Hacc Hdate].
    repeat split; try assumption.
    intros x Hx Hxa Hxd. apply Hmax. apply filter_In. split; [exact Hx|].
    apply Hf. auto.
  - rewrite first_order_by_desc_none, filter_nil_iff. split.
    + intros H x Hx Hacc. specialize (H x Hx).
      destruct (Z.lt_ge_cases (AdAccountSnapshot.snapshot_date x)
                  (AdAccountSnapshot.snapshot_date s)) as [Hlt|Hge];
        [|exact Hge].
      assert (f x = true) by (apply Hf; auto). congruence.
    + intros H x Hx. destruct (f x) eqn:E; [|reflexivity].
      apply Hf in E as [Hacc Hlt]. specialize (H x Hx Hacc). lia.
Qed.

Lemma previous_snapshot_most_recent_witness :
  previous_snapshot_of (Sample.store (Sample.history ++ [Examples.today 11]))
    (Examples.today 11)
  = Some (Sample.snapshot 12 10 5)
  /\ AdAccountSnapshot.snapshot_date (Sample.snapshot 12 10 5)
     < AdAccountSnapshot.snapshot_date (Examples.today 11).
Proof.
  split; [reflexivity|].
  apply (proj1 (previous_snapshot_most_recent
                  (Sample.store (Sample.history ++ [Examples.today 11]))
                  (Examples.today 11)) (Sample.snapshot 12 10 5) eq_refl).
Defined.

(** ** When a category emits *)

Lemma operands_present {A} (xs : list (option A)) (ys : list A) :
  operands xs = Ok ys <-> (forall x, In x xs -> x <> None) /\ ys = not_none xs.
Proof.
  revert ys. induction xs as [|[v|] xs IH]; intros ys; cbn [operands not_none].
  - split; [intros H; apply Ok_inj in H; subst; split; [intros ? []|reflexivity]
           | intros [_ ->]; reflexivity].
  - cbn [operand bind]. split.
    + intros H. destruct (operands xs) as [vs|] eqn:E; cbn [bind] in H;
        [|discriminate].
      apply Ok_inj in H. subst ys.
      destruct (proj1 (IH vs) eq_refl) as [Hall ->].
      split; [|reflexivity]. intros x [<-|Hx]; [discriminate | apply Hall, Hx].
    + intros [Hall ->].
      rewrite (proj2 (IH (not_none xs)));
        [reflexivity | split; [|reflexivity]].
      intros x Hx. apply Hall. right. exact Hx.
  - cbn [operand bind]. split; [discriminate|].
    intros [Hall _]. exfalso. apply (Hall None); [left|]; reflexivity.
Qed.

Lemma map_result_ok {A B} (f : A -> result B) (g : A -> B) (xs : list A) :
  (forall x, In x xs -> f x = Ok (g x)) -> map_result f xs = Ok (map g xs).
Proof.
  induction xs as [|x xs IH]; intros H; cbn [map_result map]; [reflexivity|].
  rewrite (H x) by (left; reflexivity). cbn [bind].
  rewrite IH by (intros y Hy; apply H; right; exact Hy). reflexivity.
Qed.

Lemma map_result_raises {A B} (f : A -> result B) (xs : list A) :
  (exists ys, map_result f xs = Ok ys)
  <-> forall x, In x xs -> exists y, f x = Ok y.
Proof.
  induction xs as [|x xs IH]; cbn [map_result].
  - split; [intros _ ? [] | intros _; eexists; reflexivity].
  - split.
    + intros [ys H]. destruct (f x) as [y|] eqn:E; cbn [bind] in H;
        [|discriminate].
      destruct (map_result f xs) as [ys'|] eqn:E'; cbn [bind] in H;
        [|discriminate].
      intros x' [<-|Hx']; [eexists; exact E|].
      apply (proj1 IH); [eexists; reflexivity | exact Hx'].
    + intros H. destruct (H x (or_introl eq_refl)) as [y ->]. cbn [bind].
      destruct (proj2 IH) as [ys ->];
        [intros x' Hx'; apply H; right; exact Hx'|].
      cbn [bind]. eexists. reflexivity.
Qed.

(** X4: [compute_fatigue] emits a diagnostic exactly when the trailing
    window exists and holds at least three snapshots, every one of them has
    a frequency, their average is not zero, and the current snapshot has a
    frequency; in every other case it returns nothing. *)
Theorem fatigue_emitted_iff rt db s :
  (exists d, compute_fatigue rt db s = Some d)
  <-> (exists w avg,
          snapshots_7d db s = Ok w
          /\ (3 <= length w)%nat
          /\ (forall x, In x w -> AdAccountSnapshot.frequency x <> None)
          /\ float_div_int
               (builtin_sum rt (not_none (map AdAccountSnapshot.frequency w)))
               (Z.of_nat (length w)) = Ok avg
          /\ is_zero avg = false
          /\ AdAccountSnapshot.frequency s <> None).
Proof.
  split.
  - intros [d Hd].
    destruct (fatigue_emitted rt db s d Hd)
      as (w & fs & avg & cur & _ & Hw & Hlen & Hfs & Havg & Hz & Hcur & _).
    apply operands_present in Hfs as [Hall ->].
    exists w, avg. repeat split; try assumption; [|congruence].
    intros x Hx. apply Hall. apply in_map. exact Hx.
  - intros (w & avg & Hw & Hlen & Hall & Havg & Hz & Hcur).
    destruct (AdAccountSnapshot.frequency s) as [cur|] eqn:E; [|congruence].
    eapply (fatigue_emits rt db s w _ cur avg); try eassumption.
    apply operands_present. split; [|reflexivity].
    intros x Hx. apply in_map_iff in Hx as (y & <- & Hy). apply Hall. exact Hy.
Qed.

Lemma fatigue_emitted_iff_witness :
  exists d,
    compute_fatigue CPython.runtime (Sample.store Sample.history)
      (Examples.today 11) = Some d.
Proof.
  apply (proj2 (fatigue_emitted_iff CPython.runtime
                  (Sample.store Sample.history) (Examples.today 11))).
  exists (rev Sample.history), 10%float.
  repeat split; try (vm_compute; reflexivity); try (cbn; lia);
    try discriminate.
  intros x Hx. cbn in Hx. destruct Hx as [<-|[<-|[<-|[]]]]; discriminate.
Defined.

Lemma saturation_emitted_inputs rt db s d :
  compute_saturation rt db s = Some d ->
  exists w rs avg_reach ss avg_spend r rf x,
    snapshots_7d db s = Ok w
    /\ (3 <= length w)%nat
    /\ operands (map AdAccountSnapshot.reach w) = Ok rs
    /\ int_truediv (sum_int rs) (Z.of_nat (length w)) = Ok avg_reach
    /\ operands (map AdAccountSnapshot.spend w) = Ok ss
    /\ float_div_int (builtin_sum rt ss) (Z.of_nat (length w)) = Ok avg_spend
    /\ is_zero avg_reach = false
    /\ is_zero avg_spend = false
    /\ AdAccountSnapshot.reach s = Some r
    /\ int_to_float r = Ok rf
    /\ AdAccountSnapshot.spend s = Some x.
Proof.
  intros H. apply try_except_some in H. unfold saturation_body in H.
  body_inv H.
  all: apply Nat.ltb_ge in E0.
  all: repeat match goal with
       | H : operand _ = Ok _ |- _ => apply operand_ok in H
       | H : (_ || _) = false |- _ => apply orb_false_elim in H as [? ?]
       end.
  all: do 8 eexists;
    repeat (split; [first [eassumption | reflexivity]|]); eassumption.
Qed.

Lemma saturation_emits rt db s w rs avg_reach ss avg_spend r rf x :
  snapshots_7d db s = Ok w ->
  (3 <= length w)%nat ->
  operands (map AdAccountSnapshot.reach w) = Ok rs ->
  int_truediv (sum_int rs) (Z.of_nat (length w)) = Ok avg_reach ->
  operands (map AdAccountSnapshot.spend w) = Ok ss ->
  float_div_int (builtin_sum rt ss) (Z.of_nat (length w)) = Ok avg_spend ->
  is_zero avg_reach = false ->
  is_zero avg_spend = false ->
  AdAccountSnapshot.reach s = Some r ->
  int_to_float r = Ok rf ->
  AdAccountSnapshot.spend s = Some x ->
  exists d, compute_saturation rt db s = Some d.
Proof.
  intros Hw Hlen Hrs Har Hss Has Hzr Hzs Hr Hrf Hx.
  pose proof (snapshots_7d_length _ _ _ Hw) as H7.
  destruct (len_over_10_small w H7) as [t Ht].
  apply Nat.ltb_ge in Hlen.
  unfold compute_saturation, saturation_body.
  rewrite Hw. cbn [bind]. rewrite Hlen, Hrs. cbn [bind].
  rewrite Har. cbn [bind]. rewrite Hss. cbn [bind]. rewrite Has. cbn [bind].
  rewrite Hzr, Hzs, Hr. cbn [orb operand bind]. rewrite Hrf. cbn [bind].
  rewrite (float_div_ok _ _ Hzr). cbn [bind]. rewrite Hx. cbn [operand bind].
  rewrite (float_div_ok _ _ Hzs). cbn [bind]. cbv zeta.
  unfold int_div_float. rewrite Hrf. cbn [bind].
  repeat match goal with
         | |- context [if gt ?a 0 then _ else _] =>
             let E := fresh "Hg" in
             destruct (gt a 0) eqn:E;
             [rewrite ?float_div_ok by (apply gt_zero_not_zero; assumption)|];
             cbn [bind]
         end;
    rewrite Ht; cbn [bind try_except]; eexists; reflexivity.
Qed.

(** X5: [compute_saturation] emits a diagnostic exactly when the trailing
    window exists and holds at least three snapshots, every one of them has
    a reach and a spend, neither average is zero, and the current snapshot
    has a reach and a spend (all within the range of a float); a current
    spend of zero does not make it skip. *)
Theorem saturation_emitted_iff rt db s :
  (exists d, compute_saturation rt db s = Some d)
  <-> (exists w avg_reach avg_spend r rf,
          snapshots_7d db s = Ok w
          /\ (3 <= length w)%nat
          /\ (forall x, In x w -> AdAccountSnapshot.reach x <> None
                                  /\ AdAccountSnapshot.spend x <> None)
          /\ int_truediv (sum_int (not_none (map AdAccountSnapshot.reach w)))
               (Z.of_nat (length w)) = Ok avg_reach
          /\ float_div_int
               (builtin_sum rt (not_none (map AdAccountSnapshot.spend w)))
               (Z.of_nat (length w)) = Ok avg_spend
          /\ is_zero avg_reach = false
          /\ is_zero avg_spend = false
          /\ AdAccountSnapshot.reach s = Some r
          /\ int_to_float r = Ok rf
          /\ AdAccountSnapshot.spend s <> None).
Proof.
  split.
  - intros [d Hd].
    destruct (saturation_emitted_inputs rt db s d Hd)
      as (w & rs & ar & ss & asp & r & rf & x & Hw & Hlen & Hrs & Har & Hss
          & Has & Hzr & Hzs & Hr & Hrf & Hx).
    apply operands_present in Hrs as [Hallr ->].
    apply operands_present in Hss as [Halls ->].
    exists w, ar, asp, r, rf. repeat split; try assumption; try congruence.
    + apply Hallr. apply in_map. assumption.
    + apply Halls. apply in_map. assumption.
  - intros (w & ar & asp & r & rf & Hw & Hlen & Hall & Har & Has & Hzr & Hzs
            & Hr & Hrf & Hx).
    destruct (AdAccountSnapshot.spend s) as [x|] eqn:E; [|congruence].
    eapply (saturation_emits rt db s w _ ar _ asp r rf x); try eassumption.
    + apply operands_present. split; [|reflexivity].
      intros y Hy. apply in_map_iff in Hy as (z & <- & Hz). apply Hall, Hz.
    + apply operands_present. split; [|reflexivity].
      intros y Hy. apply in_map_iff in Hy as (z & <- & Hz). apply Hall, Hz.
Qed.

Lemma saturation_emitted_iff_witness :
  exists d,
    compute_saturation CPython.runtime (Sample.store Sample.history)
      (AdAccountSnapshot.mk (jan_2024 13) "act_1" (Some 0%float) (Some 0)
         (Some 0) (Some 0) (Some 0%float) None None None) = Some d.
Proof.
  apply (proj2 (saturation_emitted_iff CPython.runtime
                  (Sample.store Sample.history) _)).
  exists (rev Sample.history), 8000%float, 100%float, 0, 0%float.
  repeat split; try (vm_compute; reflexivity); try (cbn; lia);
    try discriminate;
    cbn in H; destruct H as [<-|[<-|[<-|[]]]]; discriminate.
Defined.

(** X6: [compute_delivery_concentration] emits a diagnostic exactly when the
    API client can be built, the snapshot's date has a previous day, the
    breakdown of that day holds at least two campaigns whose spends do not
    sum to zero, and no squared share overflows; it never reads the store. *)
Theorem delivery_concentration_emitted_iff rt meta s :
  (exists d, compute_delivery_concentration rt meta s = Some d)
  <-> (exists client date_start,
          meta = Some client
          /\ minus_days (AdAccountSnapshot.snapshot_date s) 1 = Ok date_start
          /\ let campaigns :=
               client date_start (AdAccountSnapshot.snapshot_date s) in
             let total_spend := builtin_sum rt (map campaign_spend campaigns) in
             (2 <= length campaigns)%nat
             /\ is_zero total_spend = false
             /\ forall c, In c campaigns ->
                          float_square rt (campaign_spend c / total_spend)%float
                          <> None).
Proof.
  unfold compute_delivery_concentration, delivery_concentration_body.
  destruct meta as [client|]; cbn [bind];
    [|split; [intros [d H]; discriminate | intros (c & ? & H & _); discriminate]].
  destruct (minus_days (AdAccountSnapshot.snapshot_date s) 1) as [ds|e];
    cbn [bind];
    [|split; [intros [d H]; discriminate
             | intros (c & ? & _ & H & _); discriminate]].
  cbv zeta.
  set (campaigns := client ds (AdAccountSnapshot.snapshot_date s)).
  set (total := builtin_sum rt (map campaign_spend campaigns)).
  assert (Hshares : is_zero total = false ->
            map_result (fun c => float_div (campaign_spend c) total) campaigns
            = Ok (map (fun c => (campaign_spend c / total)%float) campaigns)).
  { intros Hz. apply map_result_ok. intros c _. apply float_div_ok, Hz. }
  assert (Hsq : forall shares,
            (exists ys, map_result (pow2 rt) shares = Ok ys)
            <-> forall x, In x shares -> float_square rt x <> None).
  { intros shares. rewrite map_result_raises. unfold pow2.
    split; intros H x Hx; specialize (H x Hx).
    - destruct H as [y H]. destruct (float_square rt x); congruence.
    - destruct (float_square rt x) as [y|]; [eexists; reflexivity|congruence]. }
  split.
  - intros [d H]. exists client, ds. split; [reflexivity|].
    split; [reflexivity|].
    destruct (length campaigns <? 2)%nat eqn:Hlen; [discriminate|].
    apply Nat.ltb_ge in Hlen.
    destruct (is_zero total) eqn:Hz; [discriminate|].
    rewrite (Hshares eq_refl) in H. cbn [bind] in H.
    destruct (map_result (pow2 rt) _) as [ys|] eqn:Hys; [|discriminate].
    cbv zeta. fold campaigns. fold total.
    split; [exact Hlen|]. split; [exact Hz|].
    intros c Hc. apply (proj1 (Hsq _) (ex_intro _ ys Hys)).
    apply (in_map (fun c => (campaign_spend c / total)%float)). exact Hc.
  - intros (client' & ds' & [= <-] & [= <-] & Hlen & Hz & Hall).
    apply Nat.ltb_ge in Hlen. fold campaigns in Hlen, Hz, Hall.
    fold total in Hz, Hall. rewrite Hlen, Hz, (Hshares Hz). cbn [bind].
    destruct (proj2 (Hsq (map (fun c => (campaign_spend c / total)%float)
                            campaigns))) as [ys ->].
    + intros x Hx. apply in_map_iff in Hx as (c & <- & Hc). apply Hall, Hc.
    + cbn [bind try_except]. eexists. reflexivity.
Qed.

Lemma delivery_concentration_emitted_iff_witness :
  exists d,
    compute_delivery_concentration CPython.runtime
      (Some (fun _ _ => [{| campaign_id := "c1"; campaign_spend := 30 |};
                         {| campaign_id := "c2"; campaign_spend := 10 |}]))
      (Examples.today 11) = Some d.
Proof.
  apply (proj2 (delivery_concentration_emitted_iff CPython.runtime _ _)).
  eexists _, (jan_2024 12). split; [reflexivity|]. split; [reflexivity|].
  cbv zeta. split; [cbn; lia|]. split; [reflexivity|].
  intros c [<-|[<-|[]]]; vm_compute; discriminate.
Defined.

(** X7: [compute_tracking_degradation] emits a diagnostic exactly when the
    snapshot's date has a seventh day before it, the health record that the
    engine returns first among those dated within the day up to that date
    has a quality score, at least two health records are dated in the seven
    days before the date, and one of the seven most recent of them has a
    score.  The record returned first is a stored one of that day, of least
    index key among them; there is none exactly when no record is dated in
    that day. *)
Theorem tracking_degradation_emitted_iff rt db s :
  let last_day :=
    filter
      (fun h =>
         (AdAccountSnapshot.snapshot_date s - timedelta_days 1
          <=? EventsManagerHealth.snapshot_date h)
         && (EventsManagerHealth.snapshot_date h
             <=? AdAccountSnapshot.snapshot_date s))
      (events_manager_health db) in
  ((exists d, compute_tracking_degradation rt db s = Some d)
  <-> (exists date_7d_ago recent_health recent_score,
          minus_days (AdAccountSnapshot.snapshot_date s) 7 = Ok date_7d_ago
          /\ first (index_scan (health_rank rt) last_day) = Some recent_health
          /\ EventsManagerHealth.tracking_quality_score recent_health
             = Some recent_score
          /\ let in_week :=
               filter
                 (fun h =>
                    (date_7d_ago <=? EventsManagerHealth.snapshot_date h)
                    && (EventsManagerHealth.snapshot_date h
                        <? AdAccountSnapshot.snapshot_date s))
                 (events_manager_health db) in
             (2 <= length in_week)%nat
             /\ exists h,
                  In h (limit 7
                          (order_by_desc EventsManagerHealth.snapshot_date
                             in_week))
                  /\ EventsManagerHealth.tracking_quality_score h <> None))
  /\ (forall recent_health,
        first (index_scan (health_rank rt) last_day) = Some recent_health ->
        In recent_health (events_manager_health db)
        /\ AdAccountSnapshot.snapshot_date s - timedelta_days 1
           <= EventsManagerHealth.snapshot_date recent_health
           <= AdAccountSnapshot.snapshot_date s
        /\ forall h, In h last_day ->
                     health_rank rt recent_health <= health_rank rt h)
  /\ (first (index_scan (health_rank rt) last_day) = None <->
      forall h, In h (events_manager_health db) ->
                EventsManagerHealth.snapshot_date h
                < AdAccountSnapshot.snapshot_date s - timedelta_days 1
                \/ AdAccountSnapshot.snapshot_date s
                   < EventsManagerHealth.snapshot_date h).
Proof.
  cbv zeta. split; [|split].
  2:{ intros recent H. apply first_index_scan in H as [Hin Hmin].
      apply filter_In in Hin as [Hin Hf].
      apply andb_true_iff in Hf as [H1 H2].
      apply Z.leb_le in H1. apply Z.leb_le in H2. auto. }
  2:{ rewrite first_index_scan_none, filter_nil_iff.
      split; intros H h Hh; specialize (H h Hh).
      - apply andb_false_iff in H as [H|H]; apply Z.leb_gt in H; lia.
      - apply andb_false_iff.
        destruct H as [H|H]; [left | right]; apply Z.leb_gt; lia. }
  unfold compute_tracking_degradation, tracking_degradation_body.
  assert (Hday : forall d7,
            minus_days (AdAccountSnapshot.snapshot_date s) 7 = Ok d7 ->
            minus_days (AdAccountSnapshot.snapshot_date s) 1
            = Ok (AdAccountSnapshot.snapshot_date s - timedelta_days 1)).
  { unfold minus_days, timedelta_days. intros d7.
    destruct (Z.ltb_spec (AdAccountSnapshot.snapshot_date s - 7 * 86400000000) 0);
      [discriminate|]. intros _.
    destruct (Z.ltb_spec (AdAccountSnapshot.snapshot_date s - 1 * 86400000000) 0);
      [lia | reflexivity]. }
  assert (Hscores : forall hs : list EventsManagerHealth.t,
            not_none (map EventsManagerHealth.tracking_quality_score hs) = []
            <-> forall h, In h hs ->
                          EventsManagerHealth.tracking_quality_score h = None).
  { induction hs as [|h hs IH]; cbn [map not_none].
    - split; [intros _ ? [] | reflexivity].
    - destruct (EventsManagerHealth.tracking_quality_score h) eqn:E.
      + split; [discriminate|]. intros H.
        specialize (H h (or_introl eq_refl)). congruence.
      + rewrite IH. split.
        * intros H x [<-|Hx]; [exact E | apply H, Hx].
        * intros H x Hx. apply H. right. exact Hx. }
  assert (Hlen : forall rows : list EventsManagerHealth.t,
            (length (limit 7 (order_by_desc EventsManagerHealth.snapshot_date rows))
             <? 2)%nat = (length rows <? 2)%nat).
  { intros rows. unfold limit. rewrite length_firstn, order_by_desc_length.
    destruct (Nat.ltb_spec (length rows) 2);
      [apply Nat.ltb_lt | apply Nat.ltb_ge]; lia. }
  destruct (minus_days (AdAccountSnapshot.snapshot_date s) 7) as [d7|e] eqn:E7;
    cbn [bind];
    [|split; [intros [d H]; discriminate
             | intros (? & ? & ? & H & _); discriminate]].
  rewrite (Hday d7 eq_refl). cbn [bind].
  destruct (first _) as [recent|] eqn:Hrecent;
    [|split; [intros [d H]; discriminate
             | intros (? & ? & ? & _ & H & _); discriminate]].
  cbv zeta. rewrite Hlen.
  set (in_week := filter _ (events_manager_health db)).
  set (historical := limit 7 (order_by_desc _ in_week)).
  split.
  - intros [d H]. exists d7, recent.
    destruct (length in_week <? 2)%nat eqn:Hl; [discriminate|].
    apply Nat.ltb_ge in Hl.
    destruct (EventsManagerHealth.tracking_quality_score recent)
      as [score|] eqn:Hscore; [|discriminate].
    exists score. repeat split; try assumption.
    destruct (not_none (map EventsManagerHealth.tracking_quality_score historical))
      as [|x xs] eqn:Hs; [discriminate|].
    fold in_week. fold historical.
    clearbody historical. clear -Hs. revert x xs Hs.
    induction historical as [|h hs IH]; cbn [map not_none]; [discriminate|].
    intros x xs Hs.
    destruct (EventsManagerHealth.tracking_quality_score h) eqn:E.
    + exists h. split; [left; reflexivity | congruence].
    + destruct (IH x xs Hs) as (h' & Hh' & Hne). exists h'. split;
        [right; exact Hh' | exact Hne].
  - intros (d7' & recent' & score & [= <-] & [= <-] & Hscore & Hl & h & Hh & Hne).
    apply Nat.ltb_ge in Hl. fold in_week in Hl. rewrite Hl, Hscore.
    destruct (not_none (map EventsManagerHealth.tracking_quality_score historical))
      as [|x xs] eqn:Hs.
    + exfalso. apply Hne. apply (proj1 (Hscores historical) Hs h Hh).
    + pose proof (values_length EventsManagerHealth.tracking_quality_score
                    historical) as Hv.
      pose proof (limit_length 7
                    (order_by_desc EventsManagerHealth.snapshot_date in_week)).
      fold historical in H. rewrite Hs in Hv.
      destruct (float_div_count (builtin_sum rt (x :: xs)) (length (x :: xs)))
        as (b & _ & _ & ->); [cbn [length] in *; lia|].
      cbn [bind try_except]. eexists. reflexivity.
Qed.

Lemma tracking_degradation_emitted_iff_witness :
  option_map DiagnosticResult.severity
    (compute_tracking_degradation CPython.runtime Health.store
       (Examples.today 11))
  = Some "high"
  /\ exists d,
       compute_tracking_degradation CPython.runtime Health.store
         (Examples.today 11) = Some d.
Proof.
  split; [vm_compute; reflexivity|].
  apply (proj2 (proj1 (tracking_degradation_emitted_iff CPython.runtime
                         Health.store (Examples.today 11)))).
  exists (jan_2024 6), (Health.record 13 700 0.7), 0.7%float.
  split; [reflexivity|]. split; [reflexivity|]. split; [reflexivity|].
  cbv zeta. split; [vm_compute; lia|].
  exists (Health.record 11 940 0.94). split; [vm_compute; auto | discriminate].
Defined.

(** ** What every diagnostic carries *)

Ltac diagnostic_fields :=
  cbn [DiagnosticResult.snapshot_date DiagnosticResult.diagnostic_type
       DiagnosticResult.metric_name DiagnosticResult.severity
       DiagnosticResult.current_value];
  repeat match goal with
         | |- context [if ?b then _ else _] => destruct b
         end;
  cbn [In]; repeat split; auto 10; try discriminate.

Lemma emitted_fields rt meta db s d :
  In d (compute_all_diagnostics rt meta db s) ->
  DiagnosticResult.snapshot_date d = AdAccountSnapshot.snapshot_date s
  /\ In (DiagnosticResult.severity d) ["low"; "medium"; "high"]
  /\ In (DiagnosticResult.diagnostic_type d, DiagnosticResult.metric_name d)
       category_metric
  /\ DiagnosticResult.current_value d <> None.
Proof.
  unfold category_metric.
  intros H. apply in_compute_all_diagnostics in H.
  destruct H as [H | [H | [H | [H | H]]]]; apply try_except_some in H.
  - unfold fatigue_body in H. body_inv H. apply Ok_inj in H.
    injection H as <-. diagnostic_fields.
  - unfold saturation_body in H. body_inv H. apply Ok_inj in H.
    injection H as <-. diagnostic_fields.
  - unfold delivery_concentration_body in H. body_inv H. apply Ok_inj in H.
    injection H as <-. diagnostic_fields.
  - unfold auction_shifts_body in H. body_inv H. apply Ok_inj in H.
    injection H as <-. diagnostic_fields.
  - unfold tracking_degradation_body in H. body_inv H. apply Ok_inj in H.
    injection H as <-. diagnostic_fields.
Qed.

(** X8: every diagnostic returned by [compute_all_diagnostics] is stamped
    with the date of the snapshot it was computed for, has a severity among
    "low", "medium" and "high", reports on the metric of its category, and
    has a current value; and no two of them belong to the same category. *)
Theorem diagnostics_well_formed rt meta db s :
  (forall d,
      In d (compute_all_diagnostics rt meta db s) ->
      DiagnosticResult.snapshot_date d = AdAccountSnapshot.snapshot_date s
      /\ In (DiagnosticResult.severity d) ["low"; "medium"; "high"]
      /\ In (DiagnosticResult.diagnostic_type d, DiagnosticResult.metric_name d)
           category_metric
      /\ DiagnosticResult.current_value d <> None)
  /\ NoDup (map DiagnosticResult.diagnostic_type
              (compute_all_diagnostics rt meta db s))
  /\ (length (compute_all_diagnostics rt meta db s) <= 5)%nat.
Proof.
  split; [intros d; apply emitted_fields|].
  assert (Htypes :
            map DiagnosticResult.diagnostic_type
              (compute_all_diagnostics rt meta db s)
            = (map (fun _ => "fatigue") (option_list (compute_fatigue rt db s))
                 ++ map (fun _ => "saturation")
                      (option_list (compute_saturation rt db s))
                 ++ map (fun _ => "delivery_concentration")
                      (option_list (compute_delivery_concentration rt meta s))
                 ++ map (fun _ => "auction_shifts")
                      (option_list (compute_auction_shifts rt db s))
                 ++ map (fun _ => "tracking_degradation")
                      (option_list (compute_tracking_degradation rt db s)))%list).
  { rewrite compute_all_diagnostics_eq, !map_app.
    assert (tagged : forall (o : option DiagnosticResult.t) (name : string),
               (forall d, o = Some d ->
                          DiagnosticResult.diagnostic_type d = name) ->
               map DiagnosticResult.diagnostic_type (option_list o)
               = map (fun _ => name) (option_list o)).
    { intros [d|] name H; cbn; [rewrite (H d eq_refl)|]; reflexivity. }
    rewrite (tagged (compute_fatigue rt db s) "fatigue"),
      (tagged (compute_saturation rt db s) "saturation"),
      (tagged (compute_delivery_concentration rt meta s)
         "delivery_concentration"),
      (tagged (compute_auction_shifts rt db s) "auction_shifts"),
      (tagged (compute_tracking_degradation rt db s) "tracking_degradation");
      [reflexivity| | | | |]; intros d Hd.
    + apply (tracking_degradation_emitted _ _ _ _ Hd).
    + destruct (auction_shifts_emitted _ _ _ _ Hd)
        as (?&?&?&_&_&_&_&_&H&_). exact H.
    + apply (delivery_concentration_emitted _ _ _ _ Hd).
    + destruct (saturation_emitted _ _ _ _ Hd) as (?&?&?&_&_&_&_&H&_).
      exact H.
    + destruct (fatigue_emitted _ _ _ _ Hd)
        as (?&?&?&?&?&_&_&_&_&_&_&_&H&_). exact H. }
  split.
  - rewrite Htypes.
    destruct (compute_fatigue rt db s), (compute_saturation rt db s),
      (compute_delivery_concentration rt meta s),
      (compute_auction_shifts rt db s),
      (compute_tracking_degradation rt db s); cbn [option_list map app];
      repeat constructor; cbn [In]; intuition discriminate.
  - rewrite <- (length_map DiagnosticResult.diagnostic_type), Htypes.
    destruct (compute_fatigue rt db s), (compute_saturation rt db s),
      (compute_delivery_concentration rt meta s),
      (compute_auction_shifts rt db s),
      (compute_tracking_degradation rt db s); cbn; lia.
Qed.

Lemma diagnostics_well_formed_witness :
  map (fun d => (DiagnosticResult.diagnostic_type d, DiagnosticResult.severity d))
    (compute_all_diagnostics CPython.runtime Sample.no_campaigns Health.store
       (Examples.today 11))
  = [("fatigue", "low"); ("saturation", "low"); ("auction_shifts", "low");
     ("tracking_degradation", "high")]
  /\ forall d,
       In d (compute_all_diagnostics CPython.runtime Sample.no_campaigns
               Health.store (Examples.today 11)) ->
       DiagnosticResult.snapshot_date d = jan_2024 13.
Proof.
  split; [vm_compute; reflexivity|].
  intros d Hd.
  apply (proj1 (diagnostics_well_formed CPython.runtime Sample.no_campaigns
                  Health.store (Examples.today 11)) d Hd).
Defined.

(** ** What the diagnostics are computed from *)

Lemma compute_all_diagnostics_frame rt meta db db' s :
  ad_account_snapshots db = ad_account_snapshots db' ->
  events_manager_health db = events_manager_health db' ->
  compute_all_diagnostics rt meta db s = compute_all_diagnostics rt meta db' s.
Proof.
  intros Hs Hh.
  unfold compute_all_diagnostics, compute_fatigue, fatigue_body,
    compute_saturation, saturation_body, compute_auction_shifts,
    auction_shifts_body, compute_tracking_degradation,
    tracking_degradation_body, snapshots_7d.
  rewrite Hs, Hh. reflexivity.
Qed.

(** X9: the diagnostics computed for a snapshot depend on the store only
    through its snapshot and health tables: two stores that agree on these
    give the same diagnostics, so rows added to the diagnostics table or to
    the overview table never change what is computed next. *)
Theorem diagnostics_read_measurements_only rt meta db s :
  (forall db',
      ad_account_snapshots db = ad_account_snapshots db' ->
      events_manager_health db = events_manager_health db' ->
      compute_all_diagnostics rt meta db s
      = compute_all_diagnostics rt meta db' s)
  /\ (forall rows,
        compute_all_diagnostics rt meta (add_diagnostics db rows) s
        = compute_all_diagnostics rt meta db s)
  /\ (forall row,
        compute_all_diagnostics rt meta (add_overview db row) s
        = compute_all_diagnostics rt meta db s).
Proof.
  split; [|split].
  - intros db'. apply compute_all_diagnostics_frame.
  - intros rows. apply compute_all_diagnostics_frame; reflexivity.
  - intros row. apply compute_all_diagnostics_frame; reflexivity.
Qed.

Lemma diagnostics_read_measurements_only_witness :
  compute_all_diagnostics CPython.runtime Sample.no_campaigns
    Examples.with_overview (Examples.today 11)
  = compute_all_diagnostics CPython.runtime Sample.no_campaigns
      (Sample.store (Sample.history ++ [Examples.today 11]))
      (Examples.today 11)
  /\ length (compute_all_diagnostics CPython.runtime Sample.no_campaigns
               Examples.with_overview (Examples.today 11)) = 3%nat.
Proof.
  split; [|vm_compute; reflexivity].
  apply (proj1 (diagnostics_read_measurements_only CPython.runtime
                  Sample.no_campaigns Examples.with_overview
                  (Examples.today 11))); reflexivity.
Defined.

(** ** The assembled context *)

Lemma anchor_snapshot_in db d a :
  anchor_snapshot db d = Some a ->
  In a (ad_account_snapshots db)
  /\ AdAccountSnapshot.snapshot_date a <= d
  /\ (forall x, In x (ad_account_snapshots db) ->
                AdAccountSnapshot.snapshot_date x <= d ->
                AdAccountSnapshot.snapshot_date x
                <= AdAccountSnapshot.snapshot_date a).
Proof.
  unfold anchor_snapshot.
  destruct (first (filter (fun s => AdAccountSnapshot.snapshot_date s =? d)
                     (ad_account_snapshots db))) as [s|] eqn:Hexact.
  - apply first_in, filter_In in Hexact as [Hin Hdate].
    apply Z.eqb_eq in Hdate. intros [= <-].
    repeat split; try assumption; lia.
  - intros Ha. apply first_order_by_desc in Ha as [Hin Hmax].
    apply filter_In in Hin as [Hin Hle]. apply Z.leb_le in Hle.
    repeat split; try assumption.
    intros x Hx Hxd. apply Hmax. apply filter_In. split; [exact Hx|].
    apply Z.leb_le. exact Hxd.
Qed.

Lemma anchor_snapshot_frame db db' d :
  ad_account_snapshots db = ad_account_snapshots db' ->
  anchor_snapshot db d = anchor_snapshot db' d.
Proof. unfold anchor_snapshot. intros ->. reflexivity. Qed.

Lemma previous_snapshot_in db s p :
  previous_snapshot_of db s = Some p ->
  In p (ad_account_snapshots db)
  /\ AdAccountSnapshot.ad_account_id p = AdAccountSnapshot.ad_account_id s
  /\ AdAccountSnapshot.snapshot_date p < AdAccountSnapshot.snapshot_date s.
Proof.
  unfold previous_snapshot_of. intros H.
  apply first_order_by_desc in H as [Hin _].
  apply filter_In in Hin as [Hin Hf].
  apply andb_true_iff in Hf as [Hid Hlt].
  apply String.eqb_eq in Hid. apply Z.ltb_lt in Hlt. auto.
Qed.

(** The dictionary assembled around an anchor snapshot. *)
Lemma get_context_for_date_entries rt db d s ctx :
  anchor_snapshot db d = Some s ->
  get_context_for_date rt db d = Ok ctx ->
  exists changes,
    ctx
    = VDict
        [("current_snapshot", snapshot_dict rt s);
         ("previous_snapshot",
          match previous_snapshot_of db s with
          | Some previous => snapshot_dict rt previous
          | None => VNone
          end);
         ("changes", changes);
         ("historical_data",
          VList
            (map (snapshot_dict rt)
               (order_by_desc AdAccountSnapshot.snapshot_date
                  (filter
                     (fun x =>
                        String.eqb (AdAccountSnapshot.ad_account_id x)
                          (AdAccountSnapshot.ad_account_id s)
                        && (AdAccountSnapshot.snapshot_date x <=? d))
                     (ad_account_snapshots db)))));
         ("diagnostics",
          VList
            (map diagnostic_dict
               (index_scan (diagnostic_rank rt)
                  (filter
                     (fun x =>
                        DiagnosticResult.snapshot_date x
                        =? AdAccountSnapshot.snapshot_date s)
                     (diagnostic_results db)))));
         ("events_health",
          match
            first
              (filter
                 (fun h =>
                    EventsManagerHealth.snapshot_date h
                    =? AdAccountSnapshot.snapshot_date s)
                 (events_manager_health db))
          with
          | Some h => events_health_dict h
          | None => VNone
          end)].
Proof.
  unfold get_context_for_date. intros ->.
  match goal with
  | |- (bind ?m _ = _) -> _ => destruct m as [changes|e]
  end; cbn [bind]; [|discriminate].
  intros H. apply Ok_inj in H. subst ctx. exists changes. reflexivity.
Qed.

(** X10: around an anchor snapshot, the ['historical_data'] entry of the
    context lists the stored snapshots of the anchor's account dated at or
    before the target date, all of them and no others, most recent first; it
    holds the anchor and its previous snapshot, and starts with a snapshot
    of the anchor's date. *)
Theorem context_history_complete rt db d s ctx :
  anchor_snapshot db d = Some s ->
  get_context_for_date rt db d = Ok ctx ->
  exists history,
    entry "historical_data" ctx = Some (VList (map (snapshot_dict rt) history))
    /\ descending AdAccountSnapshot.snapshot_date history
    /\ (forall x,
          In x history <->
          In x (ad_account_snapshots db)
          /\ AdAccountSnapshot.ad_account_id x
             = AdAccountSnapshot.ad_account_id s
          /\ AdAccountSnapshot.snapshot_date x <= d)
    /\ (length history <= length (ad_account_snapshots db))%nat
    /\ In s history
    /\ (forall p, previous_snapshot_of db s = Some p -> In p history)
    /\ (exists x rest,
          history = x :: rest
          /\ AdAccountSnapshot.snapshot_date x
             = AdAccountSnapshot.snapshot_date s).
Proof.
  intros Hs Hctx.
  destruct (get_context_for_date_entries rt db d s ctx Hs Hctx)
    as [changes ->].
  destruct (anchor_snapshot_in db d s Hs) as (Hin & Hle & Hmax).
  set (history :=
         order_by_desc AdAccountSnapshot.snapshot_date
           (filter
              (fun x =>
                 String.eqb (AdAccountSnapshot.ad_account_id x)
                   (AdAccountSnapshot.ad_account_id s)
                 && (AdAccountSnapshot.snapshot_date x <=? d))
              (ad_account_snapshots db))).
  assert (Hmem : forall x,
             In x history <->
             In x (ad_account_snapshots db)
             /\ AdAccountSnapshot.ad_account_id x
                = AdAccountSnapshot.ad_account_id s
             /\ AdAccountSnapshot.snapshot_date x <= d).
  { intros x. unfold history.
    rewrite in_order_by_desc, filter_In, andb_true_iff, String.eqb_eq,
      Z.leb_le. tauto. }
  assert (Hdesc : descending AdAccountSnapshot.snapshot_date history)
    by apply order_by_desc_descending.
  assert (Hs_in : In s history) by (apply Hmem; auto).
  exists history. split; [reflexivity|]. split; [exact Hdesc|].
  split; [exact Hmem|]. split.
  { unfold history. rewrite order_by_desc_length. apply filter_length_le. }
  split; [exact Hs_in|]. split.
  - intros p Hp. apply previous_snapshot_in in Hp as (Hp & Hid & Hlt).
    apply Hmem. repeat split; try assumption. lia.
  - destruct history as [|x rest]; [contradiction|].
    exists x, rest. split; [reflexivity|].
    assert (Hx : In x (x :: rest)) by (left; reflexivity).
    apply Hmem in Hx as (Hx & _ & Hxd).
    specialize (Hmax x Hx Hxd).
    destruct Hdesc as [Hhead _].
    destruct Hs_in as [<- | Hrest]; [reflexivity|].
    specialize (Hhead s Hrest). lia.
Qed.

Lemma context_history_complete_witness :
  exists history,
    entry "historical_data"
      (VDict
         [("current_snapshot",
           snapshot_dict CPython.runtime (Sample.snapshot 12 10 5));
          ("previous_snapshot",
           snapshot_dict CPython.runtime (Sample.snapshot 11 10 5));
          ("changes",
           VDict [("spend_change", VFloat 0); ("impressions_change", VFloat 0);
                  ("clicks_change", VFloat 0); ("cpm_change", VFloat 0)]);
          ("historical_data",
           VList (map (snapshot_dict CPython.runtime) (rev Sample.history)));
          ("diagnostics", VList []);
          ("events_health", VNone)])
    = Some (VList (map (snapshot_dict CPython.runtime) history))
    /\ In (Sample.snapshot 12 10 5) history.
Proof.
  destruct (context_history_complete CPython.runtime
              (Sample.store Sample.history) (jan_2024 20)
              (Sample.snapshot 12 10 5) _ eq_refl eq_refl)
    as (history & H & _ & _ & _ & Hin & _).
  exists history. split; assumption.
Defined.

(** ** How context assembly can fail *)

Lemma int_change_raises (cur prev : option Z) (e : exn) :
  int_change cur prev = Raise e ->
  (exn_kind_of e = TypeError /\ (prev = None \/ cur = None))
  \/ exn_kind_of e = OverflowError.
Proof.
  unfold int_change, int_truediv.
  destruct prev as [p|]; cbn [operand bind type_error];
    [|intros [= <-]; left; auto].
  destruct (Z.ltb_spec 0 p) as [Hp|Hp]; [|discriminate].
  destruct cur as [c|]; cbn [operand bind type_error];
    [|intros [= <-]; left; auto].
  destruct (Z.eqb_spec p 0) as [->|_]; [lia|].
  destruct (c - p =? 0); cbn [bind]; [discriminate|].
  match goal with
  | |- context [if ?b then _ else _] => destruct b
  end; cbn [bind]; [|discriminate].
  intros [= <-]. right. reflexivity.
Qed.

Lemma changes_dict_raises s p e :
  changes_dict s p = Raise e ->
  (exn_kind_of e = TypeError
   /\ (AdAccountSnapshot.spend p = None
       \/ AdAccountSnapshot.spend s = None
       \/ AdAccountSnapshot.impressions p = None
       \/ AdAccountSnapshot.impressions s = None
       \/ AdAccountSnapshot.clicks p = None
       \/ AdAccountSnapshot.clicks s = None
       \/ AdAccountSnapshot.cpm s = None))
  \/ exn_kind_of e = OverflowError.
Proof.
  unfold changes_dict.
  destruct (AdAccountSnapshot.spend p) as [x|];
    cbn [operand bind type_error]; [|intros [= <-]; left; auto].
  destruct (gt x 0) eqn:Hx; [|discriminate].
  destruct (AdAccountSnapshot.spend s) as [y|];
    cbn [operand bind type_error]; [|intros [= <-]; left; auto].
  rewrite (float_div_ok _ _ (gt_zero_not_zero _ Hx)). cbn [bind].
  destruct (int_change (AdAccountSnapshot.impressions s)
              (AdAccountSnapshot.impressions p)) as [i|e1] eqn:Hi;
    cbn [bind].
  2:{ intros [= <-].
      destruct (int_change_raises _ _ _ Hi) as [[? [?|?]]|?]; auto 10. }
  destruct (int_change (AdAccountSnapshot.clicks s)
              (AdAccountSnapshot.clicks p)) as [c|e1] eqn:Hc;
    cbn [bind].
  2:{ intros [= <-].
      destruct (int_change_raises _ _ _ Hc) as [[? [?|?]]|?]; auto 10. }
  destruct (AdAccountSnapshot.cpm p) as [pc|]; cbn [bind]; [|discriminate].
  destruct (negb (is_zero pc) && gt pc 0) eqn:Hpc; cbn [bind]; [|discriminate].
  apply andb_true_iff in Hpc as [Hz _]. apply negb_true_iff in Hz.
  destruct (AdAccountSnapshot.cpm s) as [cc|];
    cbn [operand bind type_error]; [|intros [= <-]; left; auto 10].
  rewrite (float_div_ok _ _ Hz). cbn [bind]. discriminate.
Qed.

Lemma get_context_for_date_raises rt db d e :
  get_context_for_date rt db d = Raise e ->
  exists s p,
    anchor_snapshot db d = Some s
    /\ previous_snapshot_of db s = Some p
    /\ changes_dict s p = Raise e.
Proof.
  unfold get_context_for_date.
  destruct (anchor_snapshot db d) as [s|]; [|discriminate].
  destruct (previous_snapshot_of db s) as [p|] eqn:Hp; cbn [bind];
    [|discriminate].
  destruct (changes_dict s p) as [c|e'] eqn:Hc; cbn [bind]; [discriminate|].
  intros [= <-]. exists s, p. auto.
Qed.

(** X11: assembling the context never divides by zero.  It raises only
    around an anchor snapshot that has a previous snapshot, and then either
    with a [TypeError], one of the spend, impressions, clicks or CPM columns
    read being empty, or with the [OverflowError] of an integer quotient
    beyond the floats.  In particular it returns when every stored snapshot
    has its spend, impressions, clicks and CPM and no quotient overflows. *)
Theorem context_assembly_guarded rt db d :
  division_safe (get_context_for_date rt db d)
  /\ (forall e,
        get_context_for_date rt db d = Raise e ->
        exists s p,
          anchor_snapshot db d = Some s
          /\ previous_snapshot_of db s = Some p
          /\ ((exn_kind_of e = TypeError
               /\ (AdAccountSnapshot.spend p = None
                   \/ AdAccountSnapshot.spend s = None
                   \/ AdAccountSnapshot.impressions p = None
                   \/ AdAccountSnapshot.impressions s = None
                   \/ AdAccountSnapshot.clicks p = None
                   \/ AdAccountSnapshot.clicks s = None
                   \/ AdAccountSnapshot.cpm s = None))
              \/ exn_kind_of e = OverflowError))
  /\ ((forall x, In x (ad_account_snapshots db) ->
                 AdAccountSnapshot.spend x <> None
                 /\ AdAccountSnapshot.impressions x <> None
                 /\ AdAccountSnapshot.clicks x <> None
                 /\ AdAccountSnapshot.cpm x <> None) ->
      ~ raises (get_context_for_date rt db d) OverflowError ->
      exists ctx, get_context_for_date rt db d = Ok ctx).
Proof.
  assert (Hraise : forall e,
             get_context_for_date rt db d = Raise e ->
             exists s p,
               anchor_snapshot db d = Some s
               /\ previous_snapshot_of db s = Some p
               /\ ((exn_kind_of e = TypeError
                    /\ (AdAccountSnapshot.spend p = None
                        \/ AdAccountSnapshot.spend s = None
                        \/ AdAccountSnapshot.impressions p = None
                        \/ AdAccountSnapshot.impressions s = None
                        \/ AdAccountSnapshot.clicks p = None
                        \/ AdAccountSnapshot.clicks s = None
                        \/ AdAccountSnapshot.cpm s = None))
                   \/ exn_kind_of e = OverflowError)).
  { intros e He.
    destruct (get_context_for_date_raises rt db d e He) as (s & p & Hs & Hp & Hc).
    exists s, p. split; [exact Hs|]. split; [exact Hp|].
    exact (changes_dict_raises s p e Hc). }
  split; [|split; [exact Hraise|]].
  - intros [msg He]. destruct (Hraise _ He) as (_ & _ & _ & _ & [[H _]|H]);
      discriminate.
  - intros Hall Hover.
    destruct (get_context_for_date rt db d) as [ctx|e] eqn:He;
      [exists ctx; reflexivity|].
    exfalso.
    destruct (Hraise e eq_refl) as (s & p & Hs & Hp & [[_ Hnull]|Hkind]).
    + destruct (anchor_snapshot_in db d s Hs) as (Hin & _).
      destruct (previous_snapshot_in db s p Hp) as (Hpin & _).
      destruct (Hall s Hin) as (? & ? & ? & ?).
      destruct (Hall p Hpin) as (? & ? & ? & ?).
      intuition congruence.
    + apply Hover. destruct e as [k msg]. cbn in Hkind. subst k.
      exists msg. reflexivity.
Qed.

Lemma context_assembly_guarded_witness :
  exists ctx,
    get_context_for_date CPython.runtime (Sample.store Sample.history)
      (jan_2024 20) = Ok ctx.
Proof.
  apply (proj2 (proj2 (context_assembly_guarded CPython.runtime
                         (Sample.store Sample.history) (jan_2024 20)))).
  - intros x Hx. cbn in Hx.
    destruct Hx as [<-|[<-|[<-|[]]]]; repeat split; discriminate.
  - intros [msg H]. vm_compute in H. discriminate.
Defined.

Lemma missing_cpm_raises rt db d s p x c :
  anchor_snapshot db d = Some s ->
  previous_snapshot_of db s = Some p ->
  AdAccountSnapshot.spend p = Some x -> gt x 0 = true ->
  AdAccountSnapshot.cpm p = Some c -> gt c 0 = true ->
  AdAccountSnapshot.cpm s = None ->
  exists e, get_context_for_date rt db d = Raise e.
Proof.
  intros Hs Hp Hx Hgx Hc Hgc Hcpm.
  unfold get_context_for_date. rewrite Hs, Hp. unfold changes_dict.
  rewrite Hx. cbn [operand bind]. rewrite Hgx.
  destruct (AdAccountSnapshot.spend s); cbn [operand bind type_error];
    [|eexists; reflexivity].
  rewrite (float_div_ok _ _ (gt_zero_not_zero _ Hgx)). cbn [bind].
  destruct (int_change _ _); cbn [bind]; [|eexists; reflexivity].
  destruct (int_change _ _); cbn [bind]; [|eexists; reflexivity].
  rewrite Hc, Hgc, (gt_zero_not_zero _ Hgc), Hcpm.
  cbn [negb andb operand bind type_error]. eexists. reflexivity.
Qed.

(** X12: when the previous snapshot has a spend and a CPM above zero and the
    anchor snapshot has no CPM, context assembly raises; a generation for
    that date without a stored overview then raises as well, before the
    model is consulted and with the store left as it was. *)
Theorem missing_cpm_aborts_generation rt meta llm db d s p x c :
  anchor_snapshot db d = Some s ->
  previous_snapshot_of db s = Some p ->
  AdAccountSnapshot.spend p = Some x -> gt x 0 = true ->
  AdAccountSnapshot.cpm p = Some c -> gt c 0 = true ->
  AdAccountSnapshot.cpm s = None ->
  exists e,
    get_context_for_date rt db d = Raise e
    /\ (existing_overview db d = None ->
        generate_daily_overview rt meta llm db d
        = {| out_db := db; out_calls := []; out_value := Raise e |}).
Proof.
  intros Hs Hp Hx Hgx Hc Hgc Hcpm.
  destruct (missing_cpm_raises rt db d s p x c Hs Hp Hx Hgx Hc Hgc Hcpm)
    as [e He].
  exists e. split; [exact He|].
  intros E0. unfold generate_daily_overview. rewrite E0, He. reflexivity.
Qed.

Lemma missing_cpm_aborts_generation_witness :
  exists e,
    get_context_for_date CPython.runtime
      (Sample.store (Sample.history ++ [no_delivery 13])) (jan_2024 13)
    = Raise e
    /\ (existing_overview (Sample.store (Sample.history ++ [no_delivery 13]))
          (jan_2024 13) = None ->
        generate_daily_overview CPython.runtime Sample.no_campaigns
          Examples.empty_object
          (Sample.store (Sample.history ++ [no_delivery 13])) (jan_2024 13)
        = {| out_db := Sample.store (Sample.history ++ [no_delivery 13]);
             out_calls := [];
             out_value := Raise e |}).
Proof.
  apply (missing_cpm_aborts_generation CPython.runtime Sample.no_campaigns
           Examples.empty_object
           (Sample.store (Sample.history ++ [no_delivery 13])) (jan_2024 13)
           (no_delivery 13) (Sample.snapshot 12 10 5) 100%float 5%float);
    reflexivity.
Defined.

(** ** What a generation leaves in the store *)

Lemma existing_overview_none_dates db d :
  existing_overview db d = None ->
  ~ In d (map DailyOverview.overview_date (daily_overviews db)).
Proof.
  unfold existing_overview. intros H Hin.
  apply first_filter_none in H.
  apply in_map_iff in Hin as (o & Ho & Hin).
  pose proof (proj1 (filter_nil_iff _ _) H o Hin) as Hno.
  cbv beta in Hno. rewrite Ho, Z.eqb_refl in Hno. discriminate.
Qed.

Lemma NoDup_snoc {A} (l : list A) (x : A) :
  NoDup l -> ~ In x l -> NoDup (l ++ [x]).
Proof.
  intros Hl Hx. induction Hl as [|y l Hy Hl IH]; cbn.
  - constructor; [intros []|constructor].
  - constructor.
    + rewrite in_app_iff. intros [H|[H|[]]]; [contradiction|].
      apply Hx. left. symmetry. exact H.
    + apply IH. intros H. apply Hx. right. exact H.
Qed.

Lemma request_overview_frame rt llm db d ctx :
  let o := request_overview rt llm db d ctx in
  ad_account_snapshots (out_db o) = ad_account_snapshots db
  /\ events_manager_health (out_db o) = events_manager_health db
  /\ diagnostic_results (out_db o) = diagnostic_results db
  /\ (daily_overviews (out_db o) = daily_overviews db
      \/ exists row,
           daily_overviews (out_db o) = (daily_overviews db ++ [row])%list
           /\ DailyOverview.overview_date row = d).
Proof.
  cbv zeta.
  destruct (request_overview_db rt llm db d ctx)
    as [(-> & _) | (row & r & -> & Hdate & _)].
  - auto.
  - repeat split. right. exists row. split; [reflexivity | exact Hdate].
Qed.

(** X13: a generation only appends.  It leaves the snapshot and health
    tables as they are; the diagnostics table grows by rows stamped with the
    date of the anchor snapshot; the overview table is unchanged or grows by
    one row dated the target date, and only when no overview was stored for
    that date, so overview dates that were distinct stay distinct; and the
    model is consulted at most once. *)
Theorem generation_only_appends rt meta llm db d :
  let o := generate_daily_overview rt meta llm db d in
  ad_account_snapshots (out_db o) = ad_account_snapshots db
  /\ events_manager_health (out_db o) = events_manager_health db
  /\ (exists rows,
        diagnostic_results (out_db o) = (diagnostic_results db ++ rows)%list
        /\ forall x,
             In x rows ->
             exists s,
               anchor_snapshot db d = Some s
               /\ DiagnosticResult.snapshot_date x
                  = AdAccountSnapshot.snapshot_date s)
  /\ (daily_overviews (out_db o) = daily_overviews db
      \/ exists row,
           daily_overviews (out_db o) = (daily_overviews db ++ [row])%list
           /\ DailyOverview.overview_date row = d
           /\ existing_overview db d = None)
  /\ (NoDup (map DailyOverview.overview_date (daily_overviews db)) ->
      NoDup (map DailyOverview.overview_date (daily_overviews (out_db o))))
  /\ (length (out_calls o) <= 1)%nat.
Proof.
  cbv zeta.
  assert (Hnil : exists rows : list DiagnosticResult.t,
             diagnostic_results db = (diagnostic_results db ++ rows)%list
             /\ forall x,
                  In x rows ->
                  exists s,
                    anchor_snapshot db d = Some s
                    /\ DiagnosticResult.snapshot_date x
                       = AdAccountSnapshot.snapshot_date s).
  { exists []. rewrite app_nil_r. split; [reflexivity | intros x []]. }
  assert (Hgrow : forall overviews,
             (overviews = daily_overviews db
              \/ exists row,
                   overviews = (daily_overviews db ++ [row])%list
                   /\ DailyOverview.overview_date row = d
                   /\ existing_overview db d = None) ->
             NoDup (map DailyOverview.overview_date (daily_overviews db)) ->
             NoDup (map DailyOverview.overview_date overviews)).
  { intros overviews [-> | (row & -> & Hdate & E0)] Hnd; [exact Hnd|].
    rewrite map_app. cbn [map]. apply NoDup_snoc; [exact Hnd|].
    rewrite Hdate. apply existing_overview_none_dates. exact E0. }
  assert (Hcase : (exists existing, existing_overview db d = Some existing)
                  \/ existing_overview db d = None)
    by (destruct (existing_overview db d); eauto).
  destruct Hcase as [[existing E0] | E0].
  { rewrite (generate_daily_overview_cached _ _ _ _ _ _ E0).
    cbn [out_db out_calls length].
    split; [reflexivity|]. split; [reflexivity|]. split; [exact Hnil|].
    split; [left; reflexivity|]. split; [auto | lia]. }
  destruct (generate_daily_overview_cases rt meta llm db d E0)
    as [(e & _ & ->) | [(c & _ & _ & ->) | (c & s & c' & _ & Hs & _ & ->)]].
  - cbn [out_db out_calls length].
    split; [reflexivity|]. split; [reflexivity|]. split; [exact Hnil|].
    split; [left; reflexivity|]. split; [auto | lia].
  - destruct (request_overview_frame rt llm db d c) as (-> & -> & -> & Hov).
    rewrite request_overview_calls. cbn [length].
    assert (Hov' :
              daily_overviews (out_db (request_overview rt llm db d c))
              = daily_overviews db
              \/ exists row,
                   daily_overviews (out_db (request_overview rt llm db d c))
                   = (daily_overviews db ++ [row])%list
                   /\ DailyOverview.overview_date row = d
                   /\ existing_overview db d = None).
    { destruct Hov as [H | (row & H & Hd)]; [left; exact H|].
      right. exists row. auto. }
    split; [reflexivity|]. split; [reflexivity|]. split; [exact Hnil|].
    split; [exact Hov'|]. split; [apply Hgrow; exact Hov' | lia].
  - destruct (request_overview_frame rt llm
                (add_diagnostics db (compute_all_diagnostics rt meta db s))
                d c') as (-> & -> & -> & Hov).
    rewrite request_overview_calls. cbn [length].
    cbn [add_diagnostics ad_account_snapshots events_manager_health
           diagnostic_results daily_overviews] in *.
    assert (Hov' :
              daily_overviews
                (out_db
                   (request_overview rt llm
                      (add_diagnostics db
                         (compute_all_diagnostics rt meta db s)) d c'))
              = daily_overviews db
              \/ exists row,
                   daily_overviews
                     (out_db
                        (request_overview rt llm
                           (add_diagnostics db
                              (compute_all_diagnostics rt meta db s)) d c'))
                   = (daily_overviews db ++ [row])%list
                   /\ DailyOverview.overview_date row = d
                   /\ existing_overview db d = None).
    { destruct Hov as [H | (row & H & Hd)]; [left; exact H|].
      right. exists row. auto. }
    split; [reflexivity|]. split; [reflexivity|]. split.
    { exists (compute_all_diagnostics rt meta db s). split; [reflexivity|].
      intros x Hx. exists s. split; [exact Hs|].
      apply (emitted_fields rt meta db s x Hx). }
    split; [exact Hov'|]. split; [apply Hgrow; exact Hov' | lia].
Qed.

Lemma generation_only_appends_witness :
  NoDup (map DailyOverview.overview_date
           (daily_overviews
              (out_db
                 (generate_daily_overview CPython.runtime Sample.no_campaigns
                    Examples.empty_object
                    (Sample.store (Sample.history ++ [Examples.today 11]))
                    (jan_2024 13)))))
  /\ length
       (daily_overviews
          (out_db
             (generate_daily_overview CPython.runtime Sample.no_campaigns
                Examples.empty_object
                (Sample.store (Sample.history ++ [Examples.today 11]))
                (jan_2024 13)))) = 1%nat.
Proof.
  split; [|vm_compute; reflexivity].
  apply (proj1 (proj2 (proj2 (proj2 (proj2
           (generation_only_appends CPython.runtime Sample.no_campaigns
              Examples.empty_object
              (Sample.store (Sample.history ++ [Examples.today 11]))
              (jan_2024 13))))))).
  constructor.
Defined.

(** ** What the model is shown *)

Lemma filter_all {A} (f : A -> bool) (rows : list A) :
  (forall r, In r rows -> f r = true) -> filter f rows = rows.
Proof.
  induction rows as [|r rows IH]; intros H; cbn [filter]; [reflexivity|].
  rewrite (H r) by (left; reflexivity).
  rewrite IH; [reflexivity|]. intros r' Hr'. apply H. right. exact Hr'.
Qed.

(** X14: with an anchor snapshot, the context sent to the model lists under
    ['diagnostics'], in the order in which the engine returns them, the rows
    already stored for the anchor's date together with every diagnostic just
    computed for the anchor, each once and nothing else; and its
    ['current_snapshot'] entry describes the anchor. *)
Theorem model_sees_new_diagnostics rt meta llm db d s call :
  anchor_snapshot db d = Some s ->
  out_calls (generate_daily_overview rt meta llm db d) = [call] ->
  let stored :=
    filter
      (fun x =>
         DiagnosticResult.snapshot_date x =? AdAccountSnapshot.snapshot_date s)
      (diagnostic_results db) in
  let computed := compute_all_diagnostics rt meta db s in
  let listed := index_scan (diagnostic_rank rt) (stored ++ computed) in
  request_date (call_request call) = d
  /\ entry "diagnostics" (request_context (call_request call))
     = Some (VList (map diagnostic_dict listed))
  /\ (forall x, In x listed <-> In x stored \/ In x computed)
  /\ length listed = (length stored + length computed)%nat
  /\ entry "current_snapshot" (request_context (call_request call))
     = Some (snapshot_dict rt s).
Proof.
  intros Hs Hcalls. cbv zeta.
  destruct (generate_daily_overview_consulted _ _ _ _ _ _ Hcalls)
    as (E0 & db1 & ctx & Hdb1 & Hctx & -> & _).
  destruct Hdb1 as [[Hnone _] | (s' & Hs' & ->)]; [congruence|].
  assert (s' = s) by congruence. subst s'.
  cbn [call_request request_date request_context].
  assert (Hs1 : anchor_snapshot
                  (add_diagnostics db (compute_all_diagnostics rt meta db s)) d
                = Some s)
    by (rewrite <- Hs; apply anchor_snapshot_frame; reflexivity).
  destruct (get_context_for_date_entries rt _ d s ctx Hs1 Hctx)
    as [changes ->].
  split; [reflexivity|]. split.
  { cbn [entry lookup String.eqb Ascii.eqb Bool.eqb add_diagnostics
           diagnostic_results].
    rewrite filter_app.
    rewrite (filter_all _ (compute_all_diagnostics rt meta db s));
      [reflexivity|].
    intros x Hx. apply Z.eqb_eq. apply (emitted_fields rt meta db s x Hx). }
  split; [intros x; rewrite in_index_scan, in_app_iff; reflexivity|].
  split; [rewrite index_scan_length, length_app; reflexivity | reflexivity].
Qed.

Lemma model_sees_new_diagnostics_witness :
  exists call,
    out_calls
      (generate_daily_overview CPython.runtime Sample.no_campaigns
         Examples.empty_object
         (Sample.store (Sample.history ++ [Examples.today 11]))
         (jan_2024 13)) = [call]
    /\ entry "current_snapshot" (request_context (call_request call))
       = Some (snapshot_dict CPython.runtime (Examples.today 11)).
Proof.
  eexists. split; [vm_compute; reflexivity|].
  apply (model_sees_new_diagnostics CPython.runtime Sample.no_campaigns
           Examples.empty_object
           (Sample.store (Sample.history ++ [Examples.today 11]))
           (jan_2024 13) (Examples.today 11) _ eq_refl).
  vm_compute. reflexivity.
Defined.

(** ** Reading a stored overview back *)

(** X15: when the completion parses into an object, its summary binds to
    the [Text] column, and [json.loads] reads back what [json.dumps] wrote
    for its three list fields, the stored row decodes to what the generating
    call returned: a second call for the date returns the same dictionary,
    whose summary is the one read back from the column, without consulting
    the model. *)
Theorem stored_overview_round_trip rt meta llm llm' db d call text kvs stored :
  out_calls (generate_daily_overview rt meta llm db d) = [call] ->
  llm (call_request call) = Ok text ->
  json_loads rt (clean_content text) = Ok (VDict kvs) ->
  bind_text rt
    (match lookup "summary" kvs with Some x => x | None => VStr "" end)
  = Ok stored ->
  (forall key v,
      In key ["key_changes"; "insights"; "recommendations"] ->
      get (VDict kvs) key (VList []) = Ok v ->
      json_loads rt (json_dumps rt v) = Ok v) ->
  let first_call := generate_daily_overview rt meta llm db d in
  let second_call := generate_daily_overview rt meta llm' (out_db first_call) d in
  out_value second_call = out_value first_call
  /\ (exists returned,
        out_value first_call = Ok returned
        /\ entry "summary" returned = Some stored)
  /\ out_calls second_call = []
  /\ out_db second_call = out_db first_call.
Proof.
  intros Hcalls Htext Hjson Hbind Hcodec. cbv zeta.
  destruct (generate_daily_overview_consulted _ _ _ _ _ _ Hcalls)
    as (E0 & db1 & ctx & Hdb1 & Hctx & -> & ->).
  cbn [call_request] in Htext.
  assert (E1 : existing_overview db1 d = None).
  { destruct Hdb1 as [[_ ->] | (s & _ & ->)]; exact E0. }
  rewrite (parsed_object_is_stored rt llm db1 d ctx text kvs stored
             Htext Hjson Hbind).
  cbn [out_db out_value].
  match goal with
  | |- context [add_overview db1 ?row] =>
      rewrite (generate_daily_overview_cached rt meta llm' _ d row
                 (existing_overview_added db1 d row E1 eq_refl))
  end.
  cbn [out_value out_calls out_db].
  split; [|split; [eexists; split; reflexivity | split; reflexivity]].
  unfold stored_overview.
  cbn [DailyOverview.key_changes DailyOverview.insights
         DailyOverview.recommendations DailyOverview.summary
         DailyOverview.overview_date decode_field].
  rewrite (Hcodec "key_changes" _ ltac:(cbn [In]; auto) eq_refl).
  cbn [bind].
  rewrite (Hcodec "insights" _ ltac:(cbn [In]; auto) eq_refl).
  cbn [bind].
  rewrite (Hcodec "recommendations" _ ltac:(cbn [In]; auto) eq_refl).
  reflexivity.
Qed.

Lemma stored_overview_round_trip_witness :
  out_value
    (generate_daily_overview CPython.runtime Sample.no_campaigns
       Examples.prose
       (out_db
          (generate_daily_overview CPython.runtime Sample.no_campaigns
             Examples.empty_object
             (Sample.store (Sample.history ++ [Examples.today 11]))
             (jan_2024 13)))
       (jan_2024 13))
  = out_value
      (generate_daily_overview CPython.runtime Sample.no_campaigns
         Examples.empty_object
         (Sample.store (Sample.history ++ [Examples.today 11]))
         (jan_2024 13))
  /\ out_value
       (generate_daily_overview CPython.runtime Sample.no_campaigns
          Examples.empty_object
          (Sample.store (Sample.history ++ [Examples.today 11]))
          (jan_2024 13))
     = Ok (VDict [("overview_date", VStr "2024-01-13T00:00:00");
                  ("summary", VStr EmptyString);
                  ("key_changes", VList []);
                  ("insights", VList []);
                  ("recommendations", VList [])]).
Proof.
  split; [|vm_compute; reflexivity].
  refine (proj1 (stored_overview_round_trip CPython.runtime
                   Sample.no_campaigns Examples.empty_object Examples.prose
                   (Sample.store (Sample.history ++ [Examples.today 11]))
                   (jan_2024 13) _ "{}" [] (VStr EmptyString)
                   _ eq_refl eq_refl eq_refl _)).
  - vm_compute. reflexivity.
  - intros key v _ H. cbn in H. injection H as <-. reflexivity.
Defined.

(** ** A date without data *)

(** X16: for a date with no stored overview and no snapshot at or before it,
    a generation still consults the model, once and on the empty context;
    it stores no diagnostic.  A completion that parses into an object whose
    summary binds to the [Text] column is stored as the overview of that
    date, with the summary read back from the column; when the summary
    cannot be bound, or the call fails, the store is left as it was and the
    error dictionary is returned. *)
Theorem generation_without_snapshot rt meta llm db d :
  existing_overview db d = None ->
  (forall s, In s (ad_account_snapshots db) ->
             d < AdAccountSnapshot.snapshot_date s) ->
  let o := generate_daily_overview rt meta llm db d in
  out_calls o
  = [{| call_db := db;
        call_request :=
          {| request_date := d; request_context := VDict [] |} |}]
  /\ diagnostic_results (out_db o) = diagnostic_results db
  /\ (forall text kvs,
        llm {| request_date := d; request_context := VDict [] |} = Ok text ->
        json_loads rt (clean_content text) = Ok (VDict kvs) ->
        (forall stored,
            bind_text rt
              (match lookup "summary" kvs with
               | Some x => x
               | None => VStr ""
               end) = Ok stored ->
            exists row,
              out_db o = add_overview db row
              /\ DailyOverview.overview_date row = d
              /\ DailyOverview.summary row = stored)
        /\ (forall e,
              bind_text rt
                (match lookup "summary" kvs with
                 | Some x => x
                 | None => VStr ""
                 end) = Raise e ->
              out_db o = db /\ out_value o = Ok (error_dict rt e d)))
  /\ (forall e,
        llm {| request_date := d; request_context := VDict [] |} = Raise e ->
        out_db o = db /\ out_value o = Ok (error_dict rt e d)).
Proof.
  intros E0 Hlate. cbv zeta.
  pose proof (anchor_snapshot_none db d Hlate) as Hnone.
  assert (Hgen : generate_daily_overview rt meta llm db d
                 = request_overview rt llm db d (VDict [])).
  { unfold generate_daily_overview, get_context_for_date.
    rewrite E0, Hnone. reflexivity. }
  rewrite Hgen. rewrite request_overview_calls.
  split; [reflexivity|]. split.
  { destruct (request_overview_frame rt llm db d (VDict []))
      as (_ & _ & H & _). exact H. }
  split.
  - intros text kvs Htext Hjson. split.
    + intros stored Hbind.
      rewrite (parsed_object_is_stored rt llm db d (VDict []) text kvs stored
                 Htext Hjson Hbind).
      cbn [out_db]. eexists. split; [reflexivity|]. split; reflexivity.
    + intros e Hbind.
      rewrite (request_overview_failure rt llm db d (VDict []) e).
      * split; reflexivity.
      * rewrite Htext. cbn [bind]. apply parse_overview_raises.
        right. exists kvs. auto.
  - intros e He. unfold request_overview. rewrite He. cbn [bind].
    split; reflexivity.
Qed.

Lemma generation_without_snapshot_witness :
  length
    (daily_overviews
       (out_db
          (generate_daily_overview CPython.runtime Sample.no_campaigns
             Examples.empty_object (Sample.store Sample.history)
             (jan_2024 1)))) = 1%nat
  /\ out_calls
       (generate_daily_overview CPython.runtime Sample.no_campaigns
          Examples.empty_object (Sample.store Sample.history) (jan_2024 1))
     = [{| call_db := Sample.store Sample.history;
           call_request :=
             {| request_date := jan_2024 1; request_context := VDict [] |} |}].
Proof.
  split; [vm_compute; reflexivity|].
  apply (generation_without_snapshot CPython.runtime Sample.no_campaigns
           Examples.empty_object (Sample.store Sample.history) (jan_2024 1)
           eq_refl).
  intros s Hs. cbn in Hs.
  destruct Hs as [<-|[<-|[<-|[]]]]; vm_compute; reflexivity.
Defined.

(** ** Cleaning the completion *)

Lemma rstrip_idempotent (s : string) : rstrip (rstrip s) = rstrip s.
Proof.
  induction s as [|c s IH]; [reflexivity|].
  cbn [rstrip]. destruct (rstrip s) as [|a r] eqn:E.
  - destruct (isspace c) eqn:Hc; [reflexivity|].
    cbn [rstrip]. rewrite Hc. reflexivity.
  - cbn [rstrip] in *. rewrite IH. reflexivity.
Qed.

Lemma lstrip_no_leading_space (s : string) : no_leading_space (lstrip s).
Proof.
  induction s as [|c s IH]; cbn [lstrip]; [exact I|].
  destruct (isspace c) eqn:Hc; [exact IH | exact Hc].
Qed.

Lemma lstrip_fixed (s : string) : no_leading_space s -> lstrip s = s.
Proof. destruct s as [|c s]; cbn; [reflexivity | intros ->; reflexivity]. Qed.

Lemma rstrip_no_leading_space (s : string) :
  no_leading_space s -> no_leading_space (rstrip s).
Proof.
  destruct s as [|c s]; cbn [rstrip no_leading_space]; [auto|].
  intros Hc. destruct (rstrip s); [rewrite Hc|]; exact Hc.
Qed.

Lemma strip_idempotent (s : string) : strip (strip s) = strip s.
Proof.
  unfold strip.
  rewrite (lstrip_fixed (rstrip (lstrip s)))
    by apply rstrip_no_leading_space, lstrip_no_leading_space.
  apply rstrip_idempotent.
Qed.

Lemma length_append (s t : string) :
  String.length (s ++ t) = (String.length s + String.length t)%nat.
Proof. induction s as [|c s IH]; cbn; [reflexivity | rewrite IH; reflexivity]. Qed.

Lemma substring_all (s : string) : substring 0 (String.length s) s = s.
Proof. induction s as [|c s IH]; cbn; [reflexivity | rewrite IH; reflexivity]. Qed.

Lemma substring_append_left (s t : string) :
  substring 0 (String.length s) (s ++ t) = s.
Proof.
  induction s as [|c s IH]; cbn; [destruct t; reflexivity|].
  rewrite IH. reflexivity.
Qed.

Lemma substring_append_right (s t : string) :
  substring (String.length s) (String.length t) (s ++ t) = t.
Proof. induction s as [|c s IH]; cbn; [apply substring_all | exact IH]. Qed.

Lemma drop_prefix_append (p r : string) :
  drop_prefix (String.length p) (p ++ r) = r.
Proof.
  unfold drop_prefix. rewrite length_append.
  replace (String.length p + String.length r - String.length p)%nat
    with (String.length r) by lia.
  apply substring_append_right.
Qed.

Lemma drop_suffix_append (s t : string) :
  drop_suffix (String.length t) (s ++ t) = s.
Proof.
  unfold drop_suffix. rewrite length_append.
  replace (String.length s + String.length t - String.length t)%nat
    with (String.length s) by lia.
  apply substring_append_left.
Qed.

Lemma endswith_append (s t : string) : endswith (s ++ t) t = true.
Proof.
  unfold endswith. rewrite length_append.
  replace (String.length s + String.length t - String.length t)%nat
    with (String.length s) by lia.
  rewrite substring_append_right, String.eqb_refl, andb_true_r.
  apply Nat.leb_le. lia.
Qed.

Lemma startswith_append (p r : string) : startswith (p ++ r) p = true.
Proof.
  unfold startswith. induction p as [|c p IH]; cbn; [destruct r; reflexivity|].
  destruct (ascii_dec c c); [exact IH | congruence].
Qed.

Lemma startswith_fence (s : string) :
  startswith s "```" = false -> startswith s "```json" = false.
Proof.
  unfold startswith.
  destruct s as [|a [|b [|c [|d s]]]]; cbn [prefix]; try reflexivity;
    repeat match goal with
           | |- context [ascii_dec ?x ?y] => destruct (ascii_dec x y)
           end; try reflexivity; intros H; discriminate H.
Qed.

(** X17: what [clean_content] returns has no white space at either end, and
    a completion that, once stripped, neither starts nor ends with a code
    fence is returned stripped and otherwise as it is. *)
Theorem clean_content_plain (text : string) :
  strip (clean_content text) = clean_content text
  /\ (startswith (strip text) "```" = false ->
      endswith (strip text) "```" = false ->
      clean_content text = strip text).
Proof.
  split.
  - unfold clean_content. cbv zeta. apply strip_idempotent.
  - intros Hstart Hend. unfold clean_content. cbv zeta.
    rewrite (startswith_fence _ Hstart), Hstart, Hend.
    apply strip_idempotent.
Qed.

Lemma clean_content_plain_witness :
  clean_content "  {}
" = "{}".
Proof.
  rewrite (proj2 (clean_content_plain "  {}
")); reflexivity.
Defined.

(** X18: a completion wrapped in a code fence is unwrapped: when the
    stripped text is [```json], a body and a closing [```], or [```], a body
    and a closing [```], what is parsed is the stripped body (in the first
    form, provided the text after the opening fence does not itself start
    with a fence; in the second, that it does not start with [json]). *)
Theorem clean_content_fenced (text body : string) :
  (strip text = "```json" ++ body ++ "```"
   /\ startswith (body ++ "```") "```" = false)
  \/ (strip text = "```" ++ body ++ "```"
      /\ startswith (body ++ "```") "json" = false) ->
  clean_content text = strip body.
Proof.
  intros [[Htext Hrest] | [Htext Hrest]]; unfold clean_content; cbv zeta;
    rewrite Htext.
  - rewrite (startswith_append "```json").
    change 7%nat with (String.length "```json").
    rewrite drop_prefix_append, Hrest, endswith_append.
    change 3%nat with (String.length "```").
    rewrite drop_suffix_append. reflexivity.
  - assert (Hjson : startswith ("```" ++ body ++ "```") "```json" = false).
    { unfold startswith in *. cbn [prefix append].
      repeat match goal with
             | |- context [ascii_dec ?x ?y] =>
                 destruct (ascii_dec x y); [|congruence]
             end.
      exact Hrest. }
    rewrite Hjson, (startswith_append "```").
    change 3%nat with (String.length "```").
    rewrite drop_prefix_append, endswith_append, drop_suffix_append.
    reflexivity.
Qed.

Lemma clean_content_fenced_witness :
  clean_content "```json
{}
```
" = "{}".
Proof.
  rewrite (clean_content_fenced "```json
{}
```
" "
{}
"); [reflexivity|].
  left. split; reflexivity.
Defined.

(** ** Daily snapshots *)

Lemma first_filter_some {A} (f : A -> bool) (rows : list A) (x : A) :
  first (filter f rows) = Some x -> In x rows /\ f x = true.
Proof. intros H. apply first_in, filter_In in H. exact H. Qed.

Lemma snapshot_of_insights_key d account insights :
  AdAccountSnapshot.snapshot_date (snapshot_of_insights d account insights) = d
  /\ AdAccountSnapshot.ad_account_id (snapshot_of_insights d account insights)
     = account.
Proof. destruct insights; split; reflexivity. Qed.

(** The three ways [create_daily_snapshot] can go. *)
Lemma create_daily_snapshot_cases client db d :
  let same_day s :=
    (AdAccountSnapshot.snapshot_date s =? d)
    && String.eqb (AdAccountSnapshot.ad_account_id s)
         (client_account_id client) in
  (exists e,
      create_daily_snapshot client db d = (db, Raise e)
      /\ (minus_days d 1 = Raise e
          \/ exists y, minus_days d 1 = Ok y
                       /\ filter same_day (ad_account_snapshots db) = []
                       /\ get_account_insights client y d = Raise e))
  \/ (exists y s,
        minus_days d 1 = Ok y
        /\ first (filter same_day (ad_account_snapshots db)) = Some s
        /\ create_daily_snapshot client db d = (db, Ok s))
  \/ (exists y insights,
        minus_days d 1 = Ok y
        /\ filter same_day (ad_account_snapshots db) = []
        /\ get_account_insights client y d = Ok insights
        /\ create_daily_snapshot client db d
           = (add_snapshot db
                (snapshot_of_insights d (client_account_id client) insights),
              Ok (snapshot_of_insights d (client_account_id client) insights))).
Proof.
  cbv zeta. unfold create_daily_snapshot.
  destruct (minus_days d 1) as [y|e]; [|left; exists e; auto].
  match goal with
  | |- context [first (filter ?f ?rows)] =>
      destruct (first (filter f rows)) as [s|] eqn:Hfirst
  end.
  - right. left. exists y, s. auto.
  - apply first_filter_none in Hfirst.
    destruct (get_account_insights client y d) as [insights|e] eqn:Hi.
    + right. right. exists y, insights. auto.
    + left. exists e. split; [reflexivity|]. right. exists y. auto.
Qed.

(** X19: [create_daily_snapshot] stores at most one snapshot per date and
    account.  A raise leaves the store as it was.  A returned snapshot is
    stored, dated the requested date and of the client's account; only the
    snapshot table can have changed, by that one row; asking again for the
    date returns the same snapshot without consulting the platform and
    without touching the store; and dates and accounts that were pairwise
    distinct stay so. *)
Theorem create_daily_snapshot_once client db d :
  let r := create_daily_snapshot client db d in
  (forall e, snd r = Raise e -> fst r = db)
  /\ (forall s,
        snd r = Ok s ->
        AdAccountSnapshot.snapshot_date s = d
        /\ AdAccountSnapshot.ad_account_id s = client_account_id client
        /\ In s (ad_account_snapshots (fst r))
        /\ (fst r = db \/ fst r = add_snapshot db s)
        /\ (forall client',
              client_account_id client' = client_account_id client ->
              create_daily_snapshot client' (fst r) d = (fst r, Ok s)))
  /\ (one_snapshot_per_day db -> one_snapshot_per_day (fst r)).
Proof.
  cbv zeta.
  destruct (create_daily_snapshot_cases client db d)
    as [(e & -> & _) | [(y & s & Hy & Hs & ->) | (y & i & Hy & Hnone & Hi & ->)]];
    cbn [fst snd].
  - split; [reflexivity|]. split; [discriminate | auto].
  - split; [reflexivity|]. split; [|auto].
    intros s' [= <-].
    destruct (first_filter_some _ _ _ Hs) as [Hin Hf].
    apply andb_true_iff in Hf as [Hd Ha].
    apply Z.eqb_eq in Hd. apply String.eqb_eq in Ha.
    repeat split; auto.
    intros client' Hacc. unfold create_daily_snapshot.
    rewrite Hy, Hacc, Hs. reflexivity.
  - destruct (snapshot_of_insights_key d (client_account_id client) i)
      as [Hd Ha].
    set (s := snapshot_of_insights d (client_account_id client) i) in *.
    split; [discriminate|]. split.
    + intros s' [= <-]. repeat split; auto.
      * cbn [add_snapshot ad_account_snapshots]. apply in_or_app.
        right. left. reflexivity.
      * intros client' Hacc. unfold create_daily_snapshot.
        rewrite Hy, Hacc. cbn [add_snapshot ad_account_snapshots].
        rewrite filter_app, Hnone. cbn [filter app].
        rewrite Hd, Ha, Z.eqb_refl, String.eqb_refl. reflexivity.
    + unfold one_snapshot_per_day. intros Hnd.
      cbn [add_snapshot ad_account_snapshots].
      rewrite map_app. cbn [map]. apply NoDup_snoc; [exact Hnd|].
      intros Hin. apply in_map_iff in Hin as (x & Hx & Hin).
      injection Hx as Hxd Hxa.
      pose proof (proj1 (filter_nil_iff _ _) Hnone x Hin) as Hno.
      cbv beta in Hno.
      rewrite Hxd, Hxa, Hd, Ha, Z.eqb_refl, String.eqb_refl in Hno.
      discriminate.
Qed.

Lemma create_daily_snapshot_once_witness :
  create_daily_snapshot Platform.unreachable
    (fst (create_daily_snapshot Platform.client (Sample.store Sample.history)
            (jan_2024 13)))
    (jan_2024 13)
  = (add_snapshot (Sample.store Sample.history)
       (snapshot_of_insights (jan_2024 13) "act_1" (Some Platform.insights)),
     Ok (snapshot_of_insights (jan_2024 13) "act_1" (Some Platform.insights))).
Proof.
  apply (proj1 (proj2 (create_daily_snapshot_once Platform.client
                         (Sample.store Sample.history) (jan_2024 13)))
           (snapshot_of_insights (jan_2024 13) "act_1" (Some Platform.insights))
           eq_refl);
    reflexivity.
Defined.

(** ** Health records *)

Lemma sum_int_cons (x : Z) (xs : list Z) : sum_int (x :: xs) = x + sum_int xs.
Proof.
  unfold sum_int. cbn [fold_left].
  assert (H : forall l a, fold_left Z.add l a = a + fold_left Z.add l 0).
  { induction l as [|y l IH]; intros a; cbn [fold_left]; [lia|].
    rewrite (IH (a + y)), (IH (0 + y)). lia. }
  rewrite (H xs (0 + x)). lia.
Qed.

Lemma sum_int_app (xs ys : list Z) :
  sum_int (xs ++ ys) = sum_int xs + sum_int ys.
Proof.
  induction xs as [|x xs IH]; [reflexivity|].
  cbn [app]. rewrite !sum_int_cons, IH. lia.
Qed.

Lemma map_result_app {A B} (f : A -> result B) (xs ys : list A)
    (us vs : list B) :
  map_result f xs = Ok us -> map_result f ys = Ok vs ->
  map_result f (xs ++ ys) = Ok (us ++ vs)%list.
Proof.
  revert us. induction xs as [|x xs IH]; intros us; cbn [map_result app].
  - intros [= <-]. auto.
  - destruct (f x) as [y|]; cbn [bind]; [|discriminate].
    destruct (map_result f xs) as [ys'|]; cbn [bind]; [|discriminate].
    intros [= <-] Hv. rewrite (IH ys' eq_refl Hv). reflexivity.
Qed.

Lemma counted_nil b t : counted b [] t t.
Proof.
  exists [], [], [], []. cbn [map_result]. unfold sum_int. cbn [fold_left].
  repeat split; lia.
Qed.

Lemma counted_app b s1 s2 t t1 t2 :
  counted b s1 t t1 -> counted b s2 t1 t2 -> counted b (s1 ++ s2) t t2.
Proof.
  intros (rs & ds & us & ms & Hr & Hd & Hu & Hm & Er & Ed & Eu & Em)
         (rs' & ds' & us' & ms' & Hr' & Hd' & Hu' & Hm' & Er' & Ed' & Eu' & Em').
  exists (rs ++ rs')%list, (ds ++ ds')%list, (us ++ us')%list, (ms ++ ms')%list.
  rewrite (map_result_app _ _ _ _ _ Hr Hr'), (map_result_app _ _ _ _ _ Hd Hd'),
    (map_result_app _ _ _ _ _ Hu Hu'), (map_result_app _ _ _ _ _ Hm Hm'),
    !sum_int_app.
  repeat split; lia.
Qed.

Lemma add_stat_counted b t stat t' :
  add_stat b t stat = Ok t' -> counted b [stat] t t'.
Proof.
  unfold add_stat.
  destruct (stat_count b stat "events_received") as [r|] eqn:Hr; cbn [bind];
    [|discriminate].
  destruct (stat_count b stat "events_dropped") as [d|] eqn:Hd; cbn [bind];
    [|discriminate].
  destruct (stat_count b stat "events_duplicate") as [u|] eqn:Hu; cbn [bind];
    [|discriminate].
  destruct (stat_count b stat "events_matched") as [m|] eqn:Hm; cbn [bind];
    [|discriminate].
  intros [= <-]. exists [r], [d], [u], [m]. cbn [map_result].
  rewrite Hr, Hd, Hu, Hm. cbn [bind total_received total_dropped
                                 total_duplicate total_matched].
  rewrite !sum_int_cons. unfold sum_int. cbn [fold_left].
  repeat split; lia.
Qed.

Lemma add_stats_counted b stats t t' :
  add_stats b t stats = Ok t' -> counted b stats t t'.
Proof.
  revert t. induction stats as [|stat stats IH]; intros t; cbn [add_stats].
  - intros [= <-]. apply counted_nil.
  - destruct (add_stat b t stat) as [t1|] eqn:H1; cbn [bind]; [|discriminate].
    intros H. apply (counted_app b [stat] stats t t1 t').
    + apply add_stat_counted. exact H1.
    + apply IH. exact H.
Qed.

Lemma add_pixels_counted b pixels t t' :
  add_pixels b t pixels = Ok t' -> counted b (all_stats pixels) t t'.
Proof.
  revert t. induction pixels as [|pixel pixels IH]; intros t;
    cbn [add_pixels all_stats flat_map].
  - intros [= <-]. apply counted_nil.
  - fold (all_stats pixels).
    destruct (pixel_stats pixel) as [[|stat stats]|]; cbn [bind app].
    + apply IH.
    + destruct (add_stats b t (stat :: stats)) as [t1|] eqn:H1; cbn [bind];
        [|discriminate].
      intros H. apply (counted_app b (stat :: stats) (all_stats pixels) t t1 t').
      * apply add_stats_counted. exact H1.
      * apply IH. exact H.
    + apply IH.
Qed.

Lemma map_result_cons_ok {A B} (f : A -> result B) (x : A) (xs : list A)
    (ys : list B) :
  map_result f (x :: xs) = Ok ys ->
  exists y ys', f x = Ok y /\ map_result f xs = Ok ys' /\ ys = y :: ys'.
Proof.
  cbn [map_result]. destruct (f x) as [y|]; cbn [bind]; [|discriminate].
  destruct (map_result f xs) as [ys'|]; cbn [bind]; [|discriminate].
  intros [= <-]. eauto.
Qed.

Lemma map_result_app_ok {A B} (f : A -> result B) (xs ys : list A)
    (zs : list B) :
  map_result f (xs ++ ys) = Ok zs ->
  exists us vs, map_result f xs = Ok us /\ map_result f ys = Ok vs.
Proof.
  revert zs. induction xs as [|x xs IH]; intros zs; cbn [app].
  - intros H. exists [], zs. auto.
  - intros H. apply map_result_cons_ok in H as (y & ys' & Hy & Hrest & _).
    destruct (IH _ Hrest) as (us & vs & Hus & Hvs).
    exists (y :: us), vs. cbn [map_result]. rewrite Hy, Hus. auto.
Qed.

(** When every counter converts, the loops run to their end. *)
Lemma add_stats_returns b stats t rs ds us ms :
  map_result (fun stat => stat_count b stat "events_received") stats = Ok rs ->
  map_result (fun stat => stat_count b stat "events_dropped") stats = Ok ds ->
  map_result (fun stat => stat_count b stat "events_duplicate") stats = Ok us ->
  map_result (fun stat => stat_count b stat "events_matched") stats = Ok ms ->
  exists t', add_stats b t stats = Ok t'.
Proof.
  revert t rs ds us ms.
  induction stats as [|stat stats IH]; intros t rs ds us ms Hr Hd Hu Hm;
    cbn [add_stats]; [eauto|].
  apply map_result_cons_ok in Hr as (r & rs' & Hr & Hrs & _).
  apply map_result_cons_ok in Hd as (d & ds' & Hd & Hds & _).
  apply map_result_cons_ok in Hu as (u & us' & Hu & Hus & _).
  apply map_result_cons_ok in Hm as (m & ms' & Hm & Hms & _).
  unfold add_stat. rewrite Hr, Hd, Hu, Hm. cbn [bind].
  eapply IH; eassumption.
Qed.

Lemma add_pixels_returns b pixels t rs ds us ms :
  map_result (fun stat => stat_count b stat "events_received")
    (all_stats pixels) = Ok rs ->
  map_result (fun stat => stat_count b stat "events_dropped")
    (all_stats pixels) = Ok ds ->
  map_result (fun stat => stat_count b stat "events_duplicate")
    (all_stats pixels) = Ok us ->
  map_result (fun stat => stat_count b stat "events_matched")
    (all_stats pixels) = Ok ms ->
  exists t', add_pixels b t pixels = Ok t'.
Proof.
  revert t rs ds us ms.
  induction pixels as [|pixel pixels IH]; intros t rs ds us ms;
    cbn [add_pixels all_stats flat_map]; [eauto|].
  fold (all_stats pixels).
  destruct (pixel_stats pixel) as [[|stat stats]|]; cbn [bind app].
  - apply IH.
  - change (stat :: stats ++ all_stats pixels)%list
      with ((stat :: stats) ++ all_stats pixels)%list.
    intros Hr Hd Hu Hm.
    apply map_result_app_ok in Hr as (r1 & r2 & Hr1 & Hr2).
    apply map_result_app_ok in Hd as (d1 & d2 & Hd1 & Hd2).
    apply map_result_app_ok in Hu as (u1 & u2 & Hu1 & Hu2).
    apply map_result_app_ok in Hm as (m1 & m2 & Hm1 & Hm2).
    destruct (add_stats_returns b (stat :: stats) t _ _ _ _ Hr1 Hd1 Hu1 Hm1)
      as [t1 ->].
    cbn [bind]. eapply IH; eassumption.
  - apply IH.
Qed.

(** X20: [create_events_manager_snapshot] builds a health record exactly
    when every counter of every statistics row converts with [int] and no
    rate overflows; the record's four counts are then the sums of the
    converted counters over all rows of all pixels, and its quality score is
    matched over received, or 0.0 when nothing was received. *)
Theorem health_record_totals b d pixels h :
  health_record b d pixels = Ok h
  <-> exists rs ds us ms q m r u,
        map_result (fun stat => stat_count b stat "events_received")
          (all_stats pixels) = Ok rs
        /\ map_result (fun stat => stat_count b stat "events_dropped")
             (all_stats pixels) = Ok ds
        /\ map_result (fun stat => stat_count b stat "events_duplicate")
             (all_stats pixels) = Ok us
        /\ map_result (fun stat => stat_count b stat "events_matched")
             (all_stats pixels) = Ok ms
        /\ rate (sum_int ms) (sum_int rs) = Ok q
        /\ rate (sum_int ms) (sum_int rs) = Ok m
        /\ rate (sum_int ds) (sum_int rs) = Ok r
        /\ rate (sum_int us) (sum_int rs) = Ok u
        /\ h = EventsManagerHealth.mk d
                 (Some (sum_int rs)) (Some (sum_int ds))
                 (Some (sum_int us)) (Some (sum_int ms)) (Some q).
Proof.
  unfold health_record. split.
  - destruct (add_pixels b _ pixels) as [t|] eqn:Ht; cbn [bind];
      [|discriminate].
    apply add_pixels_counted in Ht
      as (rs & ds & us & ms & Hr & Hd & Hu & Hm & Er & Ed & Eu & Em).
    cbn [total_received total_dropped total_duplicate total_matched] in *.
    rewrite Z.add_0_l in Er, Ed, Eu, Em. rewrite Er, Ed, Eu, Em.
    destruct (rate (sum_int ms) (sum_int rs)) as [q|] eqn:Hq; cbn [bind];
      [|discriminate].
    destruct (rate (sum_int ds) (sum_int rs)) as [r|] eqn:Hdr; cbn [bind];
      [|discriminate].
    destruct (rate (sum_int us) (sum_int rs)) as [u|] eqn:Hur; cbn [bind];
      [|discriminate].
    intros [= <-]. exists rs, ds, us, ms, q, q, r, u. repeat split; auto.
  - intros (rs & ds & us & ms & q & m & r & u
            & Hr & Hd & Hu & Hm & Hq & Hmr & Hdr & Hur & ->).
    destruct (add_pixels_returns b pixels
                {| total_received := 0; total_dropped := 0;
                   total_duplicate := 0; total_matched := 0 |}
                _ _ _ _ Hr Hd Hu Hm) as [t Ht].
    rewrite Ht. cbn [bind].
    apply add_pixels_counted in Ht
      as (rs' & ds' & us' & ms' & Hr' & Hd' & Hu' & Hm' & Er & Ed & Eu & Em).
    assert (rs' = rs) by congruence. assert (ds' = ds) by congruence.
    assert (us' = us) by congruence. assert (ms' = ms) by congruence.
    subst rs' ds' us' ms'.
    cbn [total_received total_dropped total_duplicate total_matched] in *.
    rewrite Z.add_0_l in Er, Ed, Eu, Em. rewrite Er, Ed, Eu, Em.
    rewrite Hq, Hdr, Hur. reflexivity.
Qed.

Lemma health_record_totals_witness :
  health_record Platform.builtins (jan_2024 13) Platform.pixels
  = Ok (EventsManagerHealth.mk (jan_2024 13)
          (Some 1000) (Some 10) (Some 0) (Some 900) (Some 0.9%float)).
Proof.
  apply (proj2 (health_record_totals Platform.builtins (jan_2024 13)
                  Platform.pixels _)).
  exists [600; 400], [6; 4], [0; 0], [540; 360],
    0.9%float, 0.9%float, 0.01%float, 0%float.
  repeat split; vm_compute; reflexivity.
Defined.

(** The three ways [create_events_manager_snapshot] can go. *)
Lemma create_events_manager_snapshot_cases client b db d :
  let same_day h := EventsManagerHealth.snapshot_date h =? d in
  (exists h,
      first (filter same_day (events_manager_health db)) = Some h
      /\ create_events_manager_snapshot client b db d = (db, Some h))
  \/ (filter same_day (events_manager_health db) = []
      /\ (get_events_manager_data client = []
          \/ exists e,
               health_record b d (get_events_manager_data client) = Raise e)
      /\ create_events_manager_snapshot client b db d = (db, None))
  \/ (exists h,
        filter same_day (events_manager_health db) = []
        /\ get_events_manager_data client <> []
        /\ health_record b d (get_events_manager_data client) = Ok h
        /\ create_events_manager_snapshot client b db d
           = (add_health db h, Some h)).
Proof.
  cbv zeta. unfold create_events_manager_snapshot.
  match goal with
  | |- context [first (filter ?f ?rows)] =>
      destruct (first (filter f rows)) as [h|] eqn:Hfirst
  end.
  - left. exists h. auto.
  - apply first_filter_none in Hfirst.
    destruct (get_events_manager_data client) as [|pixel pixels] eqn:Hp.
    + right. left. auto.
    + destruct (health_record b d (pixel :: pixels)) as [h|e] eqn:Hh.
      * right. right. exists h. repeat split; auto. discriminate.
      * right. left. repeat split; auto. right. exists e. reflexivity.
Qed.

Lemma health_record_date b d pixels h :
  health_record b d pixels = Ok h -> EventsManagerHealth.snapshot_date h = d.
Proof.
  unfold health_record.
  destruct (add_pixels b _ pixels); cbn [bind]; [|discriminate].
  repeat match goal with
         | |- context [rate ?a ?b] =>
             destruct (rate a b); cbn [bind]; [|discriminate]
         end.
  intros [= <-]. reflexivity.
Qed.

(** X21: [create_events_manager_snapshot] stores at most one health record
    per date and touches no other table.  Without a record for the date,
    an account without pixels, or a raise while the record is built, stores
    nothing and returns [None]; a returned record is stored and dated the
    requested date; asking again for the date returns the same record,
    whatever the platform then reports, and leaves the store alone; and
    record dates that were pairwise distinct stay so. *)
Theorem events_manager_snapshot_once client b db d :
  let r := create_events_manager_snapshot client b db d in
  (ad_account_snapshots (fst r) = ad_account_snapshots db
   /\ diagnostic_results (fst r) = diagnostic_results db
   /\ daily_overviews (fst r) = daily_overviews db)
  /\ (snd r = None -> fst r = db)
  /\ (filter (fun h => EventsManagerHealth.snapshot_date h =? d)
        (events_manager_health db) = [] ->
      get_events_manager_data client = []
      \/ (exists e,
             health_record b d (get_events_manager_data client) = Raise e) ->
      r = (db, None))
  /\ (forall h,
        snd r = Some h ->
        EventsManagerHealth.snapshot_date h = d
        /\ In h (events_manager_health (fst r))
        /\ (fst r = db \/ fst r = add_health db h)
        /\ (forall client' b',
              create_events_manager_snapshot client' b' (fst r) d
              = (fst r, Some h)))
  /\ (one_health_record_per_day db -> one_health_record_per_day (fst r)).
Proof.
  cbv zeta.
  destruct (create_events_manager_snapshot_cases client b db d)
    as [(h & Hh & ->)
       | [(Hnone & Hwhy & ->) | (h & Hnone & Hpix & Hrec & ->)]];
    cbn [fst snd].
  - destruct (first_filter_some _ _ _ Hh) as [Hin Hd].
    apply Z.eqb_eq in Hd.
    split; [auto|]. split; [reflexivity|]. split.
    { intros Hnone. rewrite Hnone in Hh. discriminate. }
    split; [|auto].
    intros h' [= <-]. repeat split; auto.
    intros client' b'. unfold create_events_manager_snapshot.
    rewrite Hh. reflexivity.
  - split; [auto|]. split; [reflexivity|]. split; [reflexivity|].
    split; [discriminate | auto].
  - pose proof (health_record_date b d _ h Hrec) as Hd.
    split; [auto|]. split; [discriminate|]. split.
    { intros _ [Hempty | [e He]]; [contradiction | congruence]. }
    split.
    + intros h' [= <-]. repeat split; auto.
      * cbn [add_health events_manager_health]. apply in_or_app.
        right. left. reflexivity.
      * intros client' b'. unfold create_events_manager_snapshot.
        cbn [add_health events_manager_health].
        rewrite filter_app, Hnone. cbn [filter app].
        rewrite Hd, Z.eqb_refl. reflexivity.
    + unfold one_health_record_per_day. intros Hnd.
      cbn [add_health events_manager_health].
      rewrite map_app. cbn [map]. apply NoDup_snoc; [exact Hnd|].
      intros Hin. apply in_map_iff in Hin as (x & Hx & Hin).
      pose proof (proj1 (filter_nil_iff _ _) Hnone x Hin) as Hno.
      cbv beta in Hno. rewrite Hx, Hd, Z.eqb_refl in Hno. discriminate.
Qed.

Lemma events_manager_snapshot_once_witness :
  create_events_manager_snapshot Platform.silent Platform.builtins
    (Sample.store Sample.history) (jan_2024 13)
  = (Sample.store Sample.history, None).
Proof.
  apply (proj1 (proj2 (proj2 (events_manager_snapshot_once Platform.silent
                                Platform.builtins
                                (Sample.store Sample.history) (jan_2024 13))))).
  - reflexivity.
  - left. reflexivity.
Defined.

(** ** The daily job *)

(** The job either stops before anything is stored, or goes through its
    four steps. *)
Lemma run_daily_job_cases rt b meta client llm db now :
  run_daily_job rt b meta client llm db now = (db, [])
  \/ exists c y db1 s db2 h,
       client = Some c
       /\ minus_days (midnight now) 1 = Ok y
       /\ create_daily_snapshot c db y = (db1, Ok s)
       /\ create_events_manager_snapshot c b db1 y = (db2, h)
       /\ run_daily_job rt b meta client llm db now
          = (out_db
               (generate_daily_overview rt meta llm
                  (add_diagnostics db2 (compute_all_diagnostics rt meta db2 s))
                  y),
             out_calls
               (generate_daily_overview rt meta llm
                  (add_diagnostics db2 (compute_all_diagnostics rt meta db2 s))
                  y)).
Proof.
  unfold run_daily_job.
  destruct client as [c|]; [|left; reflexivity].
  destruct (minus_days (midnight now) 1) as [y|]; [|left; reflexivity].
  destruct (create_daily_snapshot_cases c db y)
    as [(e & H & _) | [(y' & s & _ & _ & H) | (y' & i & _ & _ & _ & H)]];
    rewrite H; [left; reflexivity | |].
  - destruct (create_events_manager_snapshot c b db y) as [db2 h] eqn:Hh.
    right. exists c, y, db, s, db2, h. auto 10.
  - match goal with
    | |- context [create_events_manager_snapshot c b ?db1 y] =>
        destruct (create_events_manager_snapshot c b db1 y) as [db2 h] eqn:Hh
    end.
    right. do 6 eexists. repeat split; eauto.
Qed.

Lemma create_daily_snapshot_frame c db y db1 s :
  create_daily_snapshot c db y = (db1, Ok s) ->
  (ad_account_snapshots db1 = ad_account_snapshots db
   \/ ad_account_snapshots db1 = (ad_account_snapshots db ++ [s])%list)
  /\ In s (ad_account_snapshots db1)
  /\ AdAccountSnapshot.snapshot_date s = y
  /\ events_manager_health db1 = events_manager_health db
  /\ diagnostic_results db1 = diagnostic_results db
  /\ daily_overviews db1 = daily_overviews db.
Proof.
  destruct (create_daily_snapshot_cases c db y)
    as [(e & -> & _) | [(y' & s' & _ & Hs & ->) | (y' & i & _ & _ & _ & ->)]];
    intros H; [discriminate H | injection H as <- <- | injection H as <- <-].
  - destruct (first_filter_some _ _ _ Hs) as [Hin Hf].
    apply andb_true_iff in Hf as [Hd _]. apply Z.eqb_eq in Hd. auto 10.
  - destruct (snapshot_of_insights_key y (client_account_id c) i) as [Hd _].
    cbn [add_snapshot ad_account_snapshots events_manager_health
           diagnostic_results daily_overviews].
    repeat split; auto. apply in_or_app. right. left. reflexivity.
Qed.

Lemma create_events_manager_snapshot_frame c b db y db2 h :
  create_events_manager_snapshot c b db y = (db2, h) ->
  ad_account_snapshots db2 = ad_account_snapshots db
  /\ (events_manager_health db2 = events_manager_health db
      \/ exists row,
           events_manager_health db2 = (events_manager_health db ++ [row])%list)
  /\ diagnostic_results db2 = diagnostic_results db
  /\ daily_overviews db2 = daily_overviews db.
Proof.
  destruct (create_events_manager_snapshot_cases c b db y)
    as [(h' & _ & ->) | [(_ & _ & ->) | (h' & _ & _ & _ & ->)]];
    intros [= <- <-]; repeat split; auto.
  right. exists h'. reflexivity.
Qed.

Lemma generate_daily_overview_frame rt meta llm db d :
  let o := generate_daily_overview rt meta llm db d in
  ad_account_snapshots (out_db o) = ad_account_snapshots db
  /\ events_manager_health (out_db o) = events_manager_health db
  /\ (exists rows,
        diagnostic_results (out_db o) = (diagnostic_results db ++ rows)%list)
  /\ (daily_overviews (out_db o) = daily_overviews db
      \/ exists row,
           daily_overviews (out_db o) = (daily_overviews db ++ [row])%list)
  /\ (length (out_calls o) <= 1)%nat.
Proof.
  cbv zeta.
  assert (Hnil : exists rows : list DiagnosticResult.t,
             diagnostic_results db = (diagnostic_results db ++ rows)%list)
    by (exists []; rewrite app_nil_r; reflexivity).
  destruct (existing_overview db d) as [existing|] eqn:E0.
  { rewrite (generate_daily_overview_cached _ _ _ _ _ _ E0).
    cbn [out_db out_calls length]. repeat split; auto. }
  destruct (generate_daily_overview_cases rt meta llm db d E0)
    as [(e & _ & ->) | [(c & _ & _ & ->) | (c & s & c' & _ & Hs & _ & ->)]].
  - cbn [out_db out_calls length]. repeat split; auto.
  - destruct (request_overview_frame rt llm db d c) as (-> & -> & -> & Hov).
    rewrite request_overview_calls. cbn [length].
    split; [reflexivity|]. split; [reflexivity|]. split; [exact Hnil|].
    split; [|lia].
    destruct Hov as [H | (row & H & _)]; [left; exact H|].
    right. exists row. exact H.
  - destruct (request_overview_frame rt llm
                (add_diagnostics db (compute_all_diagnostics rt meta db s))
                d c') as (-> & -> & -> & Hov).
    rewrite request_overview_calls. cbn [length].
    split; [reflexivity|]. split; [reflexivity|]. split.
    { eexists. reflexivity. }
    split; [|lia].
    destruct Hov as [H | (row & H & _)]; [left; exact H|].
    right. exists row. exact H.
Qed.

(** X22: the daily job only appends: at most one snapshot, one health
    record and one overview, and diagnostics; it consults the model at most
    once.  When the platform client cannot be constructed, or creating the
    snapshot raises, it stores nothing and does not consult the model. *)
Theorem daily_job_only_appends rt b meta client llm db now :
  let r := run_daily_job rt b meta client llm db now in
  (exists rows,
      ad_account_snapshots (fst r) = (ad_account_snapshots db ++ rows)%list
      /\ (length rows <= 1)%nat)
  /\ (exists rows,
        events_manager_health (fst r)
        = (events_manager_health db ++ rows)%list
        /\ (length rows <= 1)%nat)
  /\ (exists rows,
        diagnostic_results (fst r) = (diagnostic_results db ++ rows)%list)
  /\ (exists rows,
        daily_overviews (fst r) = (daily_overviews db ++ rows)%list
        /\ (length rows <= 1)%nat)
  /\ (length (snd r) <= 1)%nat
  /\ (client = None -> r = (db, []))
  /\ (forall c y e,
        client = Some c ->
        minus_days (midnight now) 1 = Ok y ->
        snd (create_daily_snapshot c db y) = Raise e ->
        r = (db, [])).
Proof.
  cbv zeta.
  destruct (run_daily_job_cases rt b meta client llm db now)
    as [H | (c & y & db1 & s & db2 & h & Hc & Hy & H1 & H2 & H)];
    rewrite H; cbn [fst snd length].
  - split; [exists []; rewrite app_nil_r; split; [reflexivity | cbn; lia]|].
    split; [exists []; rewrite app_nil_r; split; [reflexivity | cbn; lia]|].
    split; [exists []; rewrite app_nil_r; reflexivity|].
    split; [exists []; rewrite app_nil_r; split; [reflexivity | cbn; lia]|].
    split; [lia|]. split; reflexivity.
  - destruct (create_daily_snapshot_frame _ _ _ _ _ H1)
      as (Hs1 & _ & _ & Hh1 & Hd1 & Ho1).
    destruct (create_events_manager_snapshot_frame _ _ _ _ _ _ H2)
      as (Hs2 & Hh2 & Hd2 & Ho2).
    destruct (generate_daily_overview_frame rt meta llm
                (add_diagnostics db2 (compute_all_diagnostics rt meta db2 s)) y)
      as (Hs3 & Hh3 & (rows & Hd3) & Ho3 & Hcalls).
    cbn [add_diagnostics ad_account_snapshots events_manager_health
           diagnostic_results daily_overviews] in Hs3, Hh3, Hd3, Ho3.
    rewrite Hs3, Hh3, Hd3, Hs2, Hd2, Hd1.
    split.
    { destruct Hs1 as [-> | ->];
        [exists []; rewrite app_nil_r | exists [s]];
        split; try reflexivity; cbn [length]; lia. }
    split.
    { destruct Hh2 as [-> | [row ->]]; rewrite Hh1;
        [exists []; rewrite app_nil_r | exists [row]];
        split; try reflexivity; cbn [length]; lia. }
    split.
    { eexists. rewrite <- app_assoc. reflexivity. }
    split.
    { destruct Ho3 as [-> | [row ->]]; rewrite Ho2, Ho1;
        [exists []; rewrite app_nil_r | exists [row]];
        split; try reflexivity; cbn [length]; lia. }
    split; [exact Hcalls|]. split.
    + intros Hn. congruence.
    + intros c' y' e Hc' Hy' He.
      assert (c' = c) by congruence. assert (y' = y) by congruence.
      subst c' y'. rewrite H1 in He. discriminate.
Qed.

Lemma daily_job_only_appends_witness :
  run_daily_job CPython.runtime Platform.builtins Sample.no_campaigns
    (Some Platform.unreachable) Examples.empty_object
    (Sample.store Sample.history) (jan_2024 14 + 3600000000)
  = (Sample.store Sample.history, []).
Proof.
  apply (proj2 (proj2 (proj2 (proj2 (proj2 (proj2
           (daily_job_only_appends CPython.runtime Platform.builtins
              Sample.no_campaigns (Some Platform.unreachable)
              Examples.empty_object (Sample.store Sample.history)
              (jan_2024 14 + 3600000000)))))))
           Platform.unreachable (jan_2024 13)
           (Exn CollaboratorError "platform unreachable"));
    reflexivity.
Defined.

(** On a store whose snapshots of the day all belong to the client's
    account, the snapshot [create_daily_snapshot] returns is the anchor of
    that day. *)
Lemma created_snapshot_is_anchor c db y db1 s :
  (forall x, In x (ad_account_snapshots db) ->
             AdAccountSnapshot.snapshot_date x = y ->
             AdAccountSnapshot.ad_account_id x = client_account_id c) ->
  create_daily_snapshot c db y = (db1, Ok s) ->
  anchor_snapshot db1 y = Some s.
Proof.
  intros Hacc.
  assert (Hsame :
            filter (fun x => AdAccountSnapshot.snapshot_date x =? y)
              (ad_account_snapshots db)
            = filter
                (fun x =>
                   (AdAccountSnapshot.snapshot_date x =? y)
                   && String.eqb (AdAccountSnapshot.ad_account_id x)
                        (client_account_id c))
                (ad_account_snapshots db)).
  { apply filter_ext_in. intros x Hx.
    destruct (Z.eqb_spec (AdAccountSnapshot.snapshot_date x) y) as [Hd|];
      [|reflexivity].
    rewrite (Hacc x Hx Hd), String.eqb_refl. reflexivity. }
  destruct (create_daily_snapshot_cases c db y)
    as [(e & -> & _) | [(y' & s' & _ & Hs & ->) | (y' & i & _ & Hnone & _ & ->)]];
    intros H; [discriminate H | injection H as <- <- | injection H as <- <-];
    unfold anchor_snapshot.
  - rewrite Hsame, Hs. reflexivity.
  - destruct (snapshot_of_insights_key y (client_account_id c) i) as [Hd _].
    cbn [add_snapshot ad_account_snapshots].
    rewrite filter_app, Hsame, Hnone. cbn [filter app].
    rewrite Hd, Z.eqb_refl. reflexivity.
Qed.

(** X23: when the daily job gets as far as consulting the model, on a store
    whose snapshots of the day all belong to the client's account, every
    diagnostic of the day is stored twice: once by the job itself and once
    more by the overview generation it then runs. *)
Theorem daily_job_stores_diagnostics_twice rt b meta c llm db now y call :
  minus_days (midnight now) 1 = Ok y ->
  (forall x, In x (ad_account_snapshots db) ->
             AdAccountSnapshot.snapshot_date x = y ->
             AdAccountSnapshot.ad_account_id x = client_account_id c) ->
  snd (run_daily_job rt b meta (Some c) llm db now) = [call] ->
  let final := fst (run_daily_job rt b meta (Some c) llm db now) in
  exists s,
    In s (ad_account_snapshots final)
    /\ AdAccountSnapshot.snapshot_date s = y
    /\ diagnostic_results final
       = (diagnostic_results db
            ++ compute_all_diagnostics rt meta final s
            ++ compute_all_diagnostics rt meta final s)%list.
Proof.
  intros Hy Hacc Hcall. cbv zeta.
  destruct (run_daily_job_cases rt b meta (Some c) llm db now)
    as [H | (c' & y' & db1 & s & db2 & h & Hc & Hy' & H1 & H2 & H)];
    rewrite H in Hcall |- *; cbn [fst snd] in *; [discriminate|].
  assert (c' = c) by congruence. assert (y' = y) by congruence. subst c' y'.
  destruct (create_daily_snapshot_frame _ _ _ _ _ H1)
    as (_ & Hin & Hdate & Hh1 & Hd1 & _).
  destruct (create_events_manager_snapshot_frame _ _ _ _ _ _ H2)
    as (Hs2 & _ & Hd2 & _).
  pose proof (created_snapshot_is_anchor c db y db1 s Hacc H1) as Hanchor.
  set (rows := compute_all_diagnostics rt meta db2 s) in *.
  assert (Hanchor3 : anchor_snapshot (add_diagnostics db2 rows) y = Some s).
  { rewrite <- Hanchor. apply anchor_snapshot_frame.
    cbn [add_diagnostics ad_account_snapshots]. exact Hs2. }
  destruct (generate_daily_overview_consulted _ _ _ _ _ _ Hcall)
    as (_ & db4 & ctx & Hdb4 & _ & _ & Hgen).
  destruct Hdb4 as [[Hnone _] | (s' & Hs' & ->)]; [congruence|].
  assert (s' = s) by congruence. subst s'.
  rewrite Hgen.
  match goal with
  | |- context [request_overview rt llm ?db5 y ctx] =>
      destruct (request_overview_frame rt llm db5 y ctx)
        as (Hs5 & Hh5 & Hd5 & _)
  end.
  cbn [add_diagnostics ad_account_snapshots events_manager_health
         diagnostic_results] in Hs5, Hh5, Hd5.
  assert (Hrows : forall db',
             ad_account_snapshots db' = ad_account_snapshots db2 ->
             events_manager_health db' = events_manager_health db2 ->
             compute_all_diagnostics rt meta db' s = rows).
  { intros db' Ha Hb. apply compute_all_diagnostics_frame; assumption. }
  exists s. split; [rewrite Hs5, Hs2; exact Hin|]. split; [exact Hdate|].
  rewrite (Hrows _ Hs5 Hh5), Hd5.
  rewrite (Hrows (add_diagnostics db2 rows) eq_refl eq_refl).
  rewrite Hd2, Hd1, <- app_assoc. reflexivity.
Qed.

Lemma daily_job_stores_diagnostics_twice_witness :
  exists s,
    In s
      (ad_account_snapshots
         (fst (run_daily_job CPython.runtime Platform.builtins
                 Sample.no_campaigns (Some Platform.client)
                 Examples.empty_object (Sample.store Sample.history)
                 (jan_2024 14 + 3600000000))))
    /\ AdAccountSnapshot.snapshot_date s = jan_2024 13
    /\ diagnostic_results
         (fst (run_daily_job CPython.runtime Platform.builtins
                 Sample.no_campaigns (Some Platform.client)
                 Examples.empty_object (Sample.store Sample.history)
                 (jan_2024 14 + 3600000000)))
       = (diagnostic_results (Sample.store Sample.history)
            ++ compute_all_diagnostics CPython.runtime Sample.no_campaigns
                 (fst (run_daily_job CPython.runtime Platform.builtins
                         Sample.no_campaigns (Some Platform.client)
                         Examples.empty_object (Sample.store Sample.history)
                         (jan_2024 14 + 3600000000))) s
            ++ compute_all_diagnostics CPython.runtime Sample.no_campaigns
                 (fst (run_daily_job CPython.runtime Platform.builtins
                         Sample.no_campaigns (Some Platform.client)
                         Examples.empty_object (Sample.store Sample.history)
                         (jan_2024 14 + 3600000000))) s)%list.
Proof.
  refine (daily_job_stores_diagnostics_twice CPython.runtime Platform.builtins
            Sample.no_campaigns Platform.client Examples.empty_object
            (Sample.store Sample.history) (jan_2024 14 + 3600000000)
            (jan_2024 13) _ eq_refl _ _).
  - intros x Hx _. cbn in Hx.
    destruct Hx as [<-|[<-|[<-|[]]]]; reflexivity.
  - vm_compute. reflexivity.
Defined.

(** ** A day without delivery *)

(** X24: when the platform reports nothing for a day of which the store has
    no snapshot, [create_daily_snapshot] stores zeros and no CPM; if the
    account's previous snapshot has a spend and a CPM above zero, generating
    the overview of that day then raises while the context is assembled:
    the model is not consulted and nothing is stored. *)
Theorem empty_day_aborts_overview rt meta llm c db d y p x cpm :
  minus_days d 1 = Ok y ->
  get_account_insights c y d = Ok None ->
  (forall s, In s (ad_account_snapshots db) ->
             AdAccountSnapshot.snapshot_date s <> d) ->
  previous_snapshot_of db (snapshot_of_insights d (client_account_id c) None)
  = Some p ->
  AdAccountSnapshot.spend p = Some x -> gt x 0 = true ->
  AdAccountSnapshot.cpm p = Some cpm -> gt cpm 0 = true ->
  existing_overview db d = None ->
  let created := snapshot_of_insights d (client_account_id c) None in
  create_daily_snapshot c db d = (add_snapshot db created, Ok created)
  /\ AdAccountSnapshot.spend created = Some 0%float
  /\ AdAccountSnapshot.cpm created = None
  /\ exists e,
       generate_daily_overview rt meta llm (add_snapshot db created) d
       = {| out_db := add_snapshot db created;
            out_calls := [];
            out_value := Raise e |}.
Proof.
  intros Hy Hi Hfresh Hp Hx Hgx Hc Hgc E0. cbv zeta.
  set (created := snapshot_of_insights d (client_account_id c) None) in *.
  assert (Hnone : forall f,
             filter
               (fun s => (AdAccountSnapshot.snapshot_date s =? d) && f s)
               (ad_account_snapshots db) = []).
  { intros f. apply filter_none. intros s Hs.
    apply andb_false_iff. left. apply Z.eqb_neq. apply Hfresh. exact Hs. }
  split.
  { unfold create_daily_snapshot. rewrite Hy, (Hnone _), Hi. reflexivity. }
  split; [reflexivity|]. split; [reflexivity|].
  assert (Hanchor : anchor_snapshot (add_snapshot db created) d = Some created).
  { unfold anchor_snapshot. cbn [add_snapshot ad_account_snapshots].
    rewrite filter_app.
    rewrite (filter_none (fun s => AdAccountSnapshot.snapshot_date s =? d)
               (ad_account_snapshots db))
      by (intros s Hs; apply Z.eqb_neq; apply Hfresh; exact Hs).
    cbn [filter app AdAccountSnapshot.snapshot_date created
           snapshot_of_insights].
    rewrite Z.eqb_refl. reflexivity. }
  assert (Hprev : previous_snapshot_of (add_snapshot db created) created
                  = Some p).
  { rewrite <- Hp. unfold previous_snapshot_of.
    cbn [add_snapshot ad_account_snapshots]. rewrite filter_app.
    cbn [filter]. rewrite Z.ltb_irrefl, andb_false_r, app_nil_r.
    reflexivity. }
  destruct (missing_cpm_raises rt (add_snapshot db created) d created p x cpm
              Hanchor Hprev Hx Hgx Hc Hgc eq_refl) as [e He].
  exists e. unfold generate_daily_overview.
  assert (E1 : existing_overview (add_snapshot db created) d = None)
    by exact E0.
  rewrite E1, He. reflexivity.
Qed.

Lemma empty_day_aborts_overview_witness :
  exists e,
    generate_daily_overview CPython.runtime Sample.no_campaigns
      Examples.empty_object
      (add_snapshot (Sample.store Sample.history) (no_delivery 13))
      (jan_2024 13)
    = {| out_db := add_snapshot (Sample.store Sample.history) (no_delivery 13);
         out_calls := [];
         out_value := Raise e |}.
Proof.
  refine (proj2 (proj2 (proj2
            (empty_day_aborts_overview CPython.runtime Sample.no_campaigns
               Examples.empty_object Platform.silent
               (Sample.store Sample.history) (jan_2024 13) (jan_2024 12)
               (Sample.snapshot 12 10 5) 100%float 5%float
               eq_refl eq_refl _ eq_refl eq_refl eq_refl eq_refl eq_refl
               eq_refl)))).
  intros s Hs. cbn in Hs.
  destruct Hs as [<-|[<-|[<-|[]]]]; vm_compute; discriminate.
Defined.

(** ** Severity of a tracking degradation *)

(** Above 0.15 is above 0.08. *)
Lemma gt_015_gt_008 (x : float) : gt x 0.15 = true -> gt x 0.08 = true.
Proof.
  unfold gt. rewrite !FloatAxioms.ltb_spec.
  change (Prim2SF 0.15) with (S754_finite false 5404319552844595 (-55)).
  change (Prim2SF 0.08) with (S754_finite false 5764607523034235 (-56)).
  unfold SFltb.
  destruct (Prim2SF x) as [s|s| |s m e]; cbn [SFcompare]; try discriminate.
  - destruct s; [discriminate | reflexivity].
  - destruct s; [discriminate|].
    destruct (Z.compare_spec (-55) e), (Z.compare_spec (-56) e);
      try lia; try discriminate; try reflexivity.
Qed.

(** X25: a tracking diagnostic carries as current value the quality score
    of the health record that the engine returns first among those dated
    within the day up to the snapshot's date, as previous value the average
    of the scores of the seven most recent records of the seven days before,
    and as change minus their difference times 100; its severity is "high"
    exactly when the average exceeds the recent score by more than 0.15,
    "medium" exactly when by more than 0.08 but not more than 0.15, and
    "low" otherwise, also when the recent score is above the average. *)
Theorem tracking_severity_thresholds rt db s d :
  compute_tracking_degradation rt db s = Some d ->
  exists date_7d_ago date_1d_ago recent_health recent scores average,
    minus_days (AdAccountSnapshot.snapshot_date s) 7 = Ok date_7d_ago
    /\ minus_days (AdAccountSnapshot.snapshot_date s) 1 = Ok date_1d_ago
    /\ first
         (index_scan (health_rank rt)
            (filter
               (fun h =>
                  (date_1d_ago <=? EventsManagerHealth.snapshot_date h)
                  && (EventsManagerHealth.snapshot_date h
                      <=? AdAccountSnapshot.snapshot_date s))
               (events_manager_health db))) = Some recent_health
    /\ EventsManagerHealth.tracking_quality_score recent_health = Some recent
    /\ not_none
         (map EventsManagerHealth.tracking_quality_score
            (limit 7
               (order_by_desc EventsManagerHealth.snapshot_date
                  (filter
                     (fun h =>
                        (date_7d_ago <=? EventsManagerHealth.snapshot_date h)
                        && (EventsManagerHealth.snapshot_date h
                            <? AdAccountSnapshot.snapshot_date s))
                     (events_manager_health db))))) = scores
    /\ float_div_int (builtin_sum rt scores) (Z.of_nat (length scores))
       = Ok average
    /\ DiagnosticResult.current_value d = Some recent
    /\ DiagnosticResult.previous_value d = Some average
    /\ DiagnosticResult.change_percentage d
       = Some (- (average - recent) * 100)%float
    /\ (DiagnosticResult.severity d = "high"
        <-> gt (average - recent) 0.15 = true)
    /\ (DiagnosticResult.severity d = "medium"
        <-> gt (average - recent) 0.08 = true
            /\ gt (average - recent) 0.15 = false)
    /\ (DiagnosticResult.severity d = "low"
        <-> gt (average - recent) 0.08 = false).
Proof.
  intros H. apply try_except_some in H. unfold tracking_degradation_body in H.
  body_inv H. apply Ok_inj in H. injection H as <-.
  all: cbn [DiagnosticResult.current_value DiagnosticResult.previous_value
              DiagnosticResult.change_percentage DiagnosticResult.severity].
  all: match goal with
       | E7 : minus_days _ 7 = Ok ?d7,
         E1 : minus_days _ 1 = Ok ?d1,
         Er : first _ = Some ?rh,
         Es : EventsManagerHealth.tracking_quality_score _ = Some ?r,
         En : not_none _ = ?sc,
         Ea : float_div_int _ _ = Ok ?a |- _ =>
           exists d7, d1, rh, r, sc, a;
           do 6 (split; [first [assumption | reflexivity]|]);
           split; [reflexivity|]; split; [reflexivity|];
           split; [reflexivity|];
           pose proof (gt_015_gt_008 (a - r)) as Hlt;
           destruct (gt (a - r) 0.15) eqn:Hhigh;
           [rewrite (Hlt eq_refl)|destruct (gt (a - r) 0.08) eqn:Hmed]
       end.
  all: repeat split; intros; try reflexivity; try discriminate;
    try match goal with
        | H : _ /\ _ |- _ => destruct H; discriminate
        end.
Qed.

Lemma tracking_severity_thresholds_witness :
  exists recent average,
    DiagnosticResult.current_value
      (DiagnosticResult.mk (jan_2024 13) "tracking_degradation"
         "tracking_quality_score" (Some 0.7%float)
         (Some 0.94499999999999995%float) (Some (-24.499999999999996)%float)
         "high" 0.85%float
         "Tracking quality score declined by 0.245. Current score: 0.700, 7-day average: 0.945."
         "Significant tracking degradation. Urgent review of tracking setup required. Check pixel health, iOS attribution, and server-side tracking."
         [("events_received", VInt 1000); ("events_dropped", VInt 10);
          ("snapshots_analyzed", VInt 2)])
    = Some recent
    /\ gt (average - recent) 0.15 = true.
Proof.
  destruct (tracking_severity_thresholds CPython.runtime Health.store
              (Examples.today 11) _ eq_refl)
    as (_ & _ & _ & recent & _ & average
        & _ & _ & _ & _ & _ & _ & Hc & _ & _ & Hhigh & _).
  exists recent, average. split; [exact Hc|].
  apply Hhigh. reflexivity.
Defined.
